(** * BrandGPT: crawler, structural JSON converter, vector store,
      reranker, retrieval pipeline and ingestion coordinator.

    A shallow embedding of the Python sources under [brandgpt/] and the
    properties of the specification checked against it.

    Conventions of the embedding:
    - a Python [int] is a [Z]; a length is a [nat];
    - a Python [str] is a [string] (one [ascii] per character, so the
      embedding covers strings whose characters are below code 256);
    - a [try]/[except] block is a value of type [exn + A]: [inl e] is the
      raised exception, [inr a] the returned value;
    - services outside the repository (the JSON decoder, the text splitter
      of langchain, the embedding model, the Qdrant client, the cross
      encoder, the language model, the HTTP session) are variables of the
      section that uses them. *)

From Stdlib Require Import ZArith String Ascii List Bool Lia DecimalString.
From stdpp Require Import gmap strings list.

Import ListNotations.
Local Open Scope string_scope.
Set Warnings "-register-all".

(** ** Python helpers *)

Module Py.

(** Exceptions: the class decides which [except] clause catches it, the
    message is what [str(e)] yields. [JSONDecodeError] is a subclass of
    [ValueError]. *)
Inductive exc_class :=
| JSONDecodeError | ValueError | AttributeError | KeyError
| FileNotFoundError | RuntimeError.

Record exn := Exn { exn_class : exc_class; exn_msg : string }.

Definition is_JSONDecodeError (e : exn) : bool :=
  match exn_class e with JSONDecodeError => true | _ => false end.

Definition is_ValueError (e : exn) : bool :=
  match exn_class e with JSONDecodeError | ValueError => true | _ => false end.

Definition result (A : Type) : Type := (exn + A)%type.

Definition bind {A B} (r : result A) (k : A -> result B) : result B :=
  match r with inl e => inl e | inr a => k a end.

(** [str(n)] for an [int]. *)
Definition str_int (n : Z) : string := NilZero.string_of_int (Z.to_int n).

(** [str(b)] for a [bool]. *)
Definition str_bool (b : bool) : string := if b then "True" else "False".

Definition str_of_nat (n : nat) : string := str_int (Z.of_nat n).

(** [sep.join(parts)] *)
Definition join (sep : string) (parts : list string) : string :=
  String.concat sep parts.

Definition len (s : string) : nat := String.length s.

Definition code (c : ascii) : nat := nat_of_ascii c.

(** Casing of the characters below code 256, as [str.lower()] and
    [str.title()] see it. Upper case: [A]-[Z] and U+00C0-U+00DE without
    the multiplication sign U+00D7. Lower case: [a]-[z], U+00DF-U+00FF
    without the division sign U+00F7, the ordinal indicators U+00AA and
    U+00BA and the micro sign U+00B5. *)
Definition is_upper (c : ascii) : bool :=
  let n := code c in
  ((65 <=? n)%nat && (n <=? 90)%nat)
  || ((192 <=? n)%nat && (n <=? 222)%nat && negb (n =? 215)%nat).

Definition is_lower (c : ascii) : bool :=
  let n := code c in
  ((97 <=? n)%nat && (n <=? 122)%nat)
  || ((223 <=? n)%nat && (n <=? 255)%nat && negb (n =? 247)%nat)
  || (n =? 170)%nat || (n =? 181)%nat || (n =? 186)%nat.

Definition is_cased (c : ascii) : bool := is_lower c || is_upper c.

Definition to_lower (c : ascii) : ascii :=
  if is_upper c then ascii_of_nat (code c + 32) else c.

(** The title-case form of a character: a string, since that of the
    sharp s U+00DF is [Ss]. The ordinal indicators have none. Those of
    the micro sign U+00B5 and of U+00FF are U+039C and U+0178, beyond
    code 255: the embedding leaves the two unchanged, and [title_closed]
    tells the strings that hold neither. *)
Definition to_title (c : ascii) : string :=
  let n := code c in
  if (n =? 223)%nat then "Ss"
  else if ((97 <=? n)%nat && (n <=? 122)%nat)
          || ((224 <=? n)%nat && (n <=? 254)%nat && negb (n =? 247)%nat)
  then String (ascii_of_nat (n - 32)) ""
  else String c "".

Fixpoint map_chars (f : ascii -> ascii) (s : string) : string :=
  match s with
  | EmptyString => EmptyString
  | String c r => String (f c) (map_chars f r)
  end.

(** [s.lower()] *)
Definition lower (s : string) : string := map_chars to_lower s.

(** [s.replace('_', ' ')] *)
Definition replace_underscores (s : string) : string :=
  map_chars (fun c => if Ascii.eqb c "_" then " "%char else c) s.

(** [s.title()]: a character takes its title-case form when the
    character before it is not cased, its lower-case form otherwise. *)
Fixpoint title_from (previous_is_cased : bool) (s : string) : string :=
  match s with
  | EmptyString => EmptyString
  | String c r =>
      (if previous_is_cased then String (to_lower c) "" else to_title c)
        ++ title_from (is_cased c) r
  end.

Definition title (s : string) : string := title_from false s.

(** The strings whose [title()] stays below code 256. *)
Definition title_closed (s : string) : bool :=
  forallb (fun c => negb ((code c =? 181)%nat || (code c =? 255)%nat))
          (list_ascii_of_string s).

(** Whitespace as [str.strip()] and [str.isspace()] see it below code
    256: the blank, the controls U+0009-U+000D and U+001C-U+001F, the
    next-line control U+0085 and the no-break space U+00A0. *)
Definition is_space (c : ascii) : bool :=
  let n := code c in
  (n =? 32)%nat || ((9 <=? n)%nat && (n <=? 13)%nat) || ((28 <=? n)%nat && (n <=? 31)%nat)
  || (n =? 133)%nat || (n =? 160)%nat.

Fixpoint lstrip (s : string) : string :=
  match s with
  | EmptyString => EmptyString
  | String c r => if is_space c then lstrip r else s
  end.

Definition rstrip (s : string) : string := String.rev (lstrip (String.rev s)).

(** [s.strip()] *)
Definition strip (s : string) : string := rstrip (lstrip s).

(** [s.endswith(suffix)] *)
Definition endswith (s suffix : string) : bool :=
  String.prefix (String.rev suffix) (String.rev s).

(** [repr(s)] of a [str]: single quotes, or double quotes when the
    string holds a single quote and no double quote; the quote in use and
    the backslash are escaped, tab, newline and carriage return are
    written [\t], [\n] and [\r], and a character that is not printable
    (a control, U+007F-U+00A0, the soft hyphen U+00AD) as [\x] and two
    hexadecimal digits. *)
Definition hex_char (n : nat) : ascii :=
  if (n <? 10)%nat then ascii_of_nat (48 + n) else ascii_of_nat (87 + n).

Definition is_printable (c : ascii) : bool :=
  let n := code c in
  ((32 <=? n)%nat && (n <=? 126)%nat) || ((161 <=? n)%nat && negb (n =? 173)%nat).

Definition repr_char (quote c : ascii) : string :=
  let n := code c in
  if Ascii.eqb c quote || (n =? 92)%nat then String "\"%char (String c "")
  else if (n =? 9)%nat then "\t"
  else if (n =? 10)%nat then "\n"
  else if (n =? 13)%nat then "\r"
  else if is_printable c then String c ""
  else "\x" ++ String (hex_char (n / 16)) (String (hex_char (n mod 16)) "").

Definition contains (s : string) (c : ascii) : bool :=
  existsb (Ascii.eqb c) (list_ascii_of_string s).

Definition repr (s : string) : string :=
  let quote :=
    if contains s "'"%char && negb (contains s (ascii_of_nat 34))
    then ascii_of_nat 34 else "'"%char in
  String quote
    (String.concat "" (map (repr_char quote) (list_ascii_of_string s))
       ++ String quote "").

(** [s[n:]] and [s[:n]] for a bound that is not negative. *)
Fixpoint drop_chars (n : nat) (s : string) : string :=
  match n, s with
  | S n', String _ r => drop_chars n' r
  | _, _ => s
  end.

Fixpoint take_chars (n : nat) (s : string) : string :=
  match n, s with
  | S n', String c r => String c (take_chars n' r)
  | _, _ => EmptyString
  end.

(** [l[:k]]: a negative bound counts from the end. *)
Definition slice_to {A} (l : list A) (k : Z) : list A :=
  if (0 <=? k)%Z then firstn (Z.to_nat k) l
  else firstn (length l - Z.to_nat (- k)) l.

(** Truth value of an [Optional[int]]: [None] and [0] are false. *)
Definition truthy (o : option Z) : bool :=
  match o with
  | None => false
  | Some n => negb (n =? 0)%Z
  end.

(** [for i, x in enumerate(l)] *)
Definition enumerate {A} (l : list A) : list (nat * A) :=
  combine (seq 0 (length l)) l.

End Py.

(** ** Configuration: [config/settings.py] *)

Module Config.

(** The options of [Settings] that the modelled code reads. *)
Record settings := Settings {
  reranker_enabled : bool;
  reranker_top_k : Z;
  reranker_candidates : Z;
  max_scrape_depth : Z;
  chunk_size : Z;
  chunk_overlap : Z
}.

(** The defaults of the [Field] declarations. *)
Definition default_settings : settings :=
  {| reranker_enabled := true;
     reranker_top_k := 5;
     reranker_candidates := 20;
     max_scrape_depth := 3;
     chunk_size := 1000;
     chunk_overlap := 200 |}.

End Config.

(** ** Structural converter: [ingestion/enhanced_json_processor.py] *)

Module EnhancedJSON.
Import Py.

(** What [json.loads] yields. A [float] carries the text [str] gives for
    it, since its arithmetic plays no role in the converter. *)
Inductive json :=
| JNull
| JBool (b : bool)
| JInt (n : Z)
| JFloat (repr : string)
| JStr (s : string)
| JList (items : list json)
| JDict (items : list (string * json)).

(** The values whose keys all have their title-case form below code
    256, so that the texts the converter makes of them are strings of
    the embedding. *)
Fixpoint keys_title_closed (v : json) : bool :=
  match v with
  | JList items => forallb keys_title_closed items
  | JDict items =>
      forallb (fun kv =>
                 match kv with
                 | (key, value) => title_closed key && keys_title_closed value
                 end) items
  | _ => true
  end.

(** [isinstance] tests of the converter. In Python [bool] is a subclass
    of [int], so [isinstance(True, (int, float))] holds. *)
Definition isinstance_str (v : json) : bool :=
  match v with JStr _ => true | _ => false end.
Definition isinstance_int_float (v : json) : bool :=
  match v with JInt _ | JFloat _ | JBool _ => true | _ => false end.
Definition isinstance_bool (v : json) : bool :=
  match v with JBool _ => true | _ => false end.
Definition isinstance_dict (v : json) : bool :=
  match v with JDict _ => true | _ => false end.
Definition isinstance_simple (v : json) : bool :=
  isinstance_str v || isinstance_int_float v || isinstance_bool v.

(** [str(value)] on the values the converter applies it to: scalars.
    ([None] prints as [None]; the converter never prints a list or a
    dict this way.) *)
Definition str (v : json) : string :=
  match v with
  | JNull => "None"
  | JBool b => str_bool b
  | JInt n => str_int n
  | JFloat r => r
  | JStr s => s
  | JList _ | JDict _ => ""
  end.

Definition indent_of (level : nat) : string :=
  String.concat "" (repeat "  " level).

Definition subscript (context_path : string) (i : nat) : string :=
  context_path ++ "[" ++ str_of_nat i ++ "]".

(** The three renderers call one another on the same value as well as on
    its components; their bodies are written once over the recursive
    calls, and tied together below by recursion on the value. *)
Section Bodies.
Variable convert_value_to_text : json -> string -> string.
Variable dict_to_text : json -> string -> nat -> string.
Variable process_list : json -> string -> string -> nat -> string.

(** Body of [_dict_to_text] on the items of a dict. *)
Definition dict_items_to_text (data : list (string * json))
    (context_path : string) (level : nat) : string :=
  let indent := indent_of level in
  join (String (ascii_of_nat 10) "")
    (flat_map (fun kv =>
       match kv with
       | (key, value) =>
         let key_formatted := title (replace_underscores key) in
         let value_path :=
           if String.eqb context_path "" then key
           else context_path ++ "." ++ key in
         match value with
         | JDict items =>
             match items with
             | [] => []
             | _ :: _ =>
                 let nested_text := dict_to_text value value_path (S level) in
                 if String.eqb nested_text "" then []
                 else [indent ++ key_formatted ++ ": " ++ nested_text]
             end
         | JList items =>
             match items with
             | [] => []
             | _ :: _ =>
                 let list_text := process_list value key_formatted value_path level in
                 if String.eqb list_text "" then [] else [list_text]
             end
         | _ =>
             let formatted_value := convert_value_to_text value value_path in
             if String.eqb formatted_value "" then []
             else [indent ++ key_formatted ++ ": " ++ formatted_value]
         end
       end) data).

(** Body of [_process_list] on the elements of a list. *)
Definition list_items_to_text (items : list json) (list_name : string)
    (context_path : string) (level : nat) : string :=
  match items with
  | [] => ""
  | _ :: _ =>
    let indent := indent_of level in
    let header := indent ++ list_name ++ ":" in
    let body :=
      if forallb isinstance_simple items then
        if (length items <=? 5)%nat then
          map (fun item =>
                 indent ++ "  - " ++ convert_value_to_text item context_path)
              items
        else
          [indent ++ "  - " ++ join ", " (map str (firstn 3 items))
             ++ ", and " ++ str_of_nat (length items - 3) ++ " more items"]
      else
        app ((fix each (n i : nat) (l : list json) {struct l} : list string :=
           match n, l with
           | S n', item :: l' =>
               app (match item with
                | JDict _ =>
                    let item_text :=
                      dict_to_text item (subscript context_path i) (S level) in
                    if String.eqb item_text "" then []
                    else [indent ++ "  Item " ++ str_of_nat (S i) ++ ":"; item_text]
                | _ =>
                    [indent ++ "  - "
                       ++ convert_value_to_text item (subscript context_path i)]
                end) (each n' (S i) l')
           | _, _ => []
           end) 3%nat 0%nat items)
          (if (3 <? length items)%nat
            then [indent ++ "  ... and " ++ str_of_nat (length items - 3)
                    ++ " more items"]
            else [])
    in
    join (String (ascii_of_nat 10) "") (header :: body)
  end.

(** Body of [_convert_value_to_text] on the elements of a list. *)
Definition list_value_to_text (value : list json) (context_path : string)
    : string :=
  match value with
  | [] => "none"
  | [x] => convert_value_to_text x context_path
  | _ =>
      if forallb isinstance_str value then join ", " (map str value)
      else
        join "; "
          ((fix each (n i : nat) (l : list json) {struct l} : list string :=
              match n, l with
              | S n', item :: l' =>
                  convert_value_to_text item (subscript context_path i)
                    :: each n' (S i) l'
              | _, _ => []
              end) 5%nat 0%nat value)
  end.
End Bodies.

(** [_convert_value_to_text], [_dict_to_text] and [_process_list]. The
    [isinstance(value, (int, float))] test comes before the
    [isinstance(value, bool)] one, and a [bool] passes it. A value that
    is not a dict has no [items()]; [_dict_to_text] is only reached on
    dicts, except at the root, which [create_structured_chunks] guards. *)
Fixpoint convert_value_to_text (value : json) (context_path : string)
    {struct value} : string :=
  if isinstance_str value then str value
  else if isinstance_int_float value then str value
  else if isinstance_bool value then
    (match value with JBool true => "yes" | _ => "no" end)
  else
    match value with
    | JList items =>
        list_value_to_text convert_value_to_text items context_path
    | JDict items =>
        dict_items_to_text convert_value_to_text dict_to_text process_list
          items context_path 0
    | _ => str value
    end
with dict_to_text (data : json) (context_path : string) (level : nat)
    {struct data} : string :=
  match data with
  | JDict items =>
      dict_items_to_text convert_value_to_text dict_to_text process_list
        items context_path level
  | _ => ""
  end
with process_list (items : json) (list_name context_path : string)
    (level : nat) {struct items} : string :=
  match items with
  | JList l =>
      list_items_to_text convert_value_to_text dict_to_text
        l list_name context_path level
  | _ => ""
  end.

(** *** [json.dumps], as far as its length is read *)

Definition hex_digit (n : nat) : ascii :=
  if (n <? 10)%nat then ascii_of_nat (48 + n) else ascii_of_nat (87 + n).

Definition dquote : string := String (ascii_of_nat 34) "".

(** One character of a string under [ensure_ascii]. *)
Definition escape_char (c : ascii) : string :=
  let n := code c in
  if (n =? 34)%nat then "\" ++ dquote
  else if (n =? 92)%nat then "\\"
  else if (n =? 10)%nat then "\n"
  else if (n =? 13)%nat then "\r"
  else if (n =? 9)%nat then "\t"
  else if (n =? 8)%nat then "\b"
  else if (n =? 12)%nat then "\f"
  else if (32 <=? n)%nat && (n <=? 126)%nat then String c ""
  else "\u00" ++ String (hex_digit (n / 16)) (String (hex_digit (n mod 16)) "").

Fixpoint escape (s : string) : string :=
  match s with
  | EmptyString => EmptyString
  | String c r => escape_char c ++ escape r
  end.

Definition quote (s : string) : string :=
  dquote ++ escape s ++ dquote.

(** A [float] under [json.dumps]: [float.__repr__], which is what [str]
    gives, except for the infinities and the not-a-number value. *)
Definition float_repr (r : string) : string :=
  if String.eqb r "inf" then "Infinity"
  else if String.eqb r "-inf" then "-Infinity"
  else if String.eqb r "nan" then "NaN"
  else r.

Fixpoint dumps (v : json) : string :=
  match v with
  | JNull => "null"
  | JBool true => "true"
  | JBool false => "false"
  | JInt n => str_int n
  | JFloat r => float_repr r
  | JStr s => quote s
  | JList items => "[" ++ join ", " (map dumps items) ++ "]"
  | JDict items =>
      "{" ++ join ", "
               (map (fun kv => match kv with
                               | (k, x) => quote k ++ ": " ++ dumps x
                               end) items) ++ "}"
  end.

(** *** Chunks *)

(** A value of a metadata mapping. *)
Inductive meta_value :=
| MInt (n : Z)
| MStr (s : string)
| MNone.

(** [langchain.schema.Document] *)
Record document := Document {
  page_content : string;
  metadata : gmap string meta_value
}.

(** What [process] hands back: [Document]s on the structured path, bare
    [str]s on the decode-error path. *)
Inductive chunk :=
| DocChunk (d : document)
| StrChunk (s : string).

Definition chunk_text (c : chunk) : string :=
  match c with
  | DocChunk d => page_content d
  | StrChunk s => s
  end.

Definition newline : string := String (ascii_of_nat 10) "".

(** [key.replace('_', ' ').title()] *)
Definition humanize (key : string) : string := title (replace_underscores key).

(** [process_object] inside [_create_structured_chunks]: the chunk of
    the object itself, then those of its large nested objects and of the
    first five elements of its arrays of objects, in the order of the
    [documents.append] calls. *)
Fixpoint process_object (md : gmap string meta_value) (obj : json)
    (path parent_context : string) {struct obj} : list document :=
  match obj with
  | JDict items =>
      let obj_text := dict_to_text obj path 0 in
      let own :=
        if negb (String.eqb obj_text "") && (50 <? len (strip obj_text))%nat then
          let chunk_metadata :=
            <["chunk_type" := MStr "json_object"]>
              (<["context" := MStr parent_context]>
                 (<["json_path" := MStr (if String.eqb path "" then "root" else path)]>
                    md)) in
          let full_text :=
            if String.eqb parent_context "" then obj_text
            else "Context: " ++ parent_context ++ newline ++ newline ++ obj_text in
          [Document full_text chunk_metadata]
        else [] in
      app own
        (flat_map (fun kv =>
           match kv with
           | (key, value) =>
             let current_path :=
               if String.eqb path "" then key else path ++ "." ++ key in
             let section_context :=
               if String.eqb parent_context "" then humanize key
               else parent_context ++ " > " ++ humanize key in
             match value with
             | JDict (_ :: _) =>
                 if (200 <? len (dumps value))%nat
                 then process_object md value current_path section_context
                 else []
             | JList ((_ :: _) as elems) =>
                 if forallb isinstance_dict elems then
                   (fix each (n i : nat) (l : list json) {struct l} : list document :=
                      match n, l with
                      | S n', item :: l' =>
                          app (process_object md item (subscript current_path i)
                                 (section_context ++ " > Item " ++ str_of_nat (S i)))
                              (each n' (S i) l')
                      | _, _ => []
                      end) 5%nat 0%nat elems
                 else []
             | _ => []
             end
           end) items)
  | _ => []
  end.

Definition type_name (v : json) : string :=
  match v with
  | JNull => "NoneType" | JBool _ => "bool" | JInt _ => "int"
  | JFloat _ => "float" | JStr _ => "str" | JList _ => "list" | JDict _ => "dict"
  end.

(** [_create_structured_chunks]. A root that is not a dict has no
    [items()]: the call raises [AttributeError]. *)
Definition create_structured_chunks (data : json) (md : gmap string meta_value)
    : result (list document) :=
  match data with
  | JDict _ => inr (process_object md data "" "Root")
  | _ => inl (Exn AttributeError
                ("'" ++ type_name data ++ "' object has no attribute 'items'"))
  end.

(** One entry of [_create_overview]. *)
Definition overview_part (key : string) (value : json) : list string :=
  let key_formatted := humanize key in
  match value with
  | JDict fields =>
      let obj_keys := firstn 5 (map fst fields) in
      let summary :=
        key_formatted ++ " contains information about: "
          ++ join ", " (map replace_underscores obj_keys) in
      [if (5 <? length fields)%nat
       then summary ++ " (and " ++ str_of_nat (length fields - 5) ++ " more fields)"
       else summary]
  | JList elems =>
      match elems with
      | [] => []
      | first :: _ =>
          let item_type :=
            match first with
            | JDict fields =>
                "entries with "
                  ++ join ", " (map replace_underscores (firstn 3 (map fst fields)))
            | _ => "items"
            end in
          [key_formatted ++ " contains " ++ str_of_nat (length elems) ++ " " ++ item_type]
      end
  | _ =>
      if isinstance_str value || isinstance_int_float value then
        if existsb (String.eqb (lower key)) ["name"; "title"; "description"; "summary"]
        then [key_formatted ++ ": " ++ str value]
        else []
      else []
  end.

(** [_create_overview] *)
Definition create_overview (data : json) : string :=
  match data with
  | JDict items =>
      let overview_parts :=
        flat_map (fun kv => overview_part (fst kv) (snd kv)) items in
      match overview_parts with
      | [] => ""
      | _ => join ". " overview_parts ++ "."
      end
  | _ => ""
  end.

Section Process.
Variable cfg : Config.settings.

(** [json.loads]: the parsed value, or the exception it raises. *)
Variable json_loads : string -> result json.

(** [RecursiveCharacterTextSplitter.split_text], built from
    [settings.chunk_size] and [settings.chunk_overlap]. *)
Variable split_text : string -> list string.

(** [split_documents]: every piece of a document's text becomes a
    document with a copy of its metadata. *)
Definition split_documents (docs : list document) : list document :=
  flat_map (fun d => map (fun piece => Document piece (metadata d))
                         (split_text (page_content d))) docs.

(** The post-pass of [process]: only a chunk longer than twice the
    chunk size goes through the splitter. *)
Definition resplit (structured_chunks : list document) : list document :=
  flat_map (fun c =>
              if (Config.chunk_size cfg * 2 <? Z.of_nat (len (page_content c)))%Z
              then split_documents [c]
              else [c]) structured_chunks.

(** [EnhancedJSONProcessor.process] on a [str] content. *)
Definition process (content : string) (md : gmap string meta_value)
    : result (list chunk) :=
  match json_loads content with
  | inl e =>
      if is_JSONDecodeError e
      then inr (map StrChunk (split_text content))
      else inl e
  | inr json_data =>
      let enhanced_metadata :=
        <["processor" := MStr "enhanced_json"]>
          (<["content_type" := MStr "json"]> md) in
      bind (create_structured_chunks json_data enhanced_metadata)
        (fun structured_chunks =>
           let overview_text := create_overview json_data in
           let structured_chunks :=
             if String.eqb overview_text "" then structured_chunks
             else Document ("Complete Overview:" ++ newline ++ newline ++ overview_text)
                    (<["chunk_type" := MStr "overview"]> enhanced_metadata)
                  :: structured_chunks in
           inr (map DocChunk (resplit structured_chunks)))
  end.
End Process.

(** *** The bounds the properties speak of *)

Definition nonempty_doc (d : document) : Prop := page_content d <> "".

(** The chunk-size invariant of the specification: a text, of at most
    the chunk size plus the overlap. *)
Definition within_chunk_size (cfg : Config.settings) (c : chunk) : Prop :=
  chunk_text c <> ""
  /\ (Z.of_nat (len (chunk_text c)) <= Config.chunk_size cfg + Config.chunk_overlap cfg)%Z.

(** What the post-pass leaves: a text, of at most twice the chunk size. *)
Definition within_twice_chunk_size (cfg : Config.settings) (c : chunk) : Prop :=
  chunk_text c <> ""
  /\ (Z.of_nat (len (chunk_text c)) <= 2 * Config.chunk_size cfg)%Z.

(** The contract of the plain-text splitter: every piece has a text and
    stays within the chunk size. *)
Definition splitter_contract (cfg : Config.settings)
    (split_text : string -> list string) : Prop :=
  forall s, Forall (fun piece => piece <> ""
                      /\ (Z.of_nat (len piece) <= Config.chunk_size cfg)%Z)
                   (split_text s).

(** The chunk [process_object] makes of one object: a rendered text
    that is substantial, under its context header, with the path, the
    context and the chunk type added to the metadata. *)
Inductive own_chunk (md : gmap string meta_value) : document -> Prop :=
| own_chunk_intro (obj_text path parent_context : string) :
    obj_text <> "" ->
    (50 < len (strip obj_text))%nat ->
    own_chunk md
      (Document
         (if String.eqb parent_context "" then obj_text
          else "Context: " ++ parent_context ++ newline ++ newline ++ obj_text)
         (<["chunk_type" := MStr "json_object"]>
            (<["context" := MStr parent_context]>
               (<["json_path" := MStr (if String.eqb path "" then "root" else path)]>
                  md)))).

(** A chunk of [_create_structured_chunks], whose contexts start at
    [Root] and so are never empty: under the header that names the
    context, the rendering of an object at a path, which has more than
    50 characters once stripped; the metadata name the context and the
    path. *)
Definition object_chunk (d : document) : Prop :=
  exists (obj : json) (path parent_context : string),
    let obj_text := dict_to_text obj path 0 in
    (50 < len (strip obj_text))%nat
    /\ page_content d
       = "Context: " ++ parent_context ++ newline ++ newline ++ obj_text
    /\ metadata d !! "context" = Some (MStr parent_context)
    /\ metadata d !! "json_path"
       = Some (MStr (if String.eqb path "" then "root" else path)).

(** The keys the converter writes into the metadata of a chunk. *)
Definition converter_keys : list string :=
  ["content_type"; "processor"; "chunk_type"; "json_path"; "context"].

(** A chunk is tagged as converter output and keeps the caller's
    metadata under every other key. *)
Definition keeps_metadata (md : gmap string meta_value) (c : chunk) : Prop :=
  exists d,
    c = DocChunk d
    /\ metadata d !! "content_type" = Some (MStr "json")
    /\ metadata d !! "processor" = Some (MStr "enhanced_json")
    /\ (metadata d !! "chunk_type" = Some (MStr "json_object")
        \/ metadata d !! "chunk_type" = Some (MStr "overview"))
    /\ forall k, ~ In k converter_keys -> metadata d !! k = md !! k.

End EnhancedJSON.

(** ** Executable stand-ins for the outside services

    The properties below hold for any decoder and any splitter; to run the
    converter on concrete inputs one needs some decoder and some splitter.
    [loads_ascii] decodes the JSON texts made of objects, arrays, strings
    with the short escapes, integers, [true], [false] and [null]; on those
    it yields what [json.loads] yields. It rejects number literals with a
    fraction or an exponent and [\u] escapes, which [json.loads] accepts,
    so it is used on texts without them only. *)

Module Services.
Import Py EnhancedJSON.

Definition is_json_ws (c : ascii) : bool :=
  let n := code c in (n =? 32)%nat || (n =? 9)%nat || (n =? 10)%nat || (n =? 13)%nat.

Fixpoint skip_ws (s : string) : string :=
  match s with
  | EmptyString => EmptyString
  | String c r => if is_json_ws c then skip_ws r else s
  end.

Definition is_digit (c : ascii) : bool := (48 <=? code c)%nat && (code c <=? 57)%nat.

Fixpoint parse_digits (acc : Z) (s : string) : Z * string :=
  match s with
  | EmptyString => (acc, s)
  | String c r =>
      if is_digit c then parse_digits (acc * 10 + Z.of_nat (code c - 48)) r
      else (acc, s)
  end.

Definition starts_fraction (s : string) : bool :=
  match s with
  | String c _ => (code c =? 46)%nat || (code c =? 101)%nat || (code c =? 69)%nat
  | EmptyString => false
  end.

(** An integer literal: an optional minus sign, then a zero or a
    digit string that does not start with a zero. *)
Definition parse_int (s : string) : option (json * string) :=
  let '(negative, s1) :=
    match s with
    | String c r => if (code c =? 45)%nat then (true, r) else (false, s)
    | EmptyString => (false, s)
    end in
  match s1 with
  | String c r =>
      if (code c =? 48)%nat then
        if starts_fraction r then None else Some (JInt 0, r)
      else if is_digit c then
        let '(n, rest) := parse_digits 0 s1 in
        if starts_fraction rest then None
        else Some (JInt (if negative then - n else n), rest)
      else None
  | EmptyString => None
  end.

Definition unescape (c : ascii) : option ascii :=
  let n := code c in
  if (n =? 34)%nat || (n =? 92)%nat || (n =? 47)%nat then Some c
  else if (n =? 110)%nat then Some (ascii_of_nat 10)
  else if (n =? 114)%nat then Some (ascii_of_nat 13)
  else if (n =? 116)%nat then Some (ascii_of_nat 9)
  else if (n =? 98)%nat then Some (ascii_of_nat 8)
  else if (n =? 102)%nat then Some (ascii_of_nat 12)
  else None.

(** The characters of a string literal after its opening quote. *)
Fixpoint parse_string_body (s : string) : option (string * string) :=
  match s with
  | EmptyString => None
  | String c r =>
      if (code c =? 34)%nat then Some (EmptyString, r)
      else if (code c =? 92)%nat then
        match r with
        | String e r' =>
            match unescape e, parse_string_body r' with
            | Some ch, Some (body, rest) => Some (String ch body, rest)
            | _, _ => None
            end
        | EmptyString => None
        end
      else if (code c <? 32)%nat then None
      else
        match parse_string_body r with
        | Some (body, rest) => Some (String c body, rest)
        | None => None
        end
  end.

(** A key met again keeps its place and takes the later value. *)
Fixpoint dict_set (k : string) (v : json) (items : list (string * json))
    : list (string * json) :=
  match items with
  | [] => [(k, v)]
  | (k', v') :: rest =>
      if String.eqb k k' then (k', v) :: rest else (k', v') :: dict_set k v rest
  end.

Fixpoint parse_value (fuel : nat) (s : string) : option (json * string) :=
  match fuel with
  | O => None
  | S f =>
      match skip_ws s with
      | EmptyString => None
      | String c r as s' =>
          if (code c =? 123)%nat then
            match skip_ws r with
            | String c' r' =>
                if (code c' =? 125)%nat then Some (JDict [], r')
                else parse_members f (skip_ws r) []
            | EmptyString => None
            end
          else if (code c =? 91)%nat then
            match skip_ws r with
            | String c' r' =>
                if (code c' =? 93)%nat then Some (JList [], r')
                else parse_elements f (skip_ws r) []
            | EmptyString => None
            end
          else if (code c =? 34)%nat then
            match parse_string_body r with
            | Some (body, rest) => Some (JStr body, rest)
            | None => None
            end
          else if String.prefix "true" s' then Some (JBool true, drop_chars 4 s')
          else if String.prefix "false" s' then Some (JBool false, drop_chars 5 s')
          else if String.prefix "null" s' then Some (JNull, drop_chars 4 s')
          else parse_int s'
      end
  end
with parse_members (fuel : nat) (s : string) (acc : list (string * json))
    : option (json * string) :=
  match fuel with
  | O => None
  | S f =>
      match s with
      | String q r =>
          if (code q =? 34)%nat then
            match parse_string_body r with
            | Some (key, rest) =>
                match skip_ws rest with
                | String colon rest' =>
                    if (code colon =? 58)%nat then
                      match parse_value f rest' with
                      | Some (v, rest'') =>
                          match skip_ws rest'' with
                          | String d more =>
                              if (code d =? 44)%nat
                              then parse_members f (skip_ws more) (dict_set key v acc)
                              else if (code d =? 125)%nat
                              then Some (JDict (dict_set key v acc), more)
                              else None
                          | EmptyString => None
                          end
                      | None => None
                      end
                    else None
                | EmptyString => None
                end
            | None => None
            end
          else None
      | EmptyString => None
      end
  end
with parse_elements (fuel : nat) (s : string) (acc : list json)
    : option (json * string) :=
  match fuel with
  | O => None
  | S f =>
      match parse_value f s with
      | Some (v, rest) =>
          match skip_ws rest with
          | String d more =>
              if (code d =? 44)%nat then parse_elements f more (acc ++ [v])%list
              else if (code d =? 93)%nat then Some (JList (acc ++ [v])%list, more)
              else None
          | EmptyString => None
          end
      | None => None
      end
  end.

Definition decode_error : exn := Exn JSONDecodeError "Expecting value".

Definition loads_ascii (s : string) : result json :=
  match parse_value (2 * String.length s + 2) s with
  | Some (v, rest) =>
      match skip_ws rest with
      | EmptyString => inr v
      | _ => inl decode_error
      end
  | None => inl decode_error
  end.

(** A splitter that cuts a text into consecutive pieces of [width]
    characters: the simplest one that keeps every piece non-empty and
    within the chunk size. *)
Fixpoint chop (fuel width : nat) (s : string) : list string :=
  match fuel with
  | O => []
  | S f =>
      match s with
      | EmptyString => []
      | _ => take_chars width s :: chop f width (drop_chars width s)
      end
  end.

Definition fixed_width_split (cfg : Config.settings) (s : string) : list string :=
  let width := Z.to_nat (Config.chunk_size cfg) in
  match width with
  | O => []
  | _ => chop (String.length s) width s
  end.

End Services.


(** ** Crawler: [URLScraper] in [ingestion/url_processor.py] *)

Module Crawler.
Import Py.

(** What the scraper reads off a parsed page: the text of its [title]
    tag when it has one, the [get_text()] of the paragraph, heading and
    list-item elements of the content container that [_extract_text]
    selects (scripts and styles removed), and the [href] of its anchors. *)
Record soup := Soup {
  soup_title : option string;
  soup_text_elements : list string;
  soup_hrefs : list string
}.

(** One entry of [self.content]. *)
Record page_record := PageRecord {
  url : string;
  text : string;
  title : string;
  depth : Z
}.

(** The scraper while it runs: the frontier [to_visit], the instance
    fields [visited_urls] and [content], and the number of requests sent
    so far, which lets the network answer differently over time. *)
Record state := State {
  to_visit : list (string * Z);
  visited_urls : gset string;
  content : list page_record;
  requests : nat
}.

(** [_extract_text]: the records it appends to [self.content]. *)
Definition extract_text (page : soup) (u : string) (d : Z) : list page_record :=
  let title_text :=
    match soup_title page with
    | Some t => strip t
    | None => ""
    end in
  let texts :=
    List.filter (fun t => negb (String.eqb t ""))
                (map strip (soup_text_elements page)) in
  let combined_text := join " " texts in
  if String.eqb (strip combined_text) "" then []
  else [PageRecord u (strip combined_text) title_text d].

Section Scraper.
(** [session.get(url, timeout=10)] and [raise_for_status()] for the
    request with the given number, with the body as [BeautifulSoup]
    parses it (the parser takes any bytes). *)
Variable fetch : nat -> string -> result soup.
(** [urllib.parse]: [urljoin], [urldefrag(...)[0]] and [urlparse(...).netloc]. *)
Variable urljoin : string -> string -> result string.
Variable urldefrag : string -> result string.
Variable netloc : string -> result string.
(** The constructor arguments. *)
Variable max_depth : Z.
Variable max_links_per_page : Z.

(** [_get_links] *)
Fixpoint get_links_from (hrefs : list string) (base_url : string)
    : result (list string) :=
  match hrefs with
  | [] => inr []
  | href :: more =>
      bind (urljoin base_url href) (fun full_url =>
      bind (urldefrag full_url) (fun full_url =>
      bind (netloc full_url) (fun link_host =>
      bind (netloc base_url) (fun base_host =>
      bind (get_links_from more base_url) (fun links =>
        inr (if String.eqb link_host base_host
             then full_url :: links else links))))))
  end.

Definition get_links (page : soup) (base_url : string) : result (list string) :=
  get_links_from (soup_hrefs page) base_url.

(** The entries one page adds to the frontier. *)
Definition new_entries (links : list string) (visited : gset string)
    (current_depth : Z) : list (string * Z) :=
  map (fun link => (link, (current_depth + 1)%Z))
      (List.filter (fun link => negb (bool_decide (link ∈ visited)))
                   (slice_to links max_links_per_page)).

(** One turn of the [while to_visit] loop; [None] when the frontier is
    empty and the loop ends. An exception inside the [try] leaves what
    was done before it and goes to the next turn. *)
Definition step (s : state) : option state :=
  match to_visit s with
  | [] => None
  | (u, current_depth) :: rest =>
      if bool_decide (u ∈ visited_urls s) || (max_depth <? current_depth)%Z
      then Some (State rest (visited_urls s) (content s) (requests s))
      else
        match fetch (requests s) u with
        | inl _ => Some (State rest (visited_urls s) (content s) (S (requests s)))
        | inr page =>
            let visited := {[u]} ∪ visited_urls s in
            let found := (content s ++ extract_text page u current_depth)%list in
            if (current_depth <? max_depth)%Z then
              match get_links page u with
              | inl _ => Some (State rest visited found (S (requests s)))
              | inr links =>
                  Some (State (rest ++ new_entries links visited current_depth)%list
                              visited found (S (requests s)))
              end
            else Some (State rest visited found (S (requests s)))
        end
  end.

(** The loop, for at most [fuel] turns. *)
Fixpoint run (fuel : nat) (s : state) : option (list page_record) :=
  match fuel with
  | O => None
  | S f =>
      match step s with
      | None => Some (content s)
      | Some s' => run f s'
      end
  end.

(** A scraper is made anew for every call of [_run_scraper]. *)
Definition initial (start_url : string) : state :=
  State [(start_url, 1%Z)] ∅ [] 0.

(** [scrape] *)
Definition scrape (fuel : nat) (start_url : string) : option (list page_record) :=
  run fuel (initial start_url).

(** The states the loop goes through. *)
Inductive reachable (start_url : string) : state -> Prop :=
| reachable_initial : reachable start_url (initial start_url)
| reachable_step s s' :
    reachable start_url s -> step s = Some s' -> reachable start_url s'.

(** The loop returns from a state when some number of turns is enough. *)
Definition terminates (s : state) : Prop :=
  exists fuel records, run fuel s = Some records.

(** The levels an entry can still open: 0 above the depth limit, 1 at the
    limit, one more for every level below it. *)
Definition rank (entry : string * Z) : nat :=
  Z.to_nat (max_depth + 1 - snd entry).

(** The number of entries of rank [h] or more. *)
Definition count_from (h : nat) (l : list (string * Z)) : nat :=
  length (List.filter (fun entry => (h <=? rank entry)%nat) l).

(** What holds of the scraper at every turn: the entries of the frontier
    have depth 1 at least, the records a depth between 1 and the limit. *)
Definition depths_ok (s : state) : Prop :=
  Forall (fun entry => (1 <= snd entry)%Z) (to_visit s)
  /\ Forall (fun r => (1 <= depth r <= max_depth)%Z) (content s).

(** A URL is on the host of the seed when it is the seed itself or
    [netloc] gives the same host for both. *)
Definition on_seed_host (start_url u : string) : Prop :=
  u = start_url \/ exists h, netloc u = inr h /\ netloc start_url = inr h.

(** The frontier and the records hold URLs of the seed's host only. *)
Definition host_ok (start_url : string) (s : state) : Prop :=
  Forall (fun entry => on_seed_host start_url (fst entry)) (to_visit s)
  /\ Forall (fun r => on_seed_host start_url (url r)) (content s).

(** A URL without a fragment: [urldefrag(u)[0]] is [u] itself. *)
Definition fragment_free (u : string) : Prop := urldefrag u = inr u.

(** Two URLs of one page: stripped of their fragments they are equal. *)
Definition same_page (u v : string) : Prop :=
  exists stripped, urldefrag u = inr stripped /\ urldefrag v = inr stripped.

(** The URLs of the frontier and of the visited set carry no fragment. *)
Definition fragments_stripped (s : state) : Prop :=
  Forall (fun entry => fragment_free (fst entry)) (to_visit s)
  /\ forall v, v ∈ visited_urls s -> fragment_free v.

End Scraper.

(** Every record belongs to a visited URL, and no URL has two records. *)
Definition fetched_once (s : state) : Prop :=
  List.NoDup (map url (content s))
  /\ Forall (fun r => url r ∈ visited_urls s) (content s).

(** With a depth limit of 1 or less: the seed waits and nothing is
    recorded, or the frontier is empty and at most the seed is recorded,
    at depth 1. *)
Definition seed_only (start_url : string) (s : state) : Prop :=
  (to_visit s = [(start_url, 1%Z)] /\ content s = [])
  \/ (to_visit s = []
      /\ (content s = []
          \/ exists r, content s = [r] /\ url r = start_url /\ depth r = 1%Z)).

End Crawler.


(** ** Vector store: [core/vector_store.py] *)

Module VectorStore.
Import Py EnhancedJSON.

(** An embedding; its components and the similarity scores are kept on a
    fixed-point scale. *)
Definition vector := list Z.

(** [PointStruct] *)
Record point := Point {
  point_id : string;
  point_vector : vector;
  payload : gmap string meta_value
}.

(** The Qdrant collection: its points, and the error its client raises
    while the server cannot be reached. *)
Record qdrant := Qdrant {
  points : list point;
  outage : option exn
}.

(** A search result as [search] returns it, a [dict]; [rerank_score] is
    the key the reranker adds to it later. [text] is [None] for a dict
    without the key. *)
Record doc := Doc {
  id : string;
  text : option string;
  score : Z;
  doc_metadata : gmap string meta_value;
  rerank_score : option Z
}.

(** A [must] condition [{"key": k, "match": {"value": v}}]. *)
Definition condition := (string * meta_value)%type.

Definition meta_value_eqb (a b : meta_value) : bool :=
  match a, b with
  | MInt x, MInt y => (x =? y)%Z
  | MStr x, MStr y => String.eqb x y
  | MNone, MNone => true
  | _, _ => false
  end.

Definition matches (conds : list condition) (p : point) : bool :=
  forallb (fun c => match payload p !! fst c with
                    | Some v => meta_value_eqb v (snd c)
                    | None => false
                    end) conds.

(** Stable insertion by decreasing score. *)
Fixpoint insert_by {A} (key : A -> Z) (x : A) (l : list A) : list A :=
  match l with
  | [] => [x]
  | y :: l' => if (key y <=? key x)%Z then x :: l else y :: insert_by key x l'
  end.

(** [sorted(l, key=key, reverse=True)]: equal keys keep their order. *)
Definition sorted_desc {A} (key : A -> Z) (l : list A) : list A :=
  foldr (insert_by key) [] l.

Section Store.
(** The embedding service: [embed_documents] and [embed_query]. *)
Variable embed_documents : list string -> result (list vector).
Variable embed_query : string -> result vector.
(** The similarity Qdrant ranks by. *)
Variable similarity : vector -> vector -> Z.
(** [uuid.uuid4()]: the identifier of the n-th draw. *)
Variable uuid4 : nat -> string.

(** [client.search]. The index is a service outside the repository; its
    search is taken as its interface gives it: the points that pass the
    filter and reach the threshold, best first, at most [limit] of them. *)
Definition client_search (q : qdrant) (query_vector : vector) (limit : Z)
    (query_filter : option (list condition)) (score_threshold : Z)
    : result (list (point * Z)) :=
  match outage q with
  | Some e => inl e
  | None =>
      let candidates :=
        match query_filter with
        | Some conds => List.filter (matches conds) (points q)
        | None => points q
        end in
      let scored := map (fun p => (p, similarity query_vector (point_vector p))) candidates in
      let kept := List.filter (fun ps => (score_threshold <=? snd ps)%Z) scored in
      inr (firstn (Z.to_nat limit) (sorted_desc snd kept))
  end.

(** [client.upsert]: a point whose id is stored already is replaced. *)
Definition upsert_one (p : point) (stored : list point) : list point :=
  if existsb (fun o => String.eqb (point_id o) (point_id p)) stored
  then map (fun o => if String.eqb (point_id o) (point_id p) then p else o) stored
  else (stored ++ [p])%list.

Definition client_upsert (q : qdrant) (new_points : list point) : result qdrant :=
  match outage q with
  | Some e => inl e
  | None => inr (Qdrant (fold_left (fun stored p => upsert_one p stored) new_points (points q))
                        (outage q))
  end.

(** [doc.page_content], which a bare [str] lacks. *)
Definition get_page_content (c : chunk) : result string :=
  match c with
  | DocChunk d => inr (page_content d)
  | StrChunk _ =>
      inl (Exn AttributeError "'str' object has no attribute 'page_content'")
  end.

Fixpoint get_page_contents (documents : list chunk) : result (list string) :=
  match documents with
  | [] => inr []
  | c :: more =>
      bind (get_page_content c) (fun t =>
      bind (get_page_contents more) (fun ts => inr (t :: ts)))
  end.

Definition chunk_metadata (c : chunk) : gmap string meta_value :=
  match c with
  | DocChunk d => metadata d
  | StrChunk _ => ∅
  end.

(** The payload of a point: the keys of the metadata come last in the
    dict display and so override the three fixed ones. *)
Definition make_payload (content session_id : string) (user_id : Z)
    (md : gmap string meta_value) : gmap string meta_value :=
  md ∪ <["user_id" := MInt user_id]>
         (<["session_id" := MStr session_id]> (<["text" := MStr content]> ∅)).

(** [add_documents]: the store afterwards and the ids of the new points. *)
Definition add_documents (q : qdrant) (documents : list chunk)
    (session_id : string) (user_id : Z) : result (qdrant * list string) :=
  bind (get_page_contents documents) (fun texts =>
  bind (embed_documents texts) (fun embeddings =>
    let drawn := length (points q) in
    let new_points :=
      map (fun ide =>
             match ide with
             | (i, ((c, content), embedding)) =>
                 Point (uuid4 (drawn + i))%nat embedding
                       (make_payload content session_id user_id (chunk_metadata c))
             end)
          (enumerate (combine (combine documents texts) embeddings)) in
    bind (client_upsert q new_points) (fun q' =>
      inr (q', map point_id new_points)))).

(** [result.payload.get("text", "")]; the stored text is a [str]. *)
Definition payload_text (p : point) : string :=
  match payload p !! "text" with
  | Some (MStr t) => t
  | _ => ""
  end.

(** [search]. The filter is built under [if user_id:], which [None] and
    [0] both fail. *)
Definition search (q : qdrant) (query : string) (user_id : option Z)
    (limit : Z) (score_threshold : Z) : result (list doc) :=
  bind (embed_query query) (fun query_embedding =>
    let filter_conditions :=
      if truthy user_id then
        match user_id with
        | Some uid => Some [("user_id", MInt uid)]
        | None => None
        end
      else None in
    bind (client_search q query_embedding limit filter_conditions score_threshold)
      (fun results =>
         inr (map (fun r => Doc (point_id (fst r)) (Some (payload_text (fst r)))
                                (snd r) (delete "text" (payload (fst r))) None)
                  results))).

End Store.

(** [client.delete] with a filter, taken as the interface of the index
    gives it: the points that pass the filter are removed. *)
Definition client_delete (q : qdrant) (conds : list condition) : result qdrant :=
  match outage q with
  | Some e => inl e
  | None =>
      inr (Qdrant (List.filter (fun p => negb (matches conds p)) (points q))
                  (outage q))
  end.

(** [delete_by_session] *)
Definition delete_by_session (q : qdrant) (session_id : string) : result qdrant :=
  client_delete q [("session_id", MStr session_id)].

(** Best first: no element is followed by one of a higher key. *)
Fixpoint ranked {A} (key : A -> Z) (l : list A) : Prop :=
  match l with
  | [] => True
  | x :: rest => Forall (fun y => (key y <= key x)%Z) rest /\ ranked key rest
  end.

(** A document as [search] builds it: a text, no [text] key left in
    the metadata, no rerank score yet. *)
Definition fresh_hit (d : doc) : Prop :=
  (exists t, text d = Some t)
  /\ doc_metadata d !! "text" = None
  /\ rerank_score d = None.

End VectorStore.

(** ** Reranker: [core/reranker.py] *)

Module Reranker.
Import Py VectorStore.

(** [CrossEncoder.predict]: one score per pair, or the exception raised. *)
Definition predictor := list (string * string) -> result (list Z).

(** [documents[:top_k] if top_k else documents] *)
Definition first_k (documents : list doc) (top_k : option Z) : list doc :=
  if truthy top_k then
    match top_k with
    | Some k => slice_to documents k
    | None => documents
    end
  else documents.

(** [[query, doc["text"]] for doc in documents]; a dict without the key
    raises [KeyError]. *)
Fixpoint make_pairs (query : string) (documents : list doc)
    : result (list (string * string)) :=
  match documents with
  | [] => inr []
  | d :: more =>
      match text d with
      | None => inl (Exn KeyError "'text'")
      | Some t => bind (make_pairs query more) (fun ps => inr ((query, t) :: ps))
      end
  end.

(** [for doc, score in zip(documents, scores): doc["rerank_score"] = ...]:
    the documents are changed in place, those past the scores are not. *)
Fixpoint assign_scores (documents : list doc) (scores : list Z) : list doc :=
  match documents, scores with
  | d :: ds, s :: ss =>
      Doc (id d) (text d) (score d) (doc_metadata d) (Some s) :: assign_scores ds ss
  | _, _ => documents
  end.

(** The sort key [x["rerank_score"]] of every document, or [KeyError]. *)
Fixpoint sort_keys (documents : list doc) : result (list (doc * Z)) :=
  match documents with
  | [] => inr []
  | d :: more =>
      match rerank_score d with
      | None => inl (Exn KeyError "'rerank_score'")
      | Some s => bind (sort_keys more) (fun ks => inr ((d, s) :: ks))
      end
  end.

Section Rerank.
Variable cfg : Config.settings.
(** [self.model]: [None] when the reranker was built disabled. *)
Variable model : option predictor.

(** [top_k or settings.reranker_top_k] *)
Definition top_k_or_default (top_k : option Z) : option Z :=
  if truthy top_k then top_k else Some (Config.reranker_top_k cfg).

(** [rerank]: the documents as the call leaves them (they are shared
    with the caller and may have gained a [rerank_score]) and the list
    returned. *)
Definition rerank (query : string) (documents : list doc) (top_k : option Z)
    : list doc * list doc :=
  match model with
  | None => (documents, first_k documents top_k)
  | Some predict =>
      if negb (Config.reranker_enabled cfg) then (documents, first_k documents top_k)
      else
        let top_k := top_k_or_default top_k in
        match bind (make_pairs query documents) predict with
        | inl _ => (documents, first_k documents top_k)
        | inr scores =>
            let documents := assign_scores documents scores in
            match sort_keys documents with
            | inl _ => (documents, first_k documents top_k)
            | inr keyed =>
                let reranked := map fst (VectorStore.sorted_desc snd keyed) in
                (documents,
                 match top_k with
                 | Some k => slice_to reranked k
                 | None => reranked
                 end)
            end
        end
  end.

End Rerank.

(** The cases in which [rerank] does not rank: there is no model, the
    flag is off, or the scoring raises. *)
Definition falls_back (cfg : Config.settings) (model : option predictor)
    (query : string) (documents : list doc) : Prop :=
  model = None
  \/ Config.reranker_enabled cfg = false
  \/ exists predict e,
       model = Some predict /\ bind (make_pairs query documents) predict = inl e.

(** Two dicts are the same document when they agree on everything but
    the rerank score. *)
Definition same_document (a b : doc) : Prop :=
  id a = id b /\ text a = text b /\ score a = score b
  /\ doc_metadata a = doc_metadata b.

(** The rerank score of a document, 0 for one without. *)
Definition rerank_score_of (d : doc) : Z :=
  match rerank_score d with
  | Some s => s
  | None => 0%Z
  end.

End Reranker.

(** ** Retrieval pipeline: [retrieval/rag_graph.py] *)

Module RAGGraph.
Import Py EnhancedJSON VectorStore Reranker.

(** [RAGState] *)
Record RAGState := {
  query : string;
  user_id : option Z;
  system_prompt : option string;
  retrieved_docs : list doc;
  reranked_docs : list doc;
  context : list string;
  response : string;
  error : option string
}.

(** The calls a query makes on the three services of the graph. *)
Inductive call :=
| CallSearch (query : string) (user_id : option Z) (limit : Z)
| CallRerank (query : string) (top_k : Z)
| CallGenerate (query : string) (context : list string) (system_prompt : option string).

Definition is_generate (c : call) : bool :=
  match c with CallGenerate _ _ _ => true | _ => false end.

(** An entry of the [sources] list of the answer. *)
Record source := Source {
  source_text : string;
  source_metadata : gmap string meta_value
}.

(** What [process_query] returns. *)
Record answer := Answer {
  answer_response : string;
  answer_sources : list source;
  answer_error : option string
}.

Definition no_information : string :=
  "I couldn't find any relevant information to answer your question.".

(** The truth value and the text of a metadata value in an f-string. *)
Definition meta_truthy (v : meta_value) : bool :=
  match v with
  | MInt n => negb (n =? 0)%Z
  | MStr s => negb (String.eqb s "")
  | MNone => false
  end.

Definition meta_str (v : meta_value) : string :=
  match v with
  | MInt n => str_int n
  | MStr s => s
  | MNone => "None"
  end.

Section Graph.
Variable cfg : Config.settings.
(** [self.vector_store.search] with its default threshold, bound to the
    collection as it is when the query runs. *)
Variable vector_store_search : string -> option Z -> Z -> result (list doc).
(** [self.reranker.rerank] *)
Variable reranker_rerank : string -> list doc -> option Z -> list doc * list doc.
(** [self.llm_service.generate_response] *)
Variable llm_generate_response :
  string -> list string -> option string -> result string.

(** A stage yields the state it returns and the service calls it made. *)
Definition stage := RAGState -> RAGState * list call.

Definition retrieve_documents : stage := fun state =>
  let made := [CallSearch (query state) (user_id state) (Config.reranker_candidates cfg)] in
  match vector_store_search (query state) (user_id state) (Config.reranker_candidates cfg) with
  | inr documents =>
      ({| query := query state; user_id := user_id state;
          system_prompt := system_prompt state;
          retrieved_docs := documents; reranked_docs := reranked_docs state;
          context := context state; response := response state;
          error := error state |}, made)
  | inl e =>
      ({| query := query state; user_id := user_id state;
          system_prompt := system_prompt state;
          retrieved_docs := []; reranked_docs := reranked_docs state;
          context := context state; response := response state;
          error := Some (exn_msg e) |}, made)
  end.

Definition rerank_documents : stage := fun state =>
  match retrieved_docs state with
  | [] =>
      ({| query := query state; user_id := user_id state;
          system_prompt := system_prompt state;
          retrieved_docs := retrieved_docs state; reranked_docs := [];
          context := context state; response := response state;
          error := error state |}, [])
  | _ =>
      let '(documents, reranked) :=
        reranker_rerank (query state) (retrieved_docs state)
                        (Some (Config.reranker_top_k cfg)) in
      ({| query := query state; user_id := user_id state;
          system_prompt := system_prompt state;
          retrieved_docs := documents; reranked_docs := reranked;
          context := context state; response := response state;
          error := error state |},
       [CallRerank (query state) (Config.reranker_top_k cfg)])
  end.

(** One segment of the context, when the document has a text. *)
Definition context_segment (d : doc) : list string :=
  match text d with
  | None | Some "" => []
  | Some t =>
      match doc_metadata d !! "source" with
      | Some src =>
          if meta_truthy src
          then ["[Source: " ++ meta_str src ++ "]" ++ EnhancedJSON.newline ++ t]
          else [t]
      | None => [t]
      end
  end.

Definition prepare_context : stage := fun state =>
  ({| query := query state; user_id := user_id state;
      system_prompt := system_prompt state;
      retrieved_docs := retrieved_docs state; reranked_docs := reranked_docs state;
      context := flat_map context_segment (reranked_docs state);
      response := response state; error := error state |}, []).

Definition generate_response : stage := fun state =>
  match context state with
  | [] =>
      ({| query := query state; user_id := user_id state;
          system_prompt := system_prompt state;
          retrieved_docs := retrieved_docs state; reranked_docs := reranked_docs state;
          context := context state; response := no_information;
          error := error state |}, [])
  | _ =>
      let made := [CallGenerate (query state) (context state) (system_prompt state)] in
      match llm_generate_response (query state) (context state) (system_prompt state) with
      | inr generated =>
          ({| query := query state; user_id := user_id state;
              system_prompt := system_prompt state;
              retrieved_docs := retrieved_docs state;
              reranked_docs := reranked_docs state;
              context := context state; response := generated;
              error := error state |}, made)
      | inl e =>
          ({| query := query state; user_id := user_id state;
              system_prompt := system_prompt state;
              retrieved_docs := retrieved_docs state;
              reranked_docs := reranked_docs state;
              context := context state;
              response := "An error occurred while generating the response: " ++ exn_msg e;
              error := Some (exn_msg e) |}, made)
      end
  end.

(** Stages in sequence, the calls in the order they are made. *)
Definition then_stage (f g : stage) : stage := fun state =>
  let '(s1, c1) := f state in
  let '(s2, c2) := g s1 in
  (s2, (c1 ++ c2)%list).

(** The compiled graph: retrieve, rerank, prepare_context, generate. *)
Definition graph : stage :=
  then_stage retrieve_documents
    (then_stage rerank_documents
       (then_stage prepare_context generate_response)).

Definition source_of (d : doc) : source :=
  Source (take_chars 200 (match text d with Some t => t | None => "" end) ++ "...")
         (doc_metadata d).

(** [process_query]. Every stage catches what its body raises, so the
    graph returns and the outer handler is not entered. *)
Definition process_query (q : string) (uid : option Z) (sp : option string)
    : answer * list call :=
  let initial_state :=
    {| query := q; user_id := uid; system_prompt := sp;
       retrieved_docs := []; reranked_docs := []; context := [];
       response := ""; error := None |} in
  let '(result, made) := graph initial_state in
  (Answer (response result)
          (map source_of (firstn 3 (reranked_docs result)))
          (error result), made).

End Graph.
End RAGGraph.

(** ** Ingestion coordinator: [ingestion/pipeline.py] *)

Module IngestionPipeline.
Import Py EnhancedJSON VectorStore.

(** A row of the [Document] table, as far as the coordinator writes it. *)
Record row := Row {
  processed : string;
  error_message : option string
}.

(** A file on disk: text that decodes as UTF-8, or bytes that do not,
    with the message of the [UnicodeDecodeError] that reading them
    raises. *)
Inductive file :=
| TextFile (content : string)
| BinaryFile (decode_message : string).

(** What the coordinator works on: the document table, the file system
    and the vector collection. The database is taken to answer; its own
    failures are left out. The file system maps the paths that exist to
    their files: at any other path the system calls find nothing (errno
    2), and their other failures (permissions, a name no system call
    takes) are left out. *)
Record world := World {
  db : gmap Z row;
  fs : gmap string file;
  collection : qdrant
}.

(** [str(e)] of the [FileNotFoundError] that [open] and [os.unlink]
    raise: the path is shown as [repr] prints it. *)
Definition no_such_file (file_path : string) : exn :=
  Exn FileNotFoundError
      ("[Errno 2] No such file or directory: " ++ repr file_path).

(** [open(file_path, 'r', encoding='utf-8').read()];
    [UnicodeDecodeError] is a subclass of [ValueError]. *)
Definition read_text (w : world) (file_path : string) : result string :=
  match fs w !! file_path with
  | Some (TextFile content) => inr content
  | Some (BinaryFile decode_message) => inl (Exn ValueError decode_message)
  | None => inl (no_such_file file_path)
  end.

(** [os.unlink(file_path)] *)
Definition unlink (w : world) (file_path : string) : result world :=
  match fs w !! file_path with
  | Some _ => inr (World (db w) (delete file_path (fs w)) (collection w))
  | None => inl (no_such_file file_path)
  end.

(** [document.processed = status; db.commit()] *)
Definition set_processed (w : world) (document_id : Z) (status : string) : world :=
  World (alter (fun r => Row status (error_message r)) document_id (db w))
        (fs w) (collection w).

(** [document.processed = "failed"; document.error_message = str(e)] *)
Definition set_failed (w : world) (document_id : Z) (message : string) : world :=
  World (alter (fun _ => Row "failed" (Some message)) document_id (db w))
        (fs w) (collection w).

Section Pipeline.
Variable cfg : Config.settings.
Variable json_loads : string -> result json.
(** The splitter of [EnhancedJSONProcessor] and that of [TextProcessor];
    their separator lists differ. *)
Variable json_split_text : string -> list string.
Variable text_split_text : string -> list string.
(** [PDFProcessor.process], which reads the file through the
    [unstructured] loader. *)
Variable pdf_process :
  gmap string file -> string -> gmap string meta_value -> result (list chunk).
Variable embed_documents : list string -> result (list vector).
Variable uuid4 : nat -> string.

(** [TextProcessor.process] *)
Definition text_process (content : string) (md : gmap string meta_value)
    : result (list chunk) :=
  inr (map DocChunk (split_documents text_split_text [Document content md])).

Definition json_process := process cfg json_loads json_split_text.

(** The chunks of the three branches of the dispatch on the file name. *)
Definition make_chunks (w : world) (file_path filename : string)
    (md : gmap string meta_value) : result (list chunk) :=
  if endswith (lower filename) ".pdf" then pdf_process (fs w) file_path md
  else if endswith (lower filename) ".json" then
    bind (read_text w file_path) (fun content => json_process content md)
  else
    bind (read_text w file_path) (fun content =>
      match bind (json_loads (strip content)) (fun _ => json_process content md) with
      | inr chunks => inr chunks
      | inl e =>
          if is_ValueError e then text_process content md else inl e
      end).

(** The world where an exception left it, with the exception, or the
    world at the normal end. *)
Definition outcome := (world * option exn)%type.

(** The inner [try] block: chunks, indexing, then [completed]. *)
Definition ingest_body (w : world) (file_path filename : string)
    (document_id : Z) (session_id : string) (user_id : Z) : outcome :=
  let md : gmap string meta_value :=
    <["session_id" := MStr session_id]>
      (<["filename" := MStr filename]> (<["document_id" := MInt document_id]> ∅)) in
  match make_chunks w file_path filename md with
  | inl e => (w, Some e)
  | inr chunks =>
      match add_documents embed_documents uuid4 (collection w) chunks session_id user_id with
      | inl e => (w, Some e)
      | inr (q, _) =>
          (set_processed (World (db w) (fs w) q) document_id "completed", None)
      end
  end.

(** The [finally] clause: the unlink runs on both ways out of the body,
    and what it raises takes the place of what was being raised. *)
Definition finally_unlink (o : outcome) (file_path : string) : outcome :=
  match unlink (fst o) file_path with
  | inr w => (w, snd o)
  | inl e => (fst o, Some e)
  end.

(** The outer [except Exception]: the row is looked up again and set to
    [failed] with the message. *)
Definition on_exception (o : outcome) (document_id : Z) : world :=
  match snd o with
  | None => fst o
  | Some e =>
      match db (fst o) !! document_id with
      | Some _ => set_failed (fst o) document_id (exn_msg e)
      | None => fst o
      end
  end.

(** [process_file_from_path] *)
Definition process_file_from_path (w : world) (file_path filename : string)
    (document_id : Z) (session_id : string) (user_id : Z) : world :=
  match db w !! document_id with
  | None => w
  | Some _ =>
      let w := set_processed w document_id "processing" in
      on_exception
        (finally_unlink
           (ingest_body w file_path filename document_id session_id user_id)
           file_path)
        document_id
  end.

(** [process_file]: the upload is written to a temporary file, whose
    path [NamedTemporaryFile] picks, and handed to
    [process_file_from_path]. *)
Definition process_file (w : world) (tmp_path : string) (upload : file)
    (filename : string) (document_id : Z) (session_id : string) (user_id : Z)
    : world :=
  let w := World (db w) (<[tmp_path := upload]> (fs w)) (collection w) in
  process_file_from_path w tmp_path filename document_id session_id user_id.

End Pipeline.
End IngestionPipeline.

(** ** Concrete inputs used by the examples *)

Module Scenarios.
Import Py EnhancedJSON Services.

(** A JSON object with one field [name] whose value is 1500 letters. *)
Definition long_name_content : string :=
  "{" ++ dquote ++ "name" ++ dquote ++ ": " ++ dquote
      ++ String.concat "" (repeat "a" 1500) ++ dquote ++ "}".

(** The converter with the default settings. *)
Definition convert_default (content : string) : result (list chunk) :=
  process Config.default_settings loads_ascii
          (fixed_width_split Config.default_settings) content ∅.

(** What [json.loads] makes of it. *)
Definition long_name_value : json :=
  JDict [("name", JStr (String.concat "" (repeat "a" 1500)))].

(** [{"active": true}] *)
Definition active_content : string :=
  "{" ++ dquote ++ "active" ++ dquote ++ ": true}".

(** *** A small web *)

(** Stand-ins for [urllib.parse] on absolute URLs of the form
    [scheme://host/path]: joining an absolute link to a base yields the
    link, the fragment starts at the first [#], the host lies between the
    double slash and the next slash. *)
Definition urljoin_absolute (base href : string) : result string := inr href.

Fixpoint before_hash (s : string) : string :=
  match s with
  | EmptyString => EmptyString
  | String c r => if (code c =? 35)%nat then EmptyString else String c (before_hash r)
  end.

Definition urldefrag_first_hash (u : string) : result string := inr (before_hash u).

Fixpoint after_double_slash (s : string) : string :=
  match s with
  | EmptyString => EmptyString
  | String c r =>
      match r with
      | String c' r' =>
          if (code c =? 47)%nat && (code c' =? 47)%nat then r'
          else after_double_slash r
      | EmptyString => EmptyString
      end
  end.

Fixpoint before_slash (s : string) : string :=
  match s with
  | EmptyString => EmptyString
  | String c r => if (code c =? 47)%nat then EmptyString else String c (before_slash r)
  end.

Definition netloc_of (u : string) : result string :=
  inr (before_slash (after_double_slash u)).

Definition site_a : string := "http://a.test/".
Definition page_b : string := "http://a.test/b".
Definition page_c : string := "http://a.test/c".

Definition not_found : exn := Exn RuntimeError "404 Client Error: Not Found".

(** The seed links twice to the same page. *)
Definition web_repeated_link (request : nat) (u : string) : result Crawler.soup :=
  if String.eqb u site_a then
    inr (Crawler.Soup (Some "A") ["Welcome to A"] [page_b; page_b])
  else if String.eqb u page_b then
    inr (Crawler.Soup (Some "B") ["Page B"] [])
  else inl not_found.

(** The seed answers with a page that has a title and no paragraph,
    heading or list item. *)
Definition web_blank_seed (request : nat) (u : string) : result Crawler.soup :=
  if String.eqb u site_a then inr (Crawler.Soup (Some "A") [] [])
  else inl not_found.

(** The scenario of the specification: A links to B and C. *)
Definition web_abc (request : nat) (u : string) : result Crawler.soup :=
  if String.eqb u site_a then
    inr (Crawler.Soup (Some "A") ["Welcome to A"] [page_b; page_c])
  else if String.eqb u page_b then
    inr (Crawler.Soup (Some "B") ["Page B"] [site_a])
  else if String.eqb u page_c then
    inr (Crawler.Soup (Some "C") ["Page C"] [page_b])
  else inl not_found.

(** Links that differ in their fragments only: the seed links to B
    twice, once with a fragment, and to C; B links back to the seed and
    to itself, both with a fragment, and to C and D. *)
Definition page_d : string := "http://a.test/d".

Definition web_fragments (request : nat) (u : string) : result Crawler.soup :=
  if String.eqb u site_a then
    inr (Crawler.Soup (Some "A") ["Welcome to A"]
           [page_b; page_b ++ "#top"; page_c])
  else if String.eqb u page_b then
    inr (Crawler.Soup (Some "B") ["Page B"]
           [site_a ++ "#top"; page_b ++ "#more"; page_c; page_d])
  else inl not_found.

(** A seed given with a fragment. The fragment is not sent to the
    server, which answers with the home page; the page links to itself. *)
Definition site_a_top : string := "http://a.test/#top".

Definition web_home_link (request : nat) (u : string) : result Crawler.soup :=
  if String.eqb u site_a || String.eqb u site_a_top then
    inr (Crawler.Soup (Some "A") ["Welcome to A"] [site_a])
  else inl not_found.

Definition crawl_step (web : nat -> string -> result Crawler.soup)
    (max_depth max_links_per_page : Z) :=
  Crawler.step web urljoin_absolute urldefrag_first_hash netloc_of
               max_depth max_links_per_page.

Definition crawl (web : nat -> string -> result Crawler.soup)
    (max_depth max_links_per_page : Z) :=
  Crawler.scrape web urljoin_absolute urldefrag_first_hash netloc_of
                 max_depth max_links_per_page.

(** *** A small collection *)

(** An embedding service that maps every text to the same vector, a
    similarity that scores every pair 1, and identifiers [id0], [id1], ... *)
Definition embed_constant (texts : list string) : result (list VectorStore.vector) :=
  inr (map (fun _ => [1%Z]) texts).
Definition embed_query_constant (q : string) : result VectorStore.vector := inr [1%Z].
Definition similarity_one (a b : VectorStore.vector) : Z := 1.
Definition uuid_counter (n : nat) : string := "id" ++ str_of_nat n.

Definition empty_collection : VectorStore.qdrant := VectorStore.Qdrant [] None.

Definition unreachable_collection : VectorStore.qdrant :=
  VectorStore.Qdrant [] (Some (Exn RuntimeError "Connection refused")).

Definition add (q : VectorStore.qdrant) (texts : list string) (user_id : Z)
    : VectorStore.qdrant :=
  match VectorStore.add_documents embed_constant uuid_counter q
          (map (fun t => DocChunk (Document t ∅)) texts) "session" user_id with
  | inr (q', _) => q'
  | inl _ => q
  end.

(** User 1 stores a private note, then user 0 stores one. *)
Definition two_users : VectorStore.qdrant :=
  add (add empty_collection ["private note of user 1"] 1) ["note of user 0"] 0.

Definition search_in (q : VectorStore.qdrant) (query : string) (user_id : option Z)
    (limit : Z) : result (list VectorStore.doc) :=
  VectorStore.search embed_query_constant similarity_one q query user_id limit 0.

(** *** A query *)

Definition doc_one : VectorStore.doc :=
  VectorStore.Doc "id0" (Some "first") 9 ∅ None.
Definition doc_two : VectorStore.doc :=
  VectorStore.Doc "id1" (Some "second") 8 ∅ None.

(** A cross encoder that fails, and one that scores a pair by the
    length of its text. *)
Definition predict_fails : Reranker.predictor :=
  fun _ => inl (Exn RuntimeError "CUDA out of memory").
Definition predict_length : Reranker.predictor :=
  fun pairs => inr (map (fun p => Z.of_nat (String.length (snd p))) pairs).

Definition llm_fixed (query : string) (context : list string)
    (system_prompt : option string) : result string :=
  inr "An answer.".

(** [process_query] over a collection, with the default settings. *)
Definition ask (q : VectorStore.qdrant) (query : string) (user_id : option Z)
    (system_prompt : option string) : RAGGraph.answer * list RAGGraph.call :=
  RAGGraph.process_query Config.default_settings
    (search_in q)
    (Reranker.rerank Config.default_settings (Some predict_length))
    llm_fixed query user_id system_prompt.

(** *** An upload *)

Definition pdf_loader_missing (files : gmap string IngestionPipeline.file)
    (file_path : string) (md : gmap string meta_value) : result (list chunk) :=
  inl (Exn RuntimeError "unstructured is not installed").

(** [process_file_from_path] and [process_file] with the default
    settings, for user 1 and session [session]. *)
Definition ingest_path (w : IngestionPipeline.world) (file_path filename : string)
    (document_id : Z) : IngestionPipeline.world :=
  IngestionPipeline.process_file_from_path Config.default_settings loads_ascii
    (fixed_width_split Config.default_settings)
    (fixed_width_split Config.default_settings)
    pdf_loader_missing embed_constant uuid_counter
    w file_path filename document_id "session" 1.

Definition ingest_upload (w : IngestionPipeline.world) (tmp_path : string)
    (upload : IngestionPipeline.file) (filename : string) (document_id : Z)
    : IngestionPipeline.world :=
  IngestionPipeline.process_file Config.default_settings loads_ascii
    (fixed_width_split Config.default_settings)
    (fixed_width_split Config.default_settings)
    pdf_loader_missing embed_constant uuid_counter
    w tmp_path upload filename document_id "session" 1.

(** Document 5 is registered and waits; nothing is on disk or indexed. *)
Definition one_pending : IngestionPipeline.world :=
  IngestionPipeline.World {[ 5%Z := IngestionPipeline.Row "pending" None ]} ∅
                          empty_collection.

Definition not_json : IngestionPipeline.file := IngestionPipeline.TextFile "not json".

(** *** More inputs of the converter *)

(** [[1, 2]]: JSON, but not an object. *)
Definition array_content : string := "[1, 2]".

(** An object with a [title] and a nested [address]. *)
Definition company_value : json :=
  JDict [("title", JStr "Acme Corporation, maker of anvils and rockets");
         ("address", JDict [("street_name", JStr "1 Desert Road");
                            ("city", JStr "Monument Valley")])].

Definition company_content : string := dumps company_value.

(** *** More calls on the collection *)

(** A batch with a bare string in it, as the converter's fallback
    returns. *)
Definition mixed_batch : list chunk :=
  [DocChunk (Document "a document" ∅); StrChunk "a bare string"].

Definition add_batch (q : VectorStore.qdrant) (documents : list chunk)
    (user_id : Z) : result (VectorStore.qdrant * list string) :=
  VectorStore.add_documents embed_constant uuid_counter q documents "session" user_id.

(** *** More uploads *)

(** Document 5 waits and its upload is on disk. *)
Definition pending_upload (file_path : string) (upload : IngestionPipeline.file)
    : IngestionPipeline.world :=
  IngestionPipeline.World {[ 5%Z := IngestionPipeline.Row "pending" None ]}
                          {[ file_path := upload ]} empty_collection.

Definition embed_fails (texts : list string) : result (list VectorStore.vector) :=
  inl (Exn RuntimeError "embedding service unreachable").

Definition split_default : string -> list string :=
  fixed_width_split Config.default_settings.

End Scenarios.

(** * Properties *)

(** ** Structural converter *)

Section JsonInduction.
Import EnhancedJSON.
Variable P : json -> Prop.
Hypothesis H_null : P JNull.
Hypothesis H_bool : forall b, P (JBool b).
Hypothesis H_int : forall n, P (JInt n).
Hypothesis H_float : forall r, P (JFloat r).
Hypothesis H_str : forall s, P (JStr s).
Hypothesis H_list : forall items, Forall P items -> P (JList items).
Hypothesis H_dict :
  forall items, Forall (fun kv => P (snd kv)) items -> P (JDict items).

(** Induction on a JSON value with the hypothesis on every element of a
    list and every value of a dict. *)
Lemma json_nested_ind : forall v, P v.
Proof.
  fix IH 1. intros [ | b | n | r | s | items | items ].
  - exact H_null.
  - apply H_bool.
  - apply H_int.
  - apply H_float.
  - apply H_str.
  - apply H_list. induction items as [ | x items IHitems ]; constructor.
    + apply IH.
    + exact IHitems.
  - apply H_dict. induction items as [ | [k x] items IHitems ]; constructor.
    + apply IH.
    + exact IHitems.
Qed.
End JsonInduction.

Section ConverterProperties.
Import Py EnhancedJSON.

(** C8 (as the code has it): a boolean is rendered by the numeric branch,
    which [bool] passes as a subclass of [int]; the text is [True] or
    [False], and the branch that would give [yes] or [no] is never
    reached. *)
Theorem convert_value_to_text_bool :
  forall (b : bool) (context_path : string),
    convert_value_to_text (JBool b) context_path = (if b then "True" else "False")
    /\ convert_value_to_text (JBool b) context_path <> (if b then "yes" else "no").
Proof.
  intros [ | ] context_path; split; simpl; congruence.
Qed.

Lemma append_nonempty_l : forall a b : string, a <> "" -> a ++ b <> "".
Proof. intros [ | c a ] b H; [ congruence | discriminate ]. Qed.

Lemma Forall_flat_map_intro {A B} (Q : B -> Prop) (f : A -> list B) (l : list A) :
  Forall (fun x => Forall Q (f x)) l -> Forall Q (flat_map f l).
Proof.
  induction 1 as [ | x l Hx _ IH ]; simpl.
  - constructor.
  - apply Forall_app; split; assumption.
Qed.

(** Every chunk [process_object] appends has a text. *)
Lemma process_object_nonempty :
  forall obj md path parent_context,
    Forall nonempty_doc (process_object md obj path parent_context).
Proof.
  intros obj.
  enough (Hboth :
    (forall md path parent_context,
        Forall nonempty_doc (process_object md obj path parent_context))
    /\ (forall elems, obj = JList elems ->
          Forall (fun x => forall md path parent_context,
                     Forall nonempty_doc (process_object md x path parent_context))
                 elems)) by (apply Hboth).
  induction obj as [ | b | n | r | s | items IH | items IH ] using json_nested_ind;
    try (split; [ intros; constructor | intros elems Heq; discriminate ]).
  - split; [ intros; constructor | ].
    intros elems Heq. injection Heq as <-.
    eapply Forall_impl; [ exact IH | ]. intros x [Hx _]. exact Hx.
  - split; [ | intros elems Heq; discriminate ].
    intros md path parent_context.
    cbn [process_object]. apply Forall_app. split.
    + destruct (negb _ && _) eqn:Hsub; [ | constructor ].
      apply andb_prop in Hsub as [Hne _].
      apply negb_true_iff, String.eqb_neq in Hne.
      constructor; [ | constructor ].
      unfold nonempty_doc; cbn [page_content].
      destruct (String.eqb parent_context ""); [ exact Hne | discriminate ].
    + apply Forall_flat_map_intro.
      eapply Forall_impl; [ exact IH | ].
      intros [key value] [Hval Helems]. cbn [snd] in *.
      destruct value as [ | | | | | elems | fields ]; try constructor.
      * destruct elems as [ | e elems ]; [ constructor | ].
        destruct (forallb _ _); [ | constructor ].
        specialize (Helems _ eq_refl).
        apply Forall_cons_iff in Helems as [He Helems].
        apply Forall_app; split; [ apply He | ].
        match goal with
        | |- Forall _ (?each _ _ _) =>
            assert (Heach : forall l,
                       Forall (fun x => forall md path parent_context,
                                 Forall nonempty_doc
                                   (process_object md x path parent_context)) l ->
                       forall n i, Forall nonempty_doc (each n i l))
        end.
        { induction 1 as [ | x l Hx _ IHl ]; intros n i.
          - destruct n; constructor.
          - destruct n; [ constructor | ].
            apply Forall_app; split; [ apply Hx | apply IHl ]. }
        apply Heach, Helems.
      * destruct fields as [ | f fields ]; [ constructor | ].
        destruct (_ <? _)%nat; [ apply Hval | constructor ].
Qed.

Lemma length_take_chars : forall n s, (String.length (Py.take_chars n s) <= n)%nat.
Proof.
  induction n as [ | n IH ]; intros [ | c s ]; simpl; try lia.
  specialize (IH s). lia.
Qed.

Lemma chop_pieces :
  forall fuel width s,
    (0 < width)%nat ->
    Forall (fun piece => piece <> "" /\ (String.length piece <= width)%nat)
           (Services.chop fuel width s).
Proof.
  induction fuel as [ | fuel IH ]; intros width s Hw; simpl.
  - constructor.
  - destruct s as [ | c s ]; constructor.
    + split; [ | apply length_take_chars ].
      destruct width; [ lia | discriminate ].
    + apply IH, Hw.
Qed.

(** The fixed-width splitter meets the contract of the splitter. *)
Lemma fixed_width_split_contract :
  forall cfg, splitter_contract cfg (Services.fixed_width_split cfg).
Proof.
  intros cfg s. unfold Services.fixed_width_split.
  destruct (Z.to_nat (Config.chunk_size cfg)) as [ | w ] eqn:Hw; [ constructor | ].
  eapply Forall_impl; [ apply chop_pieces with (width := S w); lia | ].
  intros piece [Hne Hlen]. split; [ exact Hne | ]. unfold len. lia.
Qed.

Section PostPass.
Variable cfg : Config.settings.
Variable json_loads : string -> result json.
Variable split_text : string -> list string.
Hypothesis contract : splitter_contract cfg split_text.

Lemma resplit_within_twice_chunk_size :
  forall structured_chunks,
    Forall nonempty_doc structured_chunks ->
    Forall (within_twice_chunk_size cfg)
           (map DocChunk (resplit cfg split_text structured_chunks)).
Proof.
  intros structured_chunks Hne. unfold resplit.
  apply Forall_map, Forall_flat_map_intro.
  eapply Forall_impl; [ exact Hne | ].
  intros c Hc.
  destruct (_ <? _)%Z eqn:Hbig.
  - unfold split_documents. simpl. rewrite app_nil_r.
    apply Forall_map.
    eapply Forall_impl; [ apply contract | ].
    intros piece [Hp Hlen]. split; simpl; [ exact Hp | ].
    destruct piece; [ congruence | ]. unfold len in *. simpl in *. lia.
  - constructor; [ | constructor ].
    apply Z.ltb_ge in Hbig. split; simpl; [ exact Hc | lia ].
Qed.

(** C2 (amended): for a structured input, every chunk [process] emits has
    a text of at most twice the chunk size, the splitter keeping its
    pieces within the chunk size; and on a JSON object [process] does
    emit its chunks. *)
Theorem process_chunks_within_twice_chunk_size :
  forall (content : string) (md : gmap string meta_value) (v : json),
    json_loads content = inr v ->
    (forall chunks,
        process cfg json_loads split_text content md = inr chunks ->
        Forall (within_twice_chunk_size cfg) chunks)
    /\ (isinstance_dict v = true ->
        exists chunks, process cfg json_loads split_text content md = inr chunks).
Proof.
  intros content md v Hloads. unfold process. rewrite Hloads.
  destruct v as [ | | | | | | fields ];
    try (split; [ intros chunks H; discriminate H | intros H; discriminate H ]).
  cbn [create_structured_chunks bind].
  split; [ | intros _; eexists; reflexivity ].
  intros chunks H. injection H as <-.
  apply resplit_within_twice_chunk_size.
  pose proof (process_object_nonempty (JDict fields)
                (<["processor" := MStr "enhanced_json"]>
                   (<["content_type" := MStr "json"]> md)) "" "Root") as Hobj.
  destruct (String.eqb _ ""); [ exact Hobj | ].
  constructor; [ discriminate | exact Hobj ].
Qed.

End PostPass.

(** C2 (as stated) fails: with the default settings (chunk size 1000,
    overlap 200) the object whose [name] has 1500 letters yields a chunk
    of more than 1200 characters, which the post-pass leaves whole since
    it is not longer than 2000. *)
Lemma process_emits_chunk_over_chunk_size :
  exists chunks,
    Scenarios.convert_default Scenarios.long_name_content = inr chunks
    /\ ~ Forall (within_chunk_size Config.default_settings) chunks.
Proof.
  eexists. split.
  - vm_compute. reflexivity.
  - intros H.
    apply Forall_cons_iff in H as [_ H].
    apply Forall_cons_iff in H as [[_ Hlen] _].
    vm_compute in Hlen. apply Hlen. reflexivity.
Qed.

Lemma process_chunks_within_twice_chunk_size_witness :
  splitter_contract Config.default_settings
    (Services.fixed_width_split Config.default_settings)
  /\ Services.loads_ascii Scenarios.long_name_content = inr Scenarios.long_name_value
  /\ (forall chunks,
        Scenarios.convert_default Scenarios.long_name_content = inr chunks ->
        Forall (within_twice_chunk_size Config.default_settings) chunks)
  /\ (isinstance_dict Scenarios.long_name_value = true ->
      exists chunks,
        Scenarios.convert_default Scenarios.long_name_content = inr chunks).
Proof.
  split; [ apply fixed_width_split_contract | ].
  split; [ vm_compute; reflexivity | ].
  apply (process_chunks_within_twice_chunk_size Config.default_settings
           Services.loads_ascii
           (Services.fixed_width_split Config.default_settings)
           (fixed_width_split_contract Config.default_settings)
           Scenarios.long_name_content ∅ Scenarios.long_name_value).
  vm_compute; reflexivity.
Defined.

End ConverterProperties.

(** ** Crawler *)

Lemma In_firstn_elim {A} (n : nat) (y : A) (l : list A) :
  In y (firstn n l) -> In y l.
Proof.
  revert l. induction n as [ | n IH ]; intros [ | x l ]; simpl; try tauto.
  intros [ <- | H ]; [ left; reflexivity | right; auto ].
Qed.

Section CrawlerProperties.
Import Py Crawler.

Variable fetch : nat -> string -> result soup.
Variable urljoin : string -> string -> result string.
Variable urldefrag : string -> result string.
Variable netloc : string -> result string.
Variable max_depth : Z.
Variable max_links_per_page : Z.

Abbreviation step := (Crawler.step fetch urljoin urldefrag netloc max_depth max_links_per_page).
Abbreviation run := (Crawler.run fetch urljoin urldefrag netloc max_depth max_links_per_page).
Abbreviation scrape := (Crawler.scrape fetch urljoin urldefrag netloc max_depth max_links_per_page).
Abbreviation terminates :=
  (Crawler.terminates fetch urljoin urldefrag netloc max_depth max_links_per_page).
Abbreviation rank := (Crawler.rank max_depth).
Abbreviation count_from := (Crawler.count_from max_depth).
Abbreviation depths_ok := (Crawler.depths_ok max_depth).

Lemma new_entries_unvisited :
  forall links visited d,
    Forall (fun entry => fst entry ∉ visited)
           (new_entries max_links_per_page links visited d).
Proof.
  intros links visited d. unfold new_entries.
  apply Forall_map. apply List.Forall_forall. intros link Hin.
  apply List.filter_In in Hin as [_ Hnot]. cbn [fst].
  apply negb_true_iff, bool_decide_eq_false in Hnot. exact Hnot.
Qed.

Lemma new_entries_depth :
  forall links visited d,
    Forall (fun entry => snd entry = (d + 1)%Z)
           (new_entries max_links_per_page links visited d).
Proof.
  intros links visited d. unfold new_entries.
  apply Forall_map. apply List.Forall_forall. intros link _. reflexivity.
Qed.

(** What one turn does to the frontier: the head is popped, and the
    entries appended, which only a page above the depth limit adds, lie
    one level deeper and are not visited. *)
Lemma step_frontier :
  forall s u d rest,
    to_visit s = (u, d) :: rest ->
    exists s' new,
      step s = Some s'
      /\ to_visit s' = (rest ++ new)%list
      /\ Forall (fun entry => snd entry = (d + 1)%Z /\ (d < max_depth)%Z
                              /\ fst entry ∉ visited_urls s') new.
Proof.
  intros s u d rest Hs. unfold Crawler.step. rewrite Hs.
  destruct (bool_decide _ || _).
  { eexists; exists []. rewrite app_nil_r. repeat split; constructor. }
  destruct (fetch _ _) as [ e | page ].
  { eexists; exists []. rewrite app_nil_r. repeat split; constructor. }
  destruct (d <? max_depth)%Z eqn:Hd.
  - destruct (get_links _ _ _ _ _) as [ e | links ].
    + eexists; exists []. rewrite app_nil_r. repeat split; constructor.
    + eexists; eexists. split; [ reflexivity | ]. split; [ reflexivity | ].
      cbn [visited_urls]. apply Z.ltb_lt in Hd.
      pose proof (new_entries_unvisited links ({[u]} ∪ visited_urls s) d) as H1.
      pose proof (new_entries_depth links ({[u]} ∪ visited_urls s) d) as H2.
      rewrite List.Forall_forall in *. intros x Hx. auto.
  - eexists; exists []. rewrite app_nil_r. repeat split; constructor.
Qed.

Lemma new_entries_from_links :
  forall links visited d entry,
    In entry (new_entries max_links_per_page links visited d) -> In (fst entry) links.
Proof.
  intros links visited d entry Hin. unfold new_entries in Hin.
  apply in_map_iff in Hin as (link & <- & Hin). cbn [fst].
  apply List.filter_In in Hin as [Hin _].
  unfold slice_to in Hin.
  destruct (0 <=? max_links_per_page)%Z; eapply In_firstn_elim; exact Hin.
Qed.

(** [_get_links] returns what [urldefrag] made of the links. *)
Lemma get_links_from_stripped :
  forall hrefs base_url links,
    get_links_from urljoin urldefrag netloc hrefs base_url = inr links ->
    Forall (fun link => exists full_url, urldefrag full_url = inr link) links.
Proof.
  induction hrefs as [ | href more IH ]; intros base_url links Hlinks; simpl in Hlinks.
  - injection Hlinks as <-. constructor.
  - destruct (urljoin base_url href) as [ e | joined ]; [ discriminate Hlinks | ].
    cbn [bind] in Hlinks.
    destruct (urldefrag joined) as [ e | full_url ] eqn:Hstripped;
      [ discriminate Hlinks | ].
    cbn [bind] in Hlinks.
    destruct (netloc full_url) as [ e | link_host ]; [ discriminate Hlinks | ].
    cbn [bind] in Hlinks.
    destruct (netloc base_url) as [ e | base_host ]; [ discriminate Hlinks | ].
    cbn [bind] in Hlinks.
    destruct (get_links_from urljoin urldefrag netloc more base_url)
      as [ e | found ] eqn:Hmore; [ discriminate Hlinks | ].
    cbn [bind] in Hlinks. injection Hlinks as <-.
    specialize (IH base_url found Hmore).
    destruct (String.eqb link_host base_host); [ | exact IH ].
    constructor; [ | exact IH ]. exists joined. exact Hstripped.
Qed.

(** What one turn does to the frontier and the visited set: the head is
    popped, the visited set gains the popped URL at most, and the
    entries appended are links that [urldefrag] has stripped and that
    are not in the visited set. *)
Lemma step_frontier_stripped :
  forall s u d rest,
    to_visit s = (u, d) :: rest ->
    exists s' new,
      step s = Some s'
      /\ to_visit s' = (rest ++ new)%list
      /\ (forall v, v ∈ visited_urls s' -> v = u \/ v ∈ visited_urls s)
      /\ Forall (fun entry => (exists full_url, urldefrag full_url = inr (fst entry))
                              /\ fst entry ∉ visited_urls s')
                new.
Proof.
  intros s u d rest Hs. unfold Crawler.step. rewrite Hs.
  destruct (bool_decide _ || _).
  { eexists; exists []. rewrite app_nil_r.
    repeat split; [ intros v Hv; right; exact Hv | constructor ]. }
  destruct (fetch _ _) as [ e | page ].
  { eexists; exists []. rewrite app_nil_r.
    repeat split; [ intros v Hv; right; exact Hv | constructor ]. }
  assert (Hgain : forall v, v ∈ (({[u]} ∪ visited_urls s) : gset string) ->
                            v = u \/ v ∈ visited_urls s).
  { intros v Hv. apply elem_of_union in Hv as [Hv | Hv]; [ left | right; exact Hv ].
    apply elem_of_singleton in Hv. exact Hv. }
  destruct (d <? max_depth)%Z.
  - destruct (get_links _ _ _ _ _) as [ e | links ] eqn:Hlinks.
    + eexists; exists []. rewrite app_nil_r.
      repeat split; [ exact Hgain | constructor ].
    + eexists; eexists. split; [ reflexivity | ]. split; [ reflexivity | ].
      cbn [visited_urls]. split; [ exact Hgain | ].
      pose proof (new_entries_unvisited links ({[u]} ∪ visited_urls s) d) as H1.
      pose proof (get_links_from_stripped _ _ _ Hlinks) as H2.
      rewrite List.Forall_forall in *. intros entry Hentry.
      split; [ | apply H1; exact Hentry ].
      apply H2. eapply new_entries_from_links. exact Hentry.
  - eexists; exists []. rewrite app_nil_r.
    repeat split; [ exact Hgain | constructor ].
Qed.

Section Fragments.

Abbreviation fragment_free := (Crawler.fragment_free urldefrag).
Abbreviation same_page := (Crawler.same_page urldefrag).
Abbreviation fragments_stripped := (Crawler.fragments_stripped urldefrag).
Abbreviation reachable :=
  (Crawler.reachable fetch urljoin urldefrag netloc max_depth max_links_per_page).

(** [urllib.parse.urldefrag]: what it returns holds no [#], and a URL
    without [#] is returned as it is. *)
Hypothesis urldefrag_idempotent :
  forall u stripped, urldefrag u = inr stripped -> urldefrag stripped = inr stripped.

Lemma same_page_fragment_free :
  forall u v, fragment_free u -> fragment_free v -> same_page u v -> u = v.
Proof.
  unfold Crawler.fragment_free. intros u v Hu Hv (stripped & H1 & H2). congruence.
Qed.

Lemma step_fragments_stripped :
  forall s s', step s = Some s' -> fragments_stripped s -> fragments_stripped s'.
Proof.
  intros s s' Hstep [Hfront Hvisited].
  destruct (to_visit s) as [ | [u d] rest ] eqn:Hs.
  { unfold Crawler.step in Hstep. rewrite Hs in Hstep. discriminate Hstep. }
  apply Forall_cons_iff in Hfront as [Hu Hrest]. cbn [fst] in Hu.
  destruct (step_frontier_stripped s u d rest Hs) as (s1 & new & H1 & H2 & H3 & H4).
  rewrite H1 in Hstep. injection Hstep as <-. split.
  - rewrite H2. apply Forall_app. split; [ exact Hrest | ].
    eapply Forall_impl; [ exact H4 | ]. cbn beta.
    intros entry ((full_url & Hfull) & _).
    exact (urldefrag_idempotent _ _ Hfull).
  - intros v Hv. destruct (H3 v Hv) as [ -> | Hold ]; [ exact Hu | auto ].
Qed.

Lemma reachable_fragments_stripped :
  forall start_url s,
    fragment_free start_url -> reachable start_url s -> fragments_stripped s.
Proof.
  intros start_url s Hseed Hreach. induction Hreach as [ | s s' _ IH Hstep ].
  - split; cbn [initial to_visit visited_urls].
    + constructor; [ exact Hseed | constructor ].
    + intros v Hv. set_solver.
  - exact (step_fragments_stripped s s' Hstep IH).
Qed.

(** C4 (amended): in a crawl whose seed carries no fragment, and with
    [urldefrag] leaving a URL it has stripped as it is, no turn of the
    loop appends to the frontier an entry whose URL, stripped of its
    fragment, is that of a URL already fetched, and an entry popped for
    such a URL is dropped without a request. (The frontier itself may
    hold one URL several times.) *)
Theorem crawl_skips_visited_pages :
  forall start_url s s',
    fragment_free start_url ->
    reachable start_url s ->
    step s = Some s' ->
    (exists new,
        to_visit s' = (tl (to_visit s) ++ new)%list
        /\ Forall (fun entry =>
                     forall v, v ∈ visited_urls s' -> ~ same_page (fst entry) v)
                  new)
    /\ (forall u d rest v,
          to_visit s = (u, d) :: rest ->
          v ∈ visited_urls s -> same_page u v ->
          s' = State rest (visited_urls s) (content s) (requests s)).
Proof.
  intros start_url s s' Hseed Hreach Hstep.
  pose proof (reachable_fragments_stripped start_url s Hseed Hreach) as Hs_ok.
  pose proof (step_fragments_stripped s s' Hstep Hs_ok) as [_ Hvisited'].
  destruct Hs_ok as [Hfront Hvisited]. split.
  - destruct (to_visit s) as [ | [u d] rest ] eqn:Hs.
    { unfold Crawler.step in Hstep. rewrite Hs in Hstep. discriminate Hstep. }
    destruct (step_frontier_stripped s u d rest Hs) as (s1 & new & H1 & H2 & _ & H4).
    rewrite H1 in Hstep. injection Hstep as <-.
    exists new. split; [ exact H2 | ].
    eapply Forall_impl; [ exact H4 | ]. cbn beta.
    intros entry ((full_url & Hfull) & Hnot) v Hv Hsame.
    apply Hnot.
    rewrite (same_page_fragment_free (fst entry) v
               (urldefrag_idempotent _ _ Hfull) (Hvisited' v Hv) Hsame).
    exact Hv.
  - intros u d rest v Hs Hv Hsame.
    rewrite Hs in Hfront. apply Forall_cons_iff in Hfront as [Hu _]. cbn [fst] in Hu.
    rewrite <- (same_page_fragment_free u v Hu (Hvisited v Hv) Hsame) in Hv.
    unfold Crawler.step in Hstep. rewrite Hs in Hstep.
    rewrite (bool_decide_eq_true_2 _ Hv) in Hstep. cbn in Hstep.
    congruence.
Qed.

End Fragments.

(** *** Termination *)

Lemma terminates_empty : forall s, to_visit s = [] -> terminates s.
Proof.
  intros s Hs. exists 1%nat, (content s). simpl.
  unfold Crawler.step. rewrite Hs. reflexivity.
Qed.

Lemma terminates_step : forall s s', step s = Some s' -> terminates s' -> terminates s.
Proof.
  intros s s' Hstep (fuel & records & Hrun).
  exists (S fuel), records. simpl. rewrite Hstep. exact Hrun.
Qed.

Lemma step_rank :
  forall s e rest,
    to_visit s = e :: rest ->
    exists s' new,
      step s = Some s' /\ to_visit s' = (rest ++ new)%list
      /\ Forall (fun entry => (rank entry < rank e)%nat) new.
Proof.
  intros s [u d] rest Hs.
  destruct (step_frontier s u d rest Hs) as (s' & new & H1 & H2 & H3).
  exists s', new. repeat split; try assumption.
  eapply Forall_impl; [ exact H3 | ].
  intros [u' d'] (Hd & Hlt & _). unfold Crawler.rank. cbn [snd] in *. lia.
Qed.

Lemma count_from_app : forall h l1 l2,
  count_from h (l1 ++ l2) = (count_from h l1 + count_from h l2)%nat.
Proof.
  intros. unfold Crawler.count_from. rewrite List.filter_app, length_app. reflexivity.
Qed.

Lemma count_from_below : forall h l,
  Forall (fun entry => (rank entry < h)%nat) l -> count_from h l = 0%nat.
Proof.
  intros h l H. unfold Crawler.count_from.
  induction H as [ | x l Hx _ IH ]; simpl; [ reflexivity | ].
  destruct (Nat.leb_spec h (rank x)); [ lia | exact IH ].
Qed.

Lemma count_from_split : forall h pre e post,
  Forall (fun entry => (rank entry < h)%nat) pre -> (h <= rank e)%nat ->
  count_from h (pre ++ e :: post) = S (count_from h post).
Proof.
  intros h pre e post Hpre He.
  rewrite count_from_app, (count_from_below h pre Hpre).
  unfold Crawler.count_from. simpl.
  destruct (Nat.leb_spec h (rank e)); [ reflexivity | lia ].
Qed.

Lemma split_at_first_from : forall h l,
  Forall (fun entry => (rank entry < h)%nat) l
  \/ exists pre e post,
       l = (pre ++ e :: post)%list
       /\ Forall (fun entry => (rank entry < h)%nat) pre
       /\ (h <= rank e)%nat.
Proof.
  intros h l. induction l as [ | x l IH ].
  - left. constructor.
  - destruct (Nat.leb_spec h (rank x)) as [Hx | Hx].
    + right. exists [], x, l. repeat split; [ constructor | exact Hx ].
    + destruct IH as [IH | (pre & e & post & -> & Hpre & He)].
      * left. constructor; assumption.
      * right. exists (x :: pre), e, post.
        repeat split; [ constructor; assumption | exact He ].
Qed.

(** The loop ends: an entry is replaced by entries of lower rank, put at
    the back of the queue. By induction on the bound on the ranks, on the
    number of entries of the top rank, and on the place of the first of
    them. *)
Lemma bounded_rank_terminates :
  forall h s,
    Forall (fun entry => (rank entry < h)%nat) (to_visit s) -> terminates s.
Proof.
  induction h as [ | h IHh ]; intros s Hall.
  { apply terminates_empty. destruct (to_visit s) as [ | e l ]; [ reflexivity | ].
    apply Forall_cons_iff in Hall as [He _]. lia. }
  remember (count_from h (to_visit s)) as n eqn:Hn.
  revert s Hall Hn.
  induction n as [ n IHn ] using lt_wf_ind. intros s Hall Hn.
  destruct (split_at_first_from h (to_visit s))
    as [Hlow | (pre & e & post & Hsplit & Hpre & He)].
  { apply IHh, Hlow. }
  rewrite Hsplit in Hall.
  assert (Hcount : count_from h (to_visit s) = S (count_from h post)).
  { rewrite Hsplit. apply count_from_split; assumption. }
  clear IHh.
  revert s post Hsplit Hall Hn Hcount.
  induction Hpre as [ | a pre Ha Hpre IHpre ]; intros s post Hsplit Hall Hn Hcount.
  - cbn [app] in Hsplit, Hall.
    destruct (step_rank s e post Hsplit) as (s' & new & Hstep & Hvisit & Hnew).
    apply terminates_step with s'; [ exact Hstep | ].
    apply Forall_cons_iff in Hall as [Hetop Hpost].
    assert (Hnew' : Forall (fun entry => (rank entry < h)%nat) new).
    { eapply Forall_impl; [ exact Hnew | ]. cbn beta. intros x Hx. lia. }
    apply (IHn (count_from h (to_visit s'))).
    + rewrite Hvisit, count_from_app, (count_from_below h new Hnew'). lia.
    + rewrite Hvisit. apply Forall_app. split; [ exact Hpost | ].
      eapply Forall_impl; [ exact Hnew' | ]. cbn beta. intros x Hx. lia.
    + reflexivity.
  - cbn [app] in Hsplit, Hall.
    destruct (step_rank s a _ Hsplit) as (s' & new & Hstep & Hvisit & Hnew).
    apply terminates_step with s'; [ exact Hstep | ].
    apply Forall_cons_iff in Hall as [Hatop Hrest].
    assert (Hnew' : Forall (fun entry => (rank entry < h)%nat) new).
    { eapply Forall_impl; [ exact Hnew | ]. cbn beta. intros x Hx. lia. }
    rewrite <- app_assoc in Hvisit. cbn [app] in Hvisit.
    assert (Hcount' : count_from h (to_visit s') = S (count_from h (post ++ new))).
    { rewrite Hvisit. apply count_from_split; assumption. }
    apply (IHpre s' (post ++ new)%list Hvisit).
    + rewrite app_comm_cons, app_assoc. apply Forall_app. split; [ exact Hrest | ].
      eapply Forall_impl; [ exact Hnew' | ]. cbn beta. intros x Hx. lia.
    + rewrite Hcount', count_from_app, (count_from_below h new Hnew'). lia.
    + exact Hcount'.
Qed.

(** [scrape] returns, whatever the web answers. *)
Lemma run_terminates : forall s, terminates s.
Proof.
  intros s.
  apply (bounded_rank_terminates (S (list_max (map rank (to_visit s))))).
  apply List.Forall_forall. intros entry Hin.
  pose proof (list_max_le (map rank (to_visit s)) (list_max (map rank (to_visit s))))
    as [Hmax _].
  specialize (Hmax (Nat.le_refl _)).
  rewrite List.Forall_forall in Hmax. specialize (Hmax (rank entry) (in_map rank _ _ Hin)).
  lia.
Qed.

(** *** Depths of the records *)

Lemma extract_text_record :
  forall page u d,
    Forall (fun r => url r = u /\ depth r = d) (extract_text page u d).
Proof.
  intros page u d. unfold extract_text.
  destruct (String.eqb _ ""); repeat constructor.
Qed.

Lemma step_content :
  forall s s',
    step s = Some s' ->
    exists u d rest more,
      to_visit s = (u, d) :: rest
      /\ content s' = (content s ++ more)%list
      /\ Forall (fun r => url r = u /\ depth r = d /\ (d <= max_depth)%Z) more.
Proof.
  intros s s' Hstep. unfold Crawler.step in Hstep.
  destruct (to_visit s) as [ | [u d] rest ]; [ discriminate | ].
  exists u, d, rest.
  destruct (bool_decide _ || (max_depth <? d)%Z) eqn:Hskip.
  { injection Hstep as <-. exists []. rewrite app_nil_r. repeat split. constructor. }
  apply orb_false_iff in Hskip as [_ Hd]. apply Z.ltb_ge in Hd.
  destruct (fetch _ _) as [ e | page ].
  { injection Hstep as <-. exists []. rewrite app_nil_r. repeat split. constructor. }
  exists (extract_text page u d).
  assert (Hrec : Forall (fun r => url r = u /\ depth r = d /\ (d <= max_depth)%Z)
                        (extract_text page u d)).
  { eapply Forall_impl; [ apply extract_text_record | ].
    intros r [H1 H2]. auto. }
  destruct (d <? max_depth)%Z; [ destruct (get_links _ _ _ _ _) | ];
    injection Hstep as <-; repeat split; assumption.
Qed.

Lemma step_depths_ok : forall s s', step s = Some s' -> depths_ok s -> depths_ok s'.
Proof.
  intros s s' Hstep [Hfront Hrecs].
  destruct (step_content s s' Hstep) as (u & d & rest & more & Hs & Hc & Hmore).
  destruct (step_frontier s u d rest Hs) as (s1 & new & H1 & H2 & H3).
  rewrite H1 in Hstep. injection Hstep as ->.
  rewrite Hs in Hfront. apply Forall_cons_iff in Hfront as [Hd Hrest]. cbn [snd] in Hd.
  split.
  - rewrite H2. apply Forall_app. split; [ exact Hrest | ].
    eapply Forall_impl; [ exact H3 | ]. cbn beta. intros x (Hx & _ & _). lia.
  - rewrite Hc. apply Forall_app. split; [ exact Hrecs | ].
    eapply Forall_impl; [ exact Hmore | ]. cbn beta. intros r (_ & Hr & Hle). lia.
Qed.

Lemma run_depths_ok :
  forall fuel s records,
    run fuel s = Some records -> depths_ok s ->
    Forall (fun r => (1 <= depth r <= max_depth)%Z) records
    /\ exists more, records = (content s ++ more)%list.
Proof.
  induction fuel as [ | fuel IH ]; intros s records Hrun Hok; [ discriminate | ].
  simpl in Hrun. destruct (step s) as [ s' | ] eqn:Hstep.
  - destruct (IH s' records Hrun (step_depths_ok s s' Hstep Hok)) as [Hall [more Hmore]].
    split; [ exact Hall | ].
    destruct (step_content s s' Hstep) as (_ & _ & _ & added & _ & Hc & _).
    exists (added ++ more)%list. rewrite Hmore, Hc, app_assoc. reflexivity.
  - injection Hrun as <-. split; [ apply Hok | ].
    exists []. rewrite app_nil_r. reflexivity.
Qed.

(** C5 (amended): a crawl with depth limit [max_depth] returns, every
    record it returns has a depth between 1 and [max_depth], and when the
    limit is at least 1, the fetch of the seed succeeds and the seed page
    yields a non-empty text, the seed is returned as a record of depth 1. *)
Theorem scrape_depth_bound :
  forall start_url,
    exists fuel records,
      scrape fuel start_url = Some records
      /\ Forall (fun r => (1 <= depth r <= max_depth)%Z) records
      /\ (forall page,
            (1 <= max_depth)%Z ->
            fetch 0%nat start_url = inr page ->
            extract_text page start_url 1 <> [] ->
            exists r, In r records /\ depth r = 1%Z /\ url r = start_url).
Proof.
  intros start_url.
  destruct (run_terminates (initial start_url)) as (fuel & records & Hrun).
  exists fuel, records. split; [ exact Hrun | ].
  assert (Hok : depths_ok (initial start_url)).
  { split; simpl; [ constructor; [ cbn [snd]; lia | constructor ] | constructor ]. }
  destruct (run_depths_ok fuel _ records Hrun Hok) as [Hall _].
  split; [ exact Hall | ].
  intros page Hmax Hfetch Htext.
  destruct fuel as [ | fuel ]; [ discriminate Hrun | ].
  simpl in Hrun.
  destruct (step_frontier (initial start_url) start_url 1 [] eq_refl)
    as (s1 & _ & Hstep & _).
  rewrite Hstep in Hrun.
  assert (Hc : content s1 = extract_text page start_url 1).
  { unfold Crawler.step in Hstep. cbn [initial to_visit visited_urls content requests] in Hstep.
    rewrite bool_decide_eq_false_2 in Hstep by set_solver.
    replace (max_depth <? 1)%Z with false in Hstep by (symmetry; apply Z.ltb_ge; lia).
    cbn [orb] in Hstep. rewrite Hfetch in Hstep.
    destruct (1 <? max_depth)%Z; [ destruct (get_links _ _ _ _ _) | ];
      injection Hstep as <-; reflexivity. }
  destruct (run_depths_ok fuel s1 records Hrun
              (step_depths_ok _ _ Hstep Hok)) as [_ [more Hmore]].
  pose proof (extract_text_record page start_url 1) as Hrec.
  destruct (extract_text page start_url 1) as [ | r rs ]; [ congruence | ].
  apply Forall_cons_iff in Hrec as [[Hu Hd] _].
  exists r. rewrite Hmore, Hc. split; [ left; reflexivity | auto ].
Qed.

End CrawlerProperties.

(** C4 (as stated) fails: the seed links twice to one page, both links
    pass the visited-set test, and after the first turn the frontier
    holds that page twice. *)
Lemma frontier_holds_duplicates :
  exists s,
    Crawler.reachable Scenarios.web_repeated_link Scenarios.urljoin_absolute
      Scenarios.urldefrag_first_hash Scenarios.netloc_of 2 20 Scenarios.site_a s
    /\ ~ List.NoDup (map fst (Crawler.to_visit s)).
Proof.
  eexists. split.
  - eapply Crawler.reachable_step; [ apply Crawler.reachable_initial | ].
    vm_compute. reflexivity.
  - cbn [Crawler.to_visit map fst]. intros Hnd.
    apply List.NoDup_cons_iff in Hnd as [Hnot _]. apply Hnot. left. reflexivity.
Qed.

Lemma before_hash_idempotent :
  forall u stripped,
    Scenarios.urldefrag_first_hash u = inr stripped ->
    Scenarios.urldefrag_first_hash stripped = inr stripped.
Proof.
  unfold Scenarios.urldefrag_first_hash. intros u stripped Hu.
  injection Hu as <-. f_equal.
  induction u as [ | c u IH ]; simpl; [ reflexivity | ].
  destruct (Py.code c =? 35)%nat eqn:Hc; simpl; [ reflexivity | ].
  rewrite Hc, IH. reflexivity.
Qed.

Lemma crawl_skips_visited_pages_witness :
  exists s1 s2 s3,
    Crawler.fragment_free Scenarios.urldefrag_first_hash Scenarios.site_a
    /\ Scenarios.crawl_step Scenarios.web_fragments 3 20
         (Crawler.initial Scenarios.site_a) = Some s1
    /\ Scenarios.crawl_step Scenarios.web_fragments 3 20 s1 = Some s2
    /\ Scenarios.crawl_step Scenarios.web_fragments 3 20 s2 = Some s3
    /\ Crawler.to_visit s1
       = [(Scenarios.page_b, 2%Z); (Scenarios.page_b, 2%Z); (Scenarios.page_c, 2%Z)]
    /\ Crawler.to_visit s2
       = [(Scenarios.page_b, 2%Z); (Scenarios.page_c, 2%Z);
          (Scenarios.page_c, 3%Z); (Scenarios.page_d, 3%Z)]
    /\ Scenarios.page_b ∈ Crawler.visited_urls s2
    /\ ((exists new,
           Crawler.to_visit s2 = (tl (Crawler.to_visit s1) ++ new)%list
           /\ Forall (fun entry =>
                        forall v, v ∈ Crawler.visited_urls s2 ->
                          ~ Crawler.same_page Scenarios.urldefrag_first_hash
                              (fst entry) v)
                     new)
        /\ (forall u d rest v,
              Crawler.to_visit s1 = (u, d) :: rest ->
              v ∈ Crawler.visited_urls s1 ->
              Crawler.same_page Scenarios.urldefrag_first_hash u v ->
              s2 = Crawler.State rest (Crawler.visited_urls s1)
                     (Crawler.content s1) (Crawler.requests s1)))
    /\ ((exists new,
           Crawler.to_visit s3 = (tl (Crawler.to_visit s2) ++ new)%list
           /\ Forall (fun entry =>
                        forall v, v ∈ Crawler.visited_urls s3 ->
                          ~ Crawler.same_page Scenarios.urldefrag_first_hash
                              (fst entry) v)
                     new)
        /\ (forall u d rest v,
              Crawler.to_visit s2 = (u, d) :: rest ->
              v ∈ Crawler.visited_urls s2 ->
              Crawler.same_page Scenarios.urldefrag_first_hash u v ->
              s3 = Crawler.State rest (Crawler.visited_urls s2)
                     (Crawler.content s2) (Crawler.requests s2))).
Proof.
  destruct (Scenarios.crawl_step Scenarios.web_fragments 3 20
              (Crawler.initial Scenarios.site_a)) as [ s1 | ] eqn:H1;
    [ | vm_compute in H1; discriminate H1 ].
  destruct (Scenarios.crawl_step Scenarios.web_fragments 3 20 s1) as [ s2 | ] eqn:H2;
    [ | vm_compute in H1; injection H1 as <-; vm_compute in H2; discriminate H2 ].
  destruct (Scenarios.crawl_step Scenarios.web_fragments 3 20 s2) as [ s3 | ] eqn:H3;
    [ | vm_compute in H1; injection H1 as <-; vm_compute in H2; injection H2 as <-;
        vm_compute in H3; discriminate H3 ].
  assert (Hseed : Crawler.fragment_free Scenarios.urldefrag_first_hash Scenarios.site_a)
    by reflexivity.
  assert (R1 : Crawler.reachable Scenarios.web_fragments Scenarios.urljoin_absolute
                 Scenarios.urldefrag_first_hash Scenarios.netloc_of 3 20
                 Scenarios.site_a s1).
  { eapply Crawler.reachable_step; [ apply Crawler.reachable_initial | exact H1 ]. }
  assert (R2 : Crawler.reachable Scenarios.web_fragments Scenarios.urljoin_absolute
                 Scenarios.urldefrag_first_hash Scenarios.netloc_of 3 20
                 Scenarios.site_a s2).
  { eapply Crawler.reachable_step; [ exact R1 | exact H2 ]. }
  exists s1, s2, s3.
  split; [ exact Hseed | ]. split; [ reflexivity | ].
  split; [ exact H2 | ]. split; [ exact H3 | ].
  split; [ vm_compute in H1; injection H1 as <-; reflexivity | ].
  split; [ vm_compute in H1; injection H1 as <-; vm_compute in H2; injection H2 as <-;
           reflexivity | ].
  split; [ vm_compute in H1; injection H1 as <-; vm_compute in H2; injection H2 as <-;
           vm_compute; reflexivity | ].
  split.
  - exact (crawl_skips_visited_pages Scenarios.web_fragments Scenarios.urljoin_absolute
             Scenarios.urldefrag_first_hash Scenarios.netloc_of 3 20
             before_hash_idempotent Scenarios.site_a s1 s2 Hseed R1 H2).
  - exact (crawl_skips_visited_pages Scenarios.web_fragments Scenarios.urljoin_absolute
             Scenarios.urldefrag_first_hash Scenarios.netloc_of 3 20
             before_hash_idempotent Scenarios.site_a s2 s3 Hseed R2 H3).
Defined.

(** A seed given with a fragment is kept with it, while the links are
    stripped: the home page, which links to itself, is fetched a second
    time under the stripped URL and recorded twice. *)
Example seed_with_fragment_fetched_twice :
  Scenarios.crawl Scenarios.web_home_link 2 20 3 Scenarios.site_a_top
  = Some [Crawler.PageRecord Scenarios.site_a_top "Welcome to A" "A" 1;
          Crawler.PageRecord Scenarios.site_a "Welcome to A" "A" 2].
Proof. vm_compute. reflexivity. Qed.

(** C5 (as stated) fails: the fetch of the seed succeeds, the page has no
    paragraph, heading or list item, and the crawl returns no record. *)
Lemma seed_fetched_without_record :
  exists page records,
    Scenarios.web_blank_seed 0 Scenarios.site_a = inr page
    /\ Scenarios.crawl Scenarios.web_blank_seed 1 20 2 Scenarios.site_a = Some records
    /\ ~ Exists (fun r => Crawler.depth r = 1%Z) records.
Proof.
  eexists. exists []. split; [ reflexivity | ]. split; [ vm_compute; reflexivity | ].
  intros H. inversion H.
Qed.

Lemma scrape_depth_bound_witness :
  exists fuel records,
    Scenarios.crawl Scenarios.web_abc 2 20 fuel Scenarios.site_a = Some records
    /\ Forall (fun r => (1 <= Crawler.depth r <= 2)%Z) records
    /\ (forall page,
          (1 <= 2)%Z ->
          Scenarios.web_abc 0 Scenarios.site_a = inr page ->
          Crawler.extract_text page Scenarios.site_a 1 <> [] ->
          exists r, In r records /\ Crawler.depth r = 1%Z
                    /\ Crawler.url r = Scenarios.site_a).
Proof.
  exact (scrape_depth_bound Scenarios.web_abc Scenarios.urljoin_absolute
           Scenarios.urldefrag_first_hash Scenarios.netloc_of 2 20 Scenarios.site_a).
Defined.

(** ** Vector store *)

Section VectorStoreProperties.
Import Py EnhancedJSON VectorStore.

Lemma In_insert_by {A} (key : A -> Z) (x y : A) (l : list A) :
  In y (insert_by key x l) -> y = x \/ In y l.
Proof.
  induction l as [ | z l IH ]; simpl.
  - intros [ <- | [] ]. left. reflexivity.
  - destruct (key z <=? key x)%Z; simpl.
    + intros [ <- | H ]; [ left; reflexivity | right; exact H ].
    + intros [ <- | H ]; [ right; left; reflexivity | ].
      destruct (IH H) as [ -> | H' ]; [ left; reflexivity | right; right; exact H' ].
Qed.

Lemma In_sorted_desc {A} (key : A -> Z) (y : A) (l : list A) :
  In y (sorted_desc key l) -> In y l.
Proof.
  induction l as [ | x l IH ]; simpl; [ tauto | ].
  intros H. apply In_insert_by in H as [ -> | H ]; [ left; reflexivity | right; auto ].
Qed.

Variable embed_query : string -> result vector.
Variable similarity : vector -> vector -> Z.

(** X21: with a user identifier other than 0, every document [search]
    returns carries that identifier in its metadata. *)
Lemma search_user_isolation :
  forall (q : qdrant) (query : string) (A : Z) (limit threshold : Z) (docs : list doc),
    A <> 0%Z ->
    search embed_query similarity q query (Some A) limit threshold = inr docs ->
    forall d, In d docs -> doc_metadata d !! "user_id" = Some (MInt A).
Proof.
  intros q query A limit threshold docs HA Hsearch d Hd.
  unfold search in Hsearch.
  destruct (embed_query query) as [ e | v ]; [ discriminate | ].
  cbn [bind truthy] in Hsearch.
  replace (A =? 0)%Z with false in Hsearch by (symmetry; apply Z.eqb_neq; exact HA).
  cbn [negb] in Hsearch. unfold client_search in Hsearch.
  destruct (outage q); [ discriminate | ]. cbn [bind] in Hsearch.
  injection Hsearch as <-.
  apply in_map_iff in Hd as ([p sc] & <- & Hin). cbn [doc_metadata fst].
  apply In_firstn_elim in Hin.
  apply In_sorted_desc in Hin.
  apply List.filter_In in Hin as [Hin _].
  apply in_map_iff in Hin as (p' & Heq & Hin). injection Heq as -> _.
  apply List.filter_In in Hin as [_ Hmatch].
  unfold matches in Hmatch. cbn [forallb fst snd] in Hmatch.
  rewrite andb_true_r in Hmatch.
  rewrite lookup_delete_ne by discriminate.
  destruct (payload p !! "user_id") as [ v' | ]; [ | discriminate ].
  destruct v' as [ n | | ]; try discriminate. cbn in Hmatch.
  apply Z.eqb_eq in Hmatch. congruence.
Qed.

End VectorStoreProperties.

(** C1 (at user 0): user 1 and user 0 each store a note; the search of
    user 0 is built without a filter, since [0] fails the [if user_id:]
    test, and returns the note of user 1. *)
Theorem search_as_user_zero_returns_other_users :
  exists docs d,
    Scenarios.search_in Scenarios.two_users "note" (Some 0%Z) 20 = inr docs
    /\ In d docs
    /\ VectorStore.text d = Some "private note of user 1"
    /\ VectorStore.doc_metadata d !! "user_id" = Some (EnhancedJSON.MInt 1).
Proof.
  eexists. eexists. split; [ vm_compute; reflexivity | ].
  split; [ left; reflexivity | ].
  split; [ reflexivity | vm_compute; reflexivity ].
Qed.

(** ** Reranker *)

Section RerankerProperties.
Import Py VectorStore Reranker.

(** C10 (amended): for a positive [K], when the reranker has no model,
    is disabled, or its scoring raises, [rerank] returns the first [K]
    documents in their order, and leaves the documents as they were. *)
Theorem rerank_fallback_first_k :
  forall (cfg : Config.settings) (model : option predictor) (query : string)
         (documents : list doc) (K : Z),
    (0 < K)%Z ->
    falls_back cfg model query documents ->
    rerank cfg model query documents (Some K)
    = (documents, firstn (Z.to_nat K) documents).
Proof.
  intros cfg model query documents K HK Hfall.
  assert (Hfirst : first_k documents (Some K) = firstn (Z.to_nat K) documents).
  { unfold first_k, truthy, slice_to.
    replace (K =? 0)%Z with false by (symmetry; apply Z.eqb_neq; lia).
    replace (0 <=? K)%Z with true by (symmetry; apply Z.leb_le; lia).
    reflexivity. }
  assert (Htop : top_k_or_default cfg (Some K) = Some K).
  { unfold top_k_or_default, truthy.
    replace (K =? 0)%Z with false by (symmetry; apply Z.eqb_neq; lia).
    reflexivity. }
  unfold rerank.
  destruct Hfall as [ -> | [ Hoff | (predict & e & -> & Hraise) ] ].
  - rewrite Hfirst. reflexivity.
  - destruct model; rewrite ?Hoff; cbn [negb]; rewrite Hfirst; reflexivity.
  - destruct (Config.reranker_enabled cfg); cbn [negb].
    + rewrite Hraise, Htop, Hfirst. reflexivity.
    + rewrite Hfirst. reflexivity.
Qed.

End RerankerProperties.

(** C10 (as stated) fails at [K = 0]: the disabled reranker returns the
    whole list, not its first 0 elements. *)
Lemma rerank_zero_returns_all :
  Reranker.falls_back Config.default_settings None "q"
    [Scenarios.doc_one; Scenarios.doc_two]
  /\ snd (Reranker.rerank Config.default_settings None "q"
            [Scenarios.doc_one; Scenarios.doc_two] (Some 0%Z))
     = [Scenarios.doc_one; Scenarios.doc_two]
  /\ snd (Reranker.rerank Config.default_settings None "q"
            [Scenarios.doc_one; Scenarios.doc_two] (Some 0%Z))
     <> firstn (Z.to_nat 0) [Scenarios.doc_one; Scenarios.doc_two].
Proof.
  split; [ left; reflexivity | ].
  split; [ reflexivity | discriminate ].
Qed.

Lemma rerank_fallback_first_k_witness :
  (0 < 1)%Z
  /\ Reranker.falls_back Config.default_settings (Some Scenarios.predict_fails) "q"
       [Scenarios.doc_one; Scenarios.doc_two]
  /\ Reranker.rerank Config.default_settings (Some Scenarios.predict_fails) "q"
       [Scenarios.doc_one; Scenarios.doc_two] (Some 1%Z)
     = ([Scenarios.doc_one; Scenarios.doc_two],
        firstn (Z.to_nat 1) [Scenarios.doc_one; Scenarios.doc_two]).
Proof.
  assert (H1 : (0 < 1)%Z) by lia.
  assert (H2 : Reranker.falls_back Config.default_settings
                 (Some Scenarios.predict_fails) "q"
                 [Scenarios.doc_one; Scenarios.doc_two]).
  { right. right. eexists. eexists. split; reflexivity. }
  split; [ exact H1 | ]. split; [ exact H2 | ].
  exact (rerank_fallback_first_k Config.default_settings
           (Some Scenarios.predict_fails) "q"
           [Scenarios.doc_one; Scenarios.doc_two] 1 H1 H2).
Defined.

(** ** Retrieval pipeline *)

Section PipelineProperties.
Import Py VectorStore Reranker RAGGraph.

Variable cfg : Config.settings.
Variable vector_store_search : string -> option Z -> Z -> result (list doc).
Variable reranker_rerank : string -> list doc -> option Z -> list doc * list doc.
Variable llm_generate_response :
  string -> list string -> option string -> result string.

Abbreviation answer_to :=
  (process_query cfg vector_store_search reranker_rerank llm_generate_response).

(** C6: when the search raises, [process_query] returns: the response is
    the fixed text, the sources are empty, the error is the message of
    the exception, and the only service called is the search. *)
Theorem process_query_contains_search_failure :
  forall (q : string) (uid : option Z) (sp : option string) (e : exn),
    vector_store_search q uid (Config.reranker_candidates cfg) = inl e ->
    answer_to q uid sp
    = (Answer no_information [] (Some (exn_msg e)),
       [CallSearch q uid (Config.reranker_candidates cfg)]).
Proof.
  intros q uid sp e Hsearch.
  unfold process_query, graph, then_stage, retrieve_documents. cbn.
  rewrite Hsearch. reflexivity.
Qed.

(** C9: when the search returns no hit, [process_query] returns the fixed
    text, no source and no error, and the generator is not called. *)
Theorem process_query_without_hits :
  forall (q : string) (uid : option Z) (sp : option string),
    vector_store_search q uid (Config.reranker_candidates cfg) = inr [] ->
    fst (answer_to q uid sp) = Answer no_information [] None
    /\ existsb is_generate (snd (answer_to q uid sp)) = false.
Proof.
  intros q uid sp Hsearch.
  unfold process_query, graph, then_stage, retrieve_documents. cbn.
  rewrite Hsearch. split; reflexivity.
Qed.

End PipelineProperties.

Lemma process_query_contains_search_failure_witness :
  Scenarios.search_in Scenarios.unreachable_collection "hi" (Some 7%Z)
    (Config.reranker_candidates Config.default_settings)
  = inl (Py.Exn Py.RuntimeError "Connection refused")
  /\ Scenarios.ask Scenarios.unreachable_collection "hi" (Some 7%Z) None
     = (RAGGraph.Answer RAGGraph.no_information [] (Some "Connection refused"),
        [RAGGraph.CallSearch "hi" (Some 7%Z) 20]).
Proof.
  assert (H : Scenarios.search_in Scenarios.unreachable_collection "hi" (Some 7%Z)
                (Config.reranker_candidates Config.default_settings)
              = inl (Py.Exn Py.RuntimeError "Connection refused"))
    by reflexivity.
  split; [ exact H | ].
  exact (process_query_contains_search_failure Config.default_settings
           (Scenarios.search_in Scenarios.unreachable_collection)
           (Reranker.rerank Config.default_settings (Some Scenarios.predict_length))
           Scenarios.llm_fixed "hi" (Some 7%Z) None _ H).
Defined.

Lemma process_query_without_hits_witness :
  Scenarios.search_in Scenarios.two_users "hi" (Some 7%Z)
    (Config.reranker_candidates Config.default_settings) = inr []
  /\ fst (Scenarios.ask Scenarios.two_users "hi" (Some 7%Z) None)
     = RAGGraph.Answer RAGGraph.no_information [] None
  /\ existsb RAGGraph.is_generate
       (snd (Scenarios.ask Scenarios.two_users "hi" (Some 7%Z) None)) = false.
Proof.
  assert (H : Scenarios.search_in Scenarios.two_users "hi" (Some 7%Z)
                (Config.reranker_candidates Config.default_settings) = inr [])
    by (vm_compute; reflexivity).
  split; [ exact H | ].
  exact (process_query_without_hits Config.default_settings
           (Scenarios.search_in Scenarios.two_users)
           (Reranker.rerank Config.default_settings (Some Scenarios.predict_length))
           Scenarios.llm_fixed "hi" (Some 7%Z) None H).
Defined.

(** ** Ingestion coordinator *)

Section CoordinatorProperties.
Import Py EnhancedJSON VectorStore IngestionPipeline.

Variable cfg : Config.settings.
Variable json_loads : string -> result json.
Variable json_split_text : string -> list string.
Variable text_split_text : string -> list string.
Variable pdf_process :
  gmap string file -> string -> gmap string meta_value -> result (list chunk).
Variable embed_documents : list string -> result (list vector).
Variable uuid4 : nat -> string.

Abbreviation ingest :=
  (process_file_from_path cfg json_loads json_split_text text_split_text
     pdf_process embed_documents uuid4).
Abbreviation body :=
  (ingest_body cfg json_loads json_split_text text_split_text
     pdf_process embed_documents uuid4).

(** The inner block keeps the files, and ends either by an exception
    with the row where it was, or normally with the row [completed]. *)
Lemma ingest_body_outcome :
  forall w file_path filename document_id session_id user_id r,
    db w !! document_id = Some r ->
    let o := body w file_path filename document_id session_id user_id in
    fs (fst o) = fs w
    /\ match snd o with
       | Some _ => db (fst o) !! document_id = Some r
       | None => db (fst o) !! document_id = Some (Row "completed" (error_message r))
       end.
Proof.
  intros w file_path filename document_id session_id user_id r Hrow.
  unfold ingest_body.
  destruct (make_chunks _ _ _ _ _ _ _ _ _) as [ e | chunks ]; cbn.
  { split; [ reflexivity | exact Hrow ]. }
  destruct (add_documents _ _ _ _ _ _) as [ e | [q ids] ]; cbn.
  { split; [ reflexivity | exact Hrow ]. }
  split; [ reflexivity | ].
  rewrite lookup_alter. case_decide; [ | congruence ].
  rewrite Hrow. reflexivity.
Qed.

(** X22: when the row of the document exists, the coordinator leaves it
    [completed] or [failed], and the file is gone. *)
Lemma process_file_from_path_terminal :
  forall w file_path filename document_id session_id user_id r,
    db w !! document_id = Some r ->
    let w' := process_file_from_path cfg json_loads json_split_text text_split_text
                pdf_process embed_documents uuid4 w file_path filename document_id
                session_id user_id in
    (exists r', db w' !! document_id = Some r'
                /\ (processed r' = "completed" \/ processed r' = "failed"))
    /\ fs w' !! file_path = None.
Proof.
  intros w file_path filename document_id session_id user_id r Hrow.
  unfold process_file_from_path. rewrite Hrow.
  set (w1 := set_processed w document_id "processing").
  assert (Hrow1 : db w1 !! document_id = Some (Row "processing" (error_message r))).
  { unfold w1, set_processed. cbn [db]. rewrite lookup_alter.
    case_decide; [ | congruence ]. rewrite Hrow. reflexivity. }
  destruct (ingest_body_outcome w1 file_path filename document_id session_id user_id
              _ Hrow1) as [Hfs Hdb].
  destruct (body w1 file_path filename document_id session_id user_id)
    as [w2 oe]. cbn [fst snd] in Hfs, Hdb.
  unfold finally_unlink, unlink. cbn [fst snd].
  destruct (fs w2 !! file_path) as [ f | ] eqn:Hfile.
  - unfold on_exception. cbn [fst snd db fs].
    destruct oe as [ e | ].
    + rewrite Hdb. unfold set_failed. cbn [db fs]. split.
      * eexists. rewrite lookup_alter. case_decide; [ | congruence ].
        rewrite Hdb. split; [ reflexivity | right; reflexivity ].
      * apply lookup_delete_eq.
    + split; [ | apply lookup_delete_eq ].
      eexists. split; [ exact Hdb | left; reflexivity ].
  - unfold on_exception. cbn [fst snd].
    assert (Hsome : exists r2, db w2 !! document_id = Some r2).
    { destruct oe; eexists; exact Hdb. }
    destruct Hsome as [r2 Hr2]. rewrite Hr2. unfold set_failed. cbn [db fs].
    split; [ | exact Hfile ].
    eexists. rewrite lookup_alter. case_decide; [ | congruence ].
    rewrite Hr2. split; [ reflexivity | right; reflexivity ].
Qed.

(** When the row of the document is missing, the coordinator returns at
    once: nothing is changed, and a file at the path stays on disk. *)
Lemma process_file_from_path_missing_row :
  forall w file_path filename document_id session_id user_id,
    db w !! document_id = None ->
    ingest w file_path filename document_id session_id user_id = w.
Proof.
  intros w file_path filename document_id session_id user_id Hrow.
  unfold process_file_from_path. rewrite Hrow. reflexivity.
Qed.

(** X28: a [.json] file that does not parse never completes: the strings
    the converter falls back to cannot be indexed. *)
Lemma json_branch_fallback_fails :
  forall w file_path filename document_id session_id user_id r content e,
    db w !! document_id = Some r ->
    endswith (lower filename) ".pdf" = false ->
    endswith (lower filename) ".json" = true ->
    fs w !! file_path = Some (TextFile content) ->
    json_loads content = inl e ->
    is_JSONDecodeError e = true ->
    json_split_text content <> [] ->
    db (ingest w file_path filename document_id session_id user_id) !! document_id
    = Some (Row "failed" (Some "'str' object has no attribute 'page_content'")).
Proof.
  intros w file_path filename document_id session_id user_id r content e
         Hrow Hpdf Hjson Hfile Hloads Hdecode Hpieces.
  unfold process_file_from_path. rewrite Hrow.
  unfold ingest_body, make_chunks. rewrite Hpdf, Hjson.
  unfold read_text. cbn [fs set_processed]. rewrite Hfile. cbn [bind].
  unfold json_process, process. rewrite Hloads, Hdecode.
  destruct (json_split_text content) as [ | piece pieces ]; [ congruence | ].
  unfold add_documents. cbn [map get_page_contents get_page_content bind].
  unfold finally_unlink, unlink. cbn [fst snd].
  change (fs (set_processed w document_id "processing")) with (fs w).
  rewrite Hfile.
  unfold on_exception, set_processed, set_failed. cbn [fst snd db].
  rewrite !lookup_alter. case_decide; [ | congruence ].
  rewrite Hrow. cbn. rewrite !lookup_alter. case_decide; [ | congruence ].
  rewrite Hrow. reflexivity.
Qed.

End CoordinatorProperties.

(** C3 (on a [.json] file): the upload [notes.json] holds [not json]. The
    converter falls back to the splitter and returns bare strings, the
    indexer reads [page_content] off them and raises, and document 5 ends
    [failed]. The same content under the name [notes.txt] takes the
    plain-text branch and ends [completed]. *)
Theorem json_file_decode_error_ends_failed :
  IngestionPipeline.db
    (Scenarios.ingest_upload Scenarios.one_pending "/tmp/tmp1_notes.json"
       Scenarios.not_json "notes.json" 5) !! 5%Z
  = Some (IngestionPipeline.Row "failed"
            (Some "'str' object has no attribute 'page_content'"))
  /\ IngestionPipeline.db
       (Scenarios.ingest_upload Scenarios.one_pending "/tmp/tmp1_notes.txt"
          Scenarios.not_json "notes.txt" 5) !! 5%Z
     = Some (IngestionPipeline.Row "completed" None).
Proof.
  split; vm_compute; reflexivity.
Qed.

(** C7 (on a missing row): the upload is written to its temporary file,
    document 6 has no row, the coordinator returns before the block whose
    [finally] removes the file, and the file is still there. *)
Theorem missing_document_leaves_temporary_file :
  IngestionPipeline.db Scenarios.one_pending !! 6%Z = None
  /\ IngestionPipeline.fs
       (Scenarios.ingest_upload Scenarios.one_pending "/tmp/tmp1_notes.txt"
          Scenarios.not_json "notes.txt" 6) !! "/tmp/tmp1_notes.txt"
     = Some Scenarios.not_json.
Proof.
  split; vm_compute; reflexivity.
Qed.

(** ** The scenarios of the specification, run on the model *)

(** Seed A with links to B and C, depth limit 2: A at depth 1, then B and
    C at depth 2. *)
Example crawl_seed_and_links :
  option_map (map (fun r => (Crawler.url r, Crawler.depth r)))
    (Scenarios.crawl Scenarios.web_abc 2 20 4 Scenarios.site_a)
  = Some [(Scenarios.site_a, 1%Z); (Scenarios.page_b, 2%Z); (Scenarios.page_c, 2%Z)].
Proof. vm_compute. reflexivity. Qed.

(** A list of six strings is cut to its first three and a count. *)
Example render_long_list :
  EnhancedJSON.dict_to_text
    (EnhancedJSON.JDict
       [("name", EnhancedJSON.JStr "Acme");
        ("tags", EnhancedJSON.JList
                   (map EnhancedJSON.JStr ["x"; "y"; "z"; "w"; "v"; "u"]))])
    "" 0
  = "Name: Acme" ++ EnhancedJSON.newline ++ "Tags:" ++ EnhancedJSON.newline
      ++ "  - x, y, z, and 3 more items".
Proof. vm_compute. reflexivity. Qed.

(** A boolean field of an object reads [True]. *)
Example render_boolean_field :
  match Services.loads_ascii Scenarios.active_content with
  | inr v => EnhancedJSON.dict_to_text v "" 0
  | inl _ => ""
  end = "Active: True".
Proof. vm_compute. reflexivity. Qed.

(** The reranker, enabled, sorts by decreasing score and keeps the order
    of equal scores. *)
Example rerank_sorts_stably :
  map VectorStore.id
    (snd (Reranker.rerank Config.default_settings (Some Scenarios.predict_length) "q"
            [Scenarios.doc_one; Scenarios.doc_two;
             VectorStore.Doc "id2" (Some "third!") 7 ∅ None;
             VectorStore.Doc "id3" (Some "fourth") 6 ∅ None] (Some 3%Z)))
  = ["id1"; "id2"; "id3"].
Proof. vm_compute. reflexivity. Qed.

(** * Further properties of the code *)

(** ** Crawler: termination, single fetch, host, depth 1, link cap *)

Section CrawlerInvariants.
Import Py Crawler.

Variable fetch : nat -> string -> result soup.
Variable urljoin : string -> string -> result string.
Variable urldefrag : string -> result string.
Variable netloc : string -> result string.
Variable max_depth : Z.
Variable max_links_per_page : Z.

Abbreviation step := (Crawler.step fetch urljoin urldefrag netloc max_depth max_links_per_page).
Abbreviation run := (Crawler.run fetch urljoin urldefrag netloc max_depth max_links_per_page).
Abbreviation scrape := (Crawler.scrape fetch urljoin urldefrag netloc max_depth max_links_per_page).
Abbreviation get_links := (Crawler.get_links urljoin urldefrag netloc).
Abbreviation new_entries := (Crawler.new_entries max_links_per_page).
Abbreviation on_seed_host := (Crawler.on_seed_host netloc).
Abbreviation host_ok := (Crawler.host_ok netloc).

(** The three ways a turn goes: the entry is skipped, the fetch fails,
    or the page is fetched, recorded and, below the depth limit, its
    links are enqueued. *)
Lemma step_cases :
  forall s s' u d rest,
    step s = Some s' ->
    to_visit s = (u, d) :: rest ->
    ((u ∈ visited_urls s \/ (max_depth < d)%Z)
     /\ s' = State rest (visited_urls s) (content s) (requests s))
    \/ ((u ∉ visited_urls s) /\ (d <= max_depth)%Z
        /\ exists e, fetch (requests s) u = inl e
             /\ s' = State rest (visited_urls s) (content s) (S (requests s)))
    \/ ((u ∉ visited_urls s) /\ (d <= max_depth)%Z
        /\ exists page new,
             fetch (requests s) u = inr page
             /\ s' = State (rest ++ new) ({[u]} ∪ visited_urls s)
                        (content s ++ extract_text page u d) (S (requests s))
             /\ (new = []
                 \/ ((d < max_depth)%Z
                     /\ exists links,
                          get_links page u = inr links
                          /\ new = new_entries links ({[u]} ∪ visited_urls s) d))).
Proof.
  intros s s' u d rest Hstep Hs. unfold Crawler.step in Hstep. rewrite Hs in Hstep.
  destruct (bool_decide (u ∈ visited_urls s)) eqn:Hvis.
  { left. cbn [orb] in Hstep. injection Hstep as <-.
    split; [ left; apply bool_decide_eq_true in Hvis; exact Hvis | reflexivity ]. }
  apply bool_decide_eq_false in Hvis. cbn [orb] in Hstep.
  destruct (max_depth <? d)%Z eqn:Hd.
  { left. injection Hstep as <-. apply Z.ltb_lt in Hd.
    split; [ right; exact Hd | reflexivity ]. }
  apply Z.ltb_ge in Hd. right.
  destruct (fetch (requests s) u) as [ e | page ].
  { left. injection Hstep as <-. repeat split; try assumption.
    exists e. split; reflexivity. }
  right. repeat split; try assumption. exists page.
  destruct (d <? max_depth)%Z eqn:Hlt.
  - apply Z.ltb_lt in Hlt.
    destruct (Crawler.get_links urljoin urldefrag netloc page u) as [ e | links ] eqn:Hlinks.
    + exists []. injection Hstep as <-. rewrite app_nil_r.
      split; [ reflexivity | ]. split; [ reflexivity | left; reflexivity ].
    + eexists. injection Hstep as <-.
      split; [ reflexivity | ]. split; [ reflexivity | ].
      right. split; [ exact Hlt | ]. exists links. split; reflexivity.
  - exists []. injection Hstep as <-. rewrite app_nil_r.
    split; [ reflexivity | ]. split; [ reflexivity | left; reflexivity ].
Qed.

(** A property kept by every turn holds of the state the loop ends in. *)
Lemma run_invariant :
  forall (I : state -> Prop),
    (forall s s', step s = Some s' -> I s -> I s') ->
    forall fuel s records,
      run fuel s = Some records -> I s ->
      exists s_end, I s_end /\ content s_end = records.
Proof.
  intros I Hkeep. induction fuel as [ | fuel IH ]; intros s records Hrun HI.
  - discriminate Hrun.
  - simpl in Hrun. destruct (step s) as [ s' | ] eqn:Hstep.
    + apply (IH s' records Hrun). apply (Hkeep s s' Hstep HI).
    + injection Hrun as <-. exists s. split; [ exact HI | reflexivity ].
Qed.

Lemma run_more_fuel :
  forall fuel s records,
    run fuel s = Some records ->
    forall extra, run (fuel + extra) s = Some records.
Proof.
  induction fuel as [ | fuel IH ]; intros s records Hrun extra.
  - discriminate Hrun.
  - simpl in Hrun |- *. destruct (step s) as [ s' | ].
    + apply IH, Hrun.
    + exact Hrun.
Qed.

(** X1: [scrape] returns whatever the web answers, whatever the depth
    limit and the link cap: some number of turns is enough, and with
    that many turns or more the result is the same list. *)
Theorem scrape_returns_with_enough_fuel :
  forall start_url,
    exists fuel records,
      forall more, (fuel <= more)%nat -> scrape more start_url = Some records.
Proof.
  intros start_url.
  destruct (run_terminates fetch urljoin urldefrag netloc max_depth
              max_links_per_page (initial start_url)) as (fuel & records & Hrun).
  exists fuel, records. intros more Hmore.
  replace more with (fuel + (more - fuel))%nat by lia.
  apply run_more_fuel. exact Hrun.
Qed.

Lemma NoDup_snoc {A} (l : list A) (x : A) :
  List.NoDup l -> ~ In x l -> List.NoDup (l ++ [x]).
Proof.
  induction 1 as [ | y l Hy Hnd IH ]; intros Hx; cbn [app].
  - constructor; [ intros [] | constructor ].
  - constructor.
    + intros Hin. apply in_app_or in Hin as [ Hin | [ -> | [] ] ].
      * contradiction.
      * apply Hx. left. reflexivity.
    + apply IH. intros Hin. apply Hx. right. exact Hin.
Qed.

Lemma extract_text_at_most_one :
  forall page u d,
    extract_text page u d = []
    \/ exists r, extract_text page u d = [r] /\ url r = u /\ depth r = d.
Proof.
  intros page u d. unfold extract_text.
  destruct (String.eqb _ ""); [ left; reflexivity | right ].
  eexists. repeat split.
Qed.

Lemma step_fetched_once :
  forall s s', step s = Some s' -> fetched_once s -> fetched_once s'.
Proof.
  intros s s' Hstep [Hnd Hvis].
  destruct (to_visit s) as [ | [u d] rest ] eqn:Hs.
  { unfold Crawler.step in Hstep. rewrite Hs in Hstep. discriminate Hstep. }
  destruct (step_cases s s' u d rest Hstep Hs)
    as [ [_ ->] | [ (_ & _ & e & _ & ->) | (Hnew & _ & page & new & _ & -> & _) ] ].
  - split; assumption.
  - split; assumption.
  - unfold fetched_once. cbn [content visited_urls].
    assert (Hold : Forall (fun r => url r ∈ {[u]} ∪ visited_urls s) (content s)).
    { eapply Forall_impl; [ exact Hvis | ]. cbn beta. intros r Hr. set_solver. }
    destruct (extract_text_at_most_one page u d) as [ -> | (r & -> & Hu & _) ].
    + rewrite app_nil_r. split; assumption.
    + split.
      * rewrite map_app. cbn [map]. apply NoDup_snoc; [ exact Hnd | ].
        rewrite Hu. intros Hin. apply in_map_iff in Hin as (r0 & Hr0 & Hin).
        rewrite List.Forall_forall in Hvis. specialize (Hvis r0 Hin).
        rewrite Hr0 in Hvis. contradiction.
      * apply Forall_app. split; [ exact Hold | ].
        constructor; [ | constructor ]. rewrite Hu. set_solver.
Qed.

(** X2: no URL is recorded twice: the URLs of the records [scrape]
    returns are pairwise distinct. *)
Theorem scrape_records_distinct_urls :
  forall fuel start_url records,
    scrape fuel start_url = Some records ->
    List.NoDup (map url records).
Proof.
  intros fuel start_url records Hrun.
  destruct (run_invariant fetched_once step_fetched_once fuel
              (initial start_url) records Hrun) as (s_end & [Hnd _] & <-).
  - split; cbn; constructor.
  - exact Hnd.
Qed.

(** [_get_links] keeps the links whose host is the host of the page. *)
Lemma get_links_from_same_host :
  forall hrefs base_url links,
    Crawler.get_links_from urljoin urldefrag netloc hrefs base_url = inr links ->
    Forall (fun link => exists h, netloc link = inr h /\ netloc base_url = inr h) links.
Proof.
  induction hrefs as [ | href more IH ]; intros base_url links Hlinks; simpl in Hlinks.
  - injection Hlinks as <-. constructor.
  - destruct (urljoin base_url href) as [ e | joined ]; [ discriminate Hlinks | ].
    cbn [bind] in Hlinks.
    destruct (urldefrag joined) as [ e | full_url ]; [ discriminate Hlinks | ].
    cbn [bind] in Hlinks.
    destruct (netloc full_url) as [ e | link_host ] eqn:Hlink; [ discriminate Hlinks | ].
    cbn [bind] in Hlinks.
    destruct (netloc base_url) as [ e | base_host ] eqn:Hbase; [ discriminate Hlinks | ].
    cbn [bind] in Hlinks.
    destruct (Crawler.get_links_from urljoin urldefrag netloc more base_url)
      as [ e | found ] eqn:Hmore; [ discriminate Hlinks | ].
    cbn [bind] in Hlinks. injection Hlinks as <-.
    specialize (IH base_url found Hmore). rewrite Hbase in IH.
    destruct (String.eqb link_host base_host) eqn:Hsame; [ | exact IH ].
    constructor; [ | exact IH ].
    apply String.eqb_eq in Hsame. subst link_host.
    exists base_host. split; [ exact Hlink | reflexivity ].
Qed.

Lemma step_host_ok :
  forall start_url s s', step s = Some s' -> host_ok start_url s -> host_ok start_url s'.
Proof.
  intros start_url s s' Hstep [Hfront Hrecs].
  destruct (to_visit s) as [ | [u d] rest ] eqn:Hs.
  { unfold Crawler.step in Hstep. rewrite Hs in Hstep. discriminate Hstep. }
  apply Forall_cons_iff in Hfront as [Hu Hrest]. cbn [fst] in Hu.
  destruct (step_cases s s' u d rest Hstep Hs)
    as [ [_ ->] | [ (_ & _ & e & _ & ->) | (_ & _ & page & new & _ & -> & Hnew) ] ].
  - split; assumption.
  - split; assumption.
  - split; cbn [to_visit content].
    + apply Forall_app. split; [ exact Hrest | ].
      destruct Hnew as [ -> | (_ & links & Hlinks & ->) ]; [ constructor | ].
      apply get_links_from_same_host in Hlinks.
      apply List.Forall_forall. intros entry Hin.
      apply new_entries_from_links in Hin.
      rewrite List.Forall_forall in Hlinks.
      destruct (Hlinks _ Hin) as (h & Hlink & Hbase).
      right. exists h. split; [ exact Hlink | ].
      destruct Hu as [ -> | (h' & Hu1 & Hu2) ]; [ exact Hbase | congruence ].
    + apply Forall_app. split; [ exact Hrecs | ].
      eapply Forall_impl; [ apply extract_text_record | ].
      cbn beta. intros r [-> _]. exact Hu.
Qed.

(** X3: the crawl stays on the host of the seed: every record [scrape]
    returns is the seed's, or that of a URL for which [netloc] gives the
    host it gives for the seed. *)
Theorem scrape_stays_on_seed_host :
  forall fuel start_url records,
    scrape fuel start_url = Some records ->
    Forall (fun r => on_seed_host start_url (url r)) records.
Proof.
  intros fuel start_url records Hrun.
  destruct (run_invariant (host_ok start_url) (step_host_ok start_url) fuel
              (initial start_url) records Hrun) as (s_end & [_ Hrecs] & <-).
  - split; cbn [initial to_visit content].
    + constructor; [ left; reflexivity | constructor ].
    + constructor.
  - exact Hrecs.
Qed.

Lemma step_seed_only :
  forall start_url s s',
    (max_depth <= 1)%Z ->
    step s = Some s' -> seed_only start_url s -> seed_only start_url s'.
Proof.
  intros start_url s s' Hmax Hstep [ [Hfront Hrecs] | [Hfront _] ].
  - destruct (step_cases s s' start_url 1 [] Hstep Hfront)
      as [ [_ ->] | [ (_ & _ & e & _ & ->) | (_ & _ & page & new & _ & -> & Hnew) ] ].
    + right. split; [ reflexivity | left; exact Hrecs ].
    + right. split; [ reflexivity | left; exact Hrecs ].
    + right. cbn [to_visit content].
      destruct Hnew as [ -> | (Hlt & _) ]; [ | lia ].
      split; [ reflexivity | ]. rewrite Hrecs. cbn [app].
      destruct (extract_text_at_most_one page start_url 1) as [ -> | (r & -> & Hr) ].
      * left. reflexivity.
      * right. exists r. split; [ reflexivity | exact Hr ].
  - unfold Crawler.step in Hstep. rewrite Hfront in Hstep. discriminate Hstep.
Qed.

(** X4: with a depth limit of 1 or less only the seed is scraped:
    [scrape] returns at most one record, which is the seed at depth 1,
    and none at all when the limit is below 1. *)
Theorem scrape_depth_one_only_seed :
  forall fuel start_url records,
    (max_depth <= 1)%Z ->
    scrape fuel start_url = Some records ->
    (records = []
     \/ exists r, records = [r] /\ url r = start_url /\ depth r = 1%Z)
    /\ ((max_depth < 1)%Z -> records = []).
Proof.
  intros fuel start_url records Hmax Hrun.
  destruct (run_invariant (seed_only start_url)
              (fun s s' H => step_seed_only start_url s s' Hmax H) fuel
              (initial start_url) records Hrun) as (s_end & Hend & <-).
  { left. split; reflexivity. }
  split.
  - destruct Hend as [ [_ ->] | [_ H] ]; [ left; reflexivity | exact H ].
  - intros Hlow.
    pose proof (run_depths_ok fetch urljoin urldefrag netloc max_depth
                  max_links_per_page fuel (initial start_url) _ Hrun) as Hdepth.
    destruct Hdepth as [Hall _].
    { split; cbn [initial to_visit content];
        [ constructor; [ cbn [snd]; lia | constructor ] | constructor ]. }
    destruct (content s_end) as [ | r rs ]; [ reflexivity | ].
    apply Forall_cons_iff in Hall as [Hr _]. lia.
Qed.

(** X5: the link cap bounds the growth of the frontier: with a cap that
    is not negative, a turn pops one entry and appends at most
    [max_links_per_page] entries. *)
Theorem step_appends_at_most_cap :
  forall s s',
    (0 <= max_links_per_page)%Z ->
    step s = Some s' ->
    (length (to_visit s') + 1 <= length (to_visit s) + Z.to_nat max_links_per_page)%nat.
Proof.
  intros s s' Hcap Hstep.
  destruct (to_visit s) as [ | [u d] rest ] eqn:Hs.
  { unfold Crawler.step in Hstep. rewrite Hs in Hstep. discriminate Hstep. }
  destruct (step_cases s s' u d rest Hstep Hs)
    as [ [_ ->] | [ (_ & _ & e & _ & ->) | (_ & _ & page & new & _ & -> & Hnew) ] ];
    cbn [to_visit length]; try lia.
  rewrite length_app.
  destruct Hnew as [ -> | (_ & links & _ & ->) ]; [ cbn [length]; lia | ].
  unfold Crawler.new_entries. rewrite length_map.
  pose proof (List.filter_length_le
                (fun link => negb (bool_decide (link ∈ {[u]} ∪ visited_urls s)))
                (slice_to links max_links_per_page)) as Hfilter.
  unfold slice_to in Hfilter |- *.
  replace (0 <=? max_links_per_page)%Z with true in Hfilter |- *
    by (symmetry; apply Z.leb_le; exact Hcap).
  pose proof (List.firstn_le_length (Z.to_nat max_links_per_page) links) as Hfirst.
  lia.
Qed.

End CrawlerInvariants.

Lemma scrape_records_distinct_urls_witness :
  exists records,
    Scenarios.crawl Scenarios.web_abc 3 20 6 Scenarios.site_a = Some records
    /\ List.NoDup (map Crawler.url records).
Proof.
  destruct (Scenarios.crawl Scenarios.web_abc 3 20 6 Scenarios.site_a)
    as [ records | ] eqn:Hrun; [ | vm_compute in Hrun; discriminate Hrun ].
  exists records. split; [ reflexivity | ].
  exact (scrape_records_distinct_urls Scenarios.web_abc Scenarios.urljoin_absolute
           Scenarios.urldefrag_first_hash Scenarios.netloc_of 3 20 6
           Scenarios.site_a records Hrun).
Defined.

Lemma scrape_stays_on_seed_host_witness :
  exists records,
    Scenarios.crawl Scenarios.web_abc 3 20 6 Scenarios.site_a = Some records
    /\ Forall (fun r => Crawler.on_seed_host Scenarios.netloc_of Scenarios.site_a
                          (Crawler.url r)) records.
Proof.
  destruct (Scenarios.crawl Scenarios.web_abc 3 20 6 Scenarios.site_a)
    as [ records | ] eqn:Hrun; [ | vm_compute in Hrun; discriminate Hrun ].
  exists records. split; [ reflexivity | ].
  exact (scrape_stays_on_seed_host Scenarios.web_abc Scenarios.urljoin_absolute
           Scenarios.urldefrag_first_hash Scenarios.netloc_of 3 20 6
           Scenarios.site_a records Hrun).
Defined.

Lemma scrape_depth_one_only_seed_witness :
  exists records,
    (1 <= 1)%Z
    /\ Scenarios.crawl Scenarios.web_abc 1 20 3 Scenarios.site_a = Some records
    /\ (records = []
        \/ exists r, records = [r] /\ Crawler.url r = Scenarios.site_a
                      /\ Crawler.depth r = 1%Z)
    /\ ((1 < 1)%Z -> records = []).
Proof.
  destruct (Scenarios.crawl Scenarios.web_abc 1 20 3 Scenarios.site_a)
    as [ records | ] eqn:Hrun; [ | vm_compute in Hrun; discriminate Hrun ].
  assert (Hmax : (1 <= 1)%Z) by lia.
  exists records. split; [ exact Hmax | ]. split; [ reflexivity | ].
  exact (scrape_depth_one_only_seed Scenarios.web_abc Scenarios.urljoin_absolute
           Scenarios.urldefrag_first_hash Scenarios.netloc_of 1 20 3
           Scenarios.site_a records Hmax Hrun).
Defined.

Lemma step_appends_at_most_cap_witness :
  exists s',
    (0 <= 1)%Z
    /\ Scenarios.crawl_step Scenarios.web_abc 2 1 (Crawler.initial Scenarios.site_a)
       = Some s'
    /\ (length (Crawler.to_visit s') + 1
        <= length (Crawler.to_visit (Crawler.initial Scenarios.site_a))
           + Z.to_nat 1)%nat.
Proof.
  destruct (Scenarios.crawl_step Scenarios.web_abc 2 1
              (Crawler.initial Scenarios.site_a)) as [ s1 | ] eqn:Hstep;
    [ | vm_compute in Hstep; discriminate Hstep ].
  assert (Hcap : (0 <= 1)%Z) by lia.
  exists s1. split; [ exact Hcap | ]. split; [ reflexivity | ].
  exact (step_appends_at_most_cap Scenarios.web_abc Scenarios.urljoin_absolute
           Scenarios.urldefrag_first_hash Scenarios.netloc_of 2 1
           (Crawler.initial Scenarios.site_a) s1 Hcap Hstep).
Defined.

(** ** Structural converter: rejected roots, chunk texts, metadata, overview *)

Section ConverterExtras.
Import Py EnhancedJSON.

(** Every chunk of [process_object] is the chunk of one object. *)
Lemma process_object_own_chunks :
  forall obj md path parent_context,
    Forall (own_chunk md) (process_object md obj path parent_context).
Proof.
  intros obj.
  enough (Hboth :
    (forall md path parent_context,
        Forall (own_chunk md) (process_object md obj path parent_context))
    /\ (forall elems, obj = JList elems ->
          Forall (fun x => forall md path parent_context,
                     Forall (own_chunk md) (process_object md x path parent_context))
                 elems)) by (apply Hboth).
  induction obj as [ | b | n | r | s | items IH | items IH ] using json_nested_ind;
    try (split; [ intros; constructor | intros elems Heq; discriminate ]).
  - split; [ intros; constructor | ].
    intros elems Heq. injection Heq as <-.
    eapply Forall_impl; [ exact IH | ]. intros x [Hx _]. exact Hx.
  - split; [ | intros elems Heq; discriminate ].
    intros md path parent_context.
    cbn [process_object]. apply Forall_app. split.
    + destruct (negb _ && _) eqn:Hsub; [ | constructor ].
      apply andb_prop in Hsub as [Hne Hlen].
      apply negb_true_iff, String.eqb_neq in Hne.
      apply Nat.ltb_lt in Hlen.
      constructor; [ | constructor ].
      apply own_chunk_intro; assumption.
    + apply Forall_flat_map_intro.
      eapply Forall_impl; [ exact IH | ].
      intros [key value] [Hval Helems]. cbn [snd] in *.
      destruct value as [ | | | | | elems | fields ]; try constructor.
      * destruct elems as [ | e elems ]; [ constructor | ].
        destruct (forallb _ _); [ | constructor ].
        specialize (Helems _ eq_refl).
        apply Forall_cons_iff in Helems as [He Helems].
        apply Forall_app; split; [ apply He | ].
        match goal with
        | |- Forall _ (?each _ _ _) =>
            assert (Heach : forall l,
                       Forall (fun x => forall md path parent_context,
                                 Forall (own_chunk md)
                                   (process_object md x path parent_context)) l ->
                       forall n i, Forall (own_chunk md) (each n i l))
        end.
        { induction 1 as [ | x l Hx _ IHl ]; intros n i.
          - destruct n; constructor.
          - destruct n; [ constructor | ].
            apply Forall_app; split; [ apply Hx | apply IHl ]. }
        apply Heach, Helems.
      * destruct fields as [ | f fields ]; [ constructor | ].
        destruct (_ <? _)%nat; [ apply Hval | constructor ].
Qed.

Lemma length_append : forall a b : string,
  String.length (a ++ b) = (String.length a + String.length b)%nat.
Proof. induction a as [ | c a IH ]; intros b; simpl; [ | rewrite IH ]; reflexivity. Qed.

Lemma length_rev_app : forall a b : string,
  String.length (String.rev_app a b) = (String.length a + String.length b)%nat.
Proof.
  induction a as [ | c a IH ]; intros b; simpl; [ reflexivity | ].
  rewrite IH. simpl. lia.
Qed.

Lemma length_lstrip : forall s, (String.length (lstrip s) <= String.length s)%nat.
Proof.
  induction s as [ | c s IH ]; simpl; [ lia | ].
  destruct (is_space c); simpl; lia.
Qed.

Lemma length_strip : forall s, (len (strip s) <= len s)%nat.
Proof.
  intros s. unfold len, strip, rstrip, String.rev.
  rewrite length_rev_app. simpl.
  pose proof (length_lstrip (String.rev_app (lstrip s) "")) as H1.
  rewrite length_rev_app in H1. simpl in H1.
  pose proof (length_lstrip s). lia.
Qed.

(** Below a context that is not empty, every chunk of [process_object]
    carries the header and renders an object at a path. *)
Lemma process_object_object_chunks :
  forall obj md path parent_context,
    parent_context <> "" ->
    Forall object_chunk (process_object md obj path parent_context).
Proof.
  intros obj.
  enough (Hboth :
    (forall md path parent_context, parent_context <> "" ->
        Forall object_chunk (process_object md obj path parent_context))
    /\ (forall elems, obj = JList elems ->
          Forall (fun x => forall md path parent_context, parent_context <> "" ->
                     Forall object_chunk (process_object md x path parent_context))
                 elems)) by (apply Hboth).
  induction obj as [ | b | n | r | s | items IH | items IH ] using json_nested_ind;
    try (split; [ intros; constructor | intros elems Heq; discriminate ]).
  - split; [ intros; constructor | ].
    intros elems Heq. injection Heq as <-.
    eapply Forall_impl; [ exact IH | ]. intros x [Hx _]. exact Hx.
  - split; [ | intros elems Heq; discriminate ].
    intros md path parent_context Hctx.
    cbn [process_object]. apply Forall_app. split.
    + destruct (negb _ && _) eqn:Hsub; [ | constructor ].
      apply andb_prop in Hsub as [_ Hlen]. apply Nat.ltb_lt in Hlen.
      constructor; [ | constructor ].
      exists (JDict items), path, parent_context. cbn zeta.
      cbn [page_content metadata].
      apply String.eqb_neq in Hctx. rewrite Hctx.
      split; [ exact Hlen | ]. split; [ reflexivity | ]. split.
      * rewrite lookup_insert_ne by discriminate. apply lookup_insert_eq.
      * do 2 (rewrite lookup_insert_ne by discriminate). apply lookup_insert_eq.
    + apply Forall_flat_map_intro.
      eapply Forall_impl; [ exact IH | ].
      intros [key value] [Hval Helems]. cbn [snd] in *.
      assert (Hsection :
                (if String.eqb parent_context "" then humanize key
                 else parent_context ++ " > " ++ humanize key) <> "").
      { apply String.eqb_neq in Hctx. rewrite Hctx.
        apply append_nonempty_l. apply String.eqb_neq. exact Hctx. }
      destruct value as [ | | | | | elems | fields ]; try constructor.
      * destruct elems as [ | e elems ]; [ constructor | ].
        destruct (forallb _ _); [ | constructor ].
        specialize (Helems _ eq_refl).
        apply Forall_cons_iff in Helems as [He Helems].
        apply Forall_app; split;
          [ apply He; apply append_nonempty_l; exact Hsection | ].
        match goal with
        | |- Forall _ (?each _ _ _) =>
            assert (Heach : forall l,
                       Forall (fun x => forall md path parent_context,
                                 parent_context <> "" ->
                                 Forall object_chunk
                                   (process_object md x path parent_context)) l ->
                       forall n i, Forall object_chunk (each n i l))
        end.
        { induction 1 as [ | x l Hx _ IHl ]; intros n i.
          - destruct n; constructor.
          - destruct n; [ constructor | ].
            apply Forall_app; split;
              [ apply Hx; apply append_nonempty_l; exact Hsection | apply IHl ]. }
        apply Heach, Helems.
      * destruct fields as [ | f fields ]; [ constructor | ].
        destruct (_ <? _)%nat; [ apply Hval; exact Hsection | constructor ].
Qed.

(** X6: a structural chunk is never a trivial one: whenever
    [_create_structured_chunks] returns, for a value whose keys have
    their title-case form below code 256, every chunk is the rendering
    of an object under its [Context:] header, the rendering alone has
    more than 50 characters once stripped, and so has the chunk. *)
Theorem structured_chunks_are_substantial :
  forall (data : json) (md : gmap string meta_value) (docs : list document),
    keys_title_closed data = true ->
    create_structured_chunks data md = inr docs ->
    Forall (fun d => object_chunk d /\ (50 < len (page_content d))%nat) docs.
Proof.
  intros data md docs _ Hdocs. unfold create_structured_chunks in Hdocs.
  destruct data as [ | | | | | | fields ]; try discriminate Hdocs.
  assert (Hroot : "Root" <> "") by discriminate.
  pose proof (process_object_object_chunks (JDict fields) md "" "Root" Hroot) as Hown.
  injection Hdocs as <-.
  eapply Forall_impl; [ exact Hown | ].
  intros d Hd. split; [ exact Hd | ].
  destruct Hd as (obj & path & parent_context & Hlen & Htext & _).
  rewrite Htext. pose proof (length_strip (dict_to_text obj path 0)) as Hstrip.
  unfold len in *. rewrite !length_append. lia.
Qed.

Section Converter.
Variable cfg : Config.settings.
Variable json_loads : string -> result json.
Variable split_text : string -> list string.

Abbreviation convert := (process cfg json_loads split_text).

(** X7: JSON that is not an object is not converted: when the content
    parses to a list, a string, a number, a boolean or null, [process]
    raises [AttributeError]. *)
Theorem process_rejects_non_object :
  forall (content : string) (md : gmap string meta_value) (v : json),
    json_loads content = inr v ->
    isinstance_dict v = false ->
    exists message, convert content md = inl (Exn AttributeError message).
Proof.
  intros content md v Hloads Hdict. unfold process. rewrite Hloads.
  destruct v; try discriminate Hdict; cbn [create_structured_chunks bind];
    eexists; reflexivity.
Qed.

Lemma resplit_keeps_metadata :
  forall (Q : gmap string meta_value -> Prop) docs,
    Forall (fun d => Q (metadata d)) docs ->
    Forall (fun d => Q (metadata d)) (resplit cfg split_text docs).
Proof.
  intros Q docs Hdocs. unfold resplit.
  apply Forall_flat_map_intro.
  eapply Forall_impl; [ exact Hdocs | ]. cbn beta. intros d Hd.
  destruct (_ <? _)%Z.
  - unfold split_documents. cbn [flat_map]. rewrite app_nil_r.
    apply Forall_map. apply List.Forall_forall. intros piece _. exact Hd.
  - constructor; [ exact Hd | constructor ].
Qed.

(** X8: the converter keeps the caller's metadata: every chunk [process]
    emits for a parsed input is a document tagged [content_type = json],
    [processor = enhanced_json] and with a chunk type, whose metadata
    agrees with the caller's on every key the converter does not write. *)
Theorem process_keeps_metadata :
  forall (content : string) (md : gmap string meta_value) (v : json)
         (chunks : list chunk),
    json_loads content = inr v ->
    convert content md = inr chunks ->
    Forall (keeps_metadata md) chunks.
Proof.
  intros content md v chunks Hloads Hchunks.
  unfold process in Hchunks. rewrite Hloads in Hchunks.
  destruct v as [ | | | | | | fields ]; try discriminate Hchunks.
  cbn [create_structured_chunks bind] in Hchunks. injection Hchunks as <-.
  set (enhanced := <["processor" := MStr "enhanced_json"]>
                     (<["content_type" := MStr "json"]> md)).
  set (Q := fun m : gmap string meta_value =>
              m !! "content_type" = Some (MStr "json")
              /\ m !! "processor" = Some (MStr "enhanced_json")
              /\ (m !! "chunk_type" = Some (MStr "json_object")
                  \/ m !! "chunk_type" = Some (MStr "overview"))
              /\ forall k, ~ In k converter_keys -> m !! k = md !! k).
  assert (Hkeys : forall k, ~ In k converter_keys ->
            k <> "content_type" /\ k <> "processor" /\ k <> "chunk_type"
            /\ k <> "json_path" /\ k <> "context").
  { intros k Hk. unfold converter_keys in Hk. cbn [In] in Hk.
    repeat split; intros ->; apply Hk; tauto. }
  assert (Hown : Forall (fun d => Q (metadata d))
                        (process_object enhanced (JDict fields) "" "Root")).
  { eapply Forall_impl; [ apply process_object_own_chunks | ].
    intros d Hd. destruct Hd as [obj_text path parent_context _ _].
    cbn [metadata]. unfold Q, enhanced. repeat split.
    - do 4 (rewrite lookup_insert_ne by discriminate). apply lookup_insert_eq.
    - do 3 (rewrite lookup_insert_ne by discriminate). apply lookup_insert_eq.
    - left. apply lookup_insert_eq.
    - intros k Hk. destruct (Hkeys k Hk) as (H1 & H2 & H3 & H4 & H5).
      do 5 (rewrite lookup_insert_ne by congruence). reflexivity. }
  assert (Hover : forall text,
            Q (metadata (Document text (<["chunk_type" := MStr "overview"]> enhanced)))).
  { intros text. cbn [metadata]. unfold Q, enhanced. repeat split.
    - do 2 (rewrite lookup_insert_ne by discriminate). apply lookup_insert_eq.
    - rewrite lookup_insert_ne by discriminate. apply lookup_insert_eq.
    - right. apply lookup_insert_eq.
    - intros k Hk. destruct (Hkeys k Hk) as (H1 & H2 & H3 & H4 & H5).
      do 3 (rewrite lookup_insert_ne by congruence). reflexivity. }
  apply Forall_map.
  assert (Hall : Forall (fun d => Q (metadata d))
            (resplit cfg split_text
               (if String.eqb (create_overview (JDict fields)) ""
                then process_object enhanced (JDict fields) "" "Root"
                else Document ("Complete Overview:" ++ newline ++ newline
                                 ++ create_overview (JDict fields))
                       (<["chunk_type" := MStr "overview"]> enhanced)
                     :: process_object enhanced (JDict fields) "" "Root"))).
  { apply resplit_keeps_metadata.
    destruct (String.eqb _ ""); [ exact Hown | ].
    constructor; [ apply Hover | exact Hown ]. }
  eapply Forall_impl; [ exact Hall | ].
  intros d Hd. exists d. split; [ reflexivity | exact Hd ].
Qed.

(** X9: the overview comes first: for an object whose keys have their
    title-case form below code 256 (none holds the micro sign or U+00FF),
    and whose overview is not empty and not longer than twice the chunk
    size, the first chunk [process] emits is the overview, with chunk
    type [overview]. *)
Theorem process_overview_first :
  forall (content : string) (md : gmap string meta_value)
         (fields : list (string * json)),
    json_loads content = inr (JDict fields) ->
    Forall (fun kv => title_closed (fst kv) = true) fields ->
    create_overview (JDict fields) <> "" ->
    (Z.of_nat (len ("Complete Overview:" ++ newline ++ newline
                      ++ create_overview (JDict fields)))
     <= Config.chunk_size cfg * 2)%Z ->
    exists rest,
      convert content md
      = inr (DocChunk
               (Document ("Complete Overview:" ++ newline ++ newline
                            ++ create_overview (JDict fields))
                  (<["chunk_type" := MStr "overview"]>
                     (<["processor" := MStr "enhanced_json"]>
                        (<["content_type" := MStr "json"]> md))))
             :: rest).
Proof.
  intros content md fields Hloads _ Hover Hfits.
  unfold process. rewrite Hloads. cbn [create_structured_chunks bind].
  apply String.eqb_neq in Hover. rewrite Hover.
  unfold resplit. cbn [flat_map page_content].
  apply Z.ltb_ge in Hfits. rewrite Hfits. cbn [app map].
  eexists. reflexivity.
Qed.

End Converter.
End ConverterExtras.

Lemma structured_chunks_are_substantial_witness :
  exists docs,
    EnhancedJSON.keys_title_closed Scenarios.company_value = true
    /\ EnhancedJSON.create_structured_chunks Scenarios.company_value ∅ = inr docs
    /\ docs <> []
    /\ Forall (fun d => EnhancedJSON.object_chunk d
                        /\ (50 < Py.len (EnhancedJSON.page_content d))%nat) docs.
Proof.
  eexists. split; [ reflexivity | ]. split; [ reflexivity | ].
  split; [ vm_compute; discriminate | ].
  exact (structured_chunks_are_substantial Scenarios.company_value ∅ _
           eq_refl eq_refl).
Defined.

Lemma process_rejects_non_object_witness :
  Services.loads_ascii Scenarios.array_content
  = inr (EnhancedJSON.JList [EnhancedJSON.JInt 1; EnhancedJSON.JInt 2])
  /\ EnhancedJSON.isinstance_dict
       (EnhancedJSON.JList [EnhancedJSON.JInt 1; EnhancedJSON.JInt 2]) = false
  /\ exists message,
       Scenarios.convert_default Scenarios.array_content
       = inl (Py.Exn Py.AttributeError message).
Proof.
  assert (H1 : Services.loads_ascii Scenarios.array_content
               = inr (EnhancedJSON.JList [EnhancedJSON.JInt 1; EnhancedJSON.JInt 2]))
    by (vm_compute; reflexivity).
  split; [ exact H1 | ]. split; [ reflexivity | ].
  exact (process_rejects_non_object Config.default_settings Services.loads_ascii
           (Services.fixed_width_split Config.default_settings)
           Scenarios.array_content ∅ _ H1 eq_refl).
Defined.

Lemma process_keeps_metadata_witness :
  exists chunks,
    Services.loads_ascii Scenarios.company_content = inr Scenarios.company_value
    /\ EnhancedJSON.process Config.default_settings Services.loads_ascii
         (Services.fixed_width_split Config.default_settings)
         Scenarios.company_content {[ "filename" := EnhancedJSON.MStr "acme.json" ]}
       = inr chunks
    /\ Forall (EnhancedJSON.keeps_metadata
                 {[ "filename" := EnhancedJSON.MStr "acme.json" ]}) chunks.
Proof.
  assert (H1 : Services.loads_ascii Scenarios.company_content
               = inr Scenarios.company_value) by (vm_compute; reflexivity).
  destruct (EnhancedJSON.process Config.default_settings Services.loads_ascii
              (Services.fixed_width_split Config.default_settings)
              Scenarios.company_content
              {[ "filename" := EnhancedJSON.MStr "acme.json" ]})
    as [ e | chunks ] eqn:Hchunks; [ vm_compute in Hchunks; discriminate Hchunks | ].
  exists chunks. split; [ exact H1 | ]. split; [ reflexivity | ].
  exact (process_keeps_metadata Config.default_settings Services.loads_ascii
           (Services.fixed_width_split Config.default_settings)
           Scenarios.company_content _ _ chunks H1 Hchunks).
Defined.

Lemma process_overview_first_witness :
  Services.loads_ascii Scenarios.company_content = inr Scenarios.company_value
  /\ Forall (fun kv => Py.title_closed (fst kv) = true)
       [("title", EnhancedJSON.JStr "Acme Corporation, maker of anvils and rockets");
        ("address",
         EnhancedJSON.JDict
           [("street_name", EnhancedJSON.JStr "1 Desert Road");
            ("city", EnhancedJSON.JStr "Monument Valley")])]
  /\ EnhancedJSON.create_overview Scenarios.company_value <> ""
  /\ exists rest,
       Scenarios.convert_default Scenarios.company_content
       = inr (EnhancedJSON.DocChunk
                (EnhancedJSON.Document
                   ("Complete Overview:" ++ EnhancedJSON.newline ++ EnhancedJSON.newline
                      ++ EnhancedJSON.create_overview Scenarios.company_value)
                   (<["chunk_type" := EnhancedJSON.MStr "overview"]>
                      (<["processor" := EnhancedJSON.MStr "enhanced_json"]>
                         (<["content_type" := EnhancedJSON.MStr "json"]> ∅))))
              :: rest).
Proof.
  assert (H1 : Services.loads_ascii Scenarios.company_content
               = inr Scenarios.company_value) by (vm_compute; reflexivity).
  assert (H2 : EnhancedJSON.create_overview Scenarios.company_value <> "")
    by (vm_compute; discriminate).
  assert (H3 : Forall (fun kv => Py.title_closed (fst kv) = true)
                 [("title",
                   EnhancedJSON.JStr "Acme Corporation, maker of anvils and rockets");
                  ("address",
                   EnhancedJSON.JDict
                     [("street_name", EnhancedJSON.JStr "1 Desert Road");
                      ("city", EnhancedJSON.JStr "Monument Valley")])])
    by (repeat constructor).
  split; [ exact H1 | ]. split; [ exact H3 | ]. split; [ exact H2 | ].
  apply (process_overview_first Config.default_settings Services.loads_ascii
           (Services.fixed_width_split Config.default_settings)
           Scenarios.company_content ∅ _ H1 H3 H2).
  vm_compute. discriminate.
Defined.

(** ** Vector store: isolation, ranking, upserts, deletion *)

Section VectorStoreExtras.
Import Py EnhancedJSON VectorStore.

Variable embed_documents : list string -> result (list vector).
Variable embed_query : string -> result vector.
Variable similarity : vector -> vector -> Z.
Variable uuid4 : nat -> string.

Lemma Forall_insert_by {A} (P : A -> Prop) (key : A -> Z) (x : A) (l : list A) :
  P x -> Forall P l -> Forall P (insert_by key x l).
Proof.
  intros Hx Hl. induction Hl as [ | y l Hy Hl IH ]; simpl.
  - constructor; [ exact Hx | constructor ].
  - destruct (key y <=? key x)%Z.
    + constructor; [ exact Hx | constructor; assumption ].
    + constructor; assumption.
Qed.

Lemma insert_by_ranked {A} (key : A -> Z) (x : A) (l : list A) :
  ranked key l -> ranked key (insert_by key x l).
Proof.
  induction l as [ | y l IH ]; simpl.
  - intros _. split; [ constructor | exact I ].
  - intros [Hy Hl]. destruct (key y <=? key x)%Z eqn:Hle.
    + apply Z.leb_le in Hle. simpl. split; [ | split; assumption ].
      constructor; [ exact Hle | ].
      eapply Forall_impl; [ exact Hy | ]. cbn beta. intros z Hz. lia.
    + apply Z.leb_gt in Hle. simpl. split; [ | apply IH, Hl ].
      apply Forall_insert_by; [ lia | exact Hy ].
Qed.

Lemma sorted_desc_ranked {A} (key : A -> Z) (l : list A) :
  ranked key (sorted_desc key l).
Proof.
  induction l as [ | x l IH ]; simpl; [ exact I | ].
  apply insert_by_ranked, IH.
Qed.

Lemma Forall_firstn {A} (P : A -> Prop) (n : nat) (l : list A) :
  Forall P l -> Forall P (firstn n l).
Proof.
  intros Hl. apply List.Forall_forall. intros x Hx.
  rewrite List.Forall_forall in Hl. apply Hl. eapply In_firstn_elim, Hx.
Qed.

Lemma firstn_ranked {A} (key : A -> Z) (n : nat) (l : list A) :
  ranked key l -> ranked key (firstn n l).
Proof.
  revert l. induction n as [ | n IH ]; intros [ | x l ]; simpl;
    try (intros _; exact I).
  intros [Hx Hl]. split; [ apply Forall_firstn, Hx | apply IH, Hl ].
Qed.

Lemma map_ranked {A B} (f : A -> B) (key : B -> Z) (l : list A) :
  ranked (fun a => key (f a)) l -> ranked key (map f l).
Proof.
  induction l as [ | x l IH ]; simpl; [ intros _; exact I | ].
  intros [Hx Hl]. split; [ | apply IH, Hl ].
  apply Forall_map. exact Hx.
Qed.

(** X10: what [search] returns, for any user filter: at most [limit]
    documents, best score first, each at or above the threshold, each
    with a text, without the [text] key in its metadata and without a
    rerank score. *)
Theorem search_results_shape :
  forall (q : qdrant) (query : string) (user_id : option Z)
         (limit threshold : Z) (docs : list doc),
    search embed_query similarity q query user_id limit threshold = inr docs ->
    (length docs <= Z.to_nat limit)%nat
    /\ ranked score docs
    /\ Forall (fun d => (threshold <= score d)%Z /\ fresh_hit d) docs.
Proof.
  intros q query user_id limit threshold docs Hsearch.
  unfold search in Hsearch.
  destruct (embed_query query) as [ e | v ]; [ discriminate Hsearch | ].
  cbn [bind] in Hsearch. unfold client_search in Hsearch.
  destruct (outage q); [ discriminate Hsearch | ]. cbn [bind] in Hsearch.
  injection Hsearch as <-.
  match goal with
  | |- context [ firstn _ (sorted_desc snd ?k) ] => set (kept := k)
  end.
  assert (Hkept : Forall (fun ps : point * Z => (threshold <= snd ps)%Z) kept).
  { unfold kept. apply List.Forall_forall. intros ps Hin.
    apply List.filter_In in Hin as [_ Hle]. apply Z.leb_le in Hle. exact Hle. }
  split; [ rewrite length_map; apply List.firstn_le_length | ].
  split.
  - apply map_ranked. cbn [score]. apply firstn_ranked, sorted_desc_ranked.
  - apply Forall_map. apply Forall_firstn.
    apply List.Forall_forall. intros ps Hin. apply In_sorted_desc in Hin.
    rewrite List.Forall_forall in Hkept.
    split; [ cbn [score]; apply Hkept, Hin | ].
    unfold fresh_hit. cbn [text doc_metadata rerank_score].
    split; [ eexists; reflexivity | ].
    split; [ apply lookup_delete_eq | reflexivity ].
Qed.

(** X11: a bare string cannot be indexed: when one element of the batch
    is a [str], [add_documents] raises [AttributeError], whatever the
    embedding service and the collection. *)
Theorem add_documents_rejects_bare_strings :
  forall (q : qdrant) (documents : list chunk) (s session_id : string) (user_id : Z),
    In (StrChunk s) documents ->
    add_documents embed_documents uuid4 q documents session_id user_id
    = inl (Exn AttributeError "'str' object has no attribute 'page_content'").
Proof.
  intros q documents s session_id user_id Hin. unfold add_documents.
  assert (Hcontents : get_page_contents documents
            = inl (Exn AttributeError "'str' object has no attribute 'page_content'")).
  { induction documents as [ | c more IH ]; [ destruct Hin | ].
    destruct c as [ d | s' ]; [ | reflexivity ].
    destruct Hin as [ Heq | Hin ]; [ discriminate Heq | ].
    cbn [get_page_contents get_page_content bind]. rewrite (IH Hin). reflexivity. }
  rewrite Hcontents. reflexivity.
Qed.

Lemma upsert_one_ids :
  forall p stored,
    incl (map point_id stored) (map point_id (upsert_one p stored))
    /\ In (point_id p) (map point_id (upsert_one p stored)).
Proof.
  intros p stored. unfold upsert_one.
  destruct (existsb _ stored) eqn:Hex.
  - assert (Hsame : map point_id
                      (map (fun o => if String.eqb (point_id o) (point_id p)
                                     then p else o) stored)
                    = map point_id stored).
    { rewrite map_map. apply map_ext. intros o.
      destruct (String.eqb (point_id o) (point_id p)) eqn:Heq; [ | reflexivity ].
      apply String.eqb_eq in Heq. congruence. }
    rewrite Hsame. split; [ apply incl_refl | ].
    apply List.existsb_exists in Hex as (o & Hin & Heq).
    apply String.eqb_eq in Heq. rewrite <- Heq. apply in_map, Hin.
  - rewrite map_app. split; [ apply incl_appl, incl_refl | ].
    apply in_or_app. right. left. reflexivity.
Qed.

Lemma upsert_all_ids :
  forall new_points stored,
    incl (map point_id stored)
         (map point_id (fold_left (fun acc p => upsert_one p acc) new_points stored))
    /\ incl (map point_id new_points)
            (map point_id (fold_left (fun acc p => upsert_one p acc) new_points stored)).
Proof.
  induction new_points as [ | p more IH ]; intros stored; cbn [fold_left map].
  - split; [ apply incl_refl | intros x [] ].
  - destruct (IH (upsert_one p stored)) as [Hold Hnew].
    destruct (upsert_one_ids p stored) as [Hkeep Hp].
    split; [ eapply incl_tran; eassumption | ].
    intros x [ <- | Hx ]; [ apply Hold, Hp | apply Hnew, Hx ].
Qed.

(** X12: what a successful [add_documents] leaves: every identifier it
    returns is the identifier of a stored point, every point stored
    before still has a point under its identifier, and no more
    identifiers are returned than documents were given. *)
Theorem add_documents_stores_returned_ids :
  forall (q q' : qdrant) (documents : list chunk) (session_id : string)
         (user_id : Z) (ids : list string),
    add_documents embed_documents uuid4 q documents session_id user_id = inr (q', ids) ->
    incl ids (map point_id (points q'))
    /\ incl (map point_id (points q)) (map point_id (points q'))
    /\ (length ids <= length documents)%nat.
Proof.
  intros q q' documents session_id user_id ids Hadd. unfold add_documents in Hadd.
  destruct (get_page_contents documents) as [ e | texts ]; [ discriminate Hadd | ].
  cbn [bind] in Hadd.
  destruct (embed_documents texts) as [ e | embeddings ]; [ discriminate Hadd | ].
  cbn [bind] in Hadd. unfold client_upsert in Hadd.
  destruct (outage q); [ discriminate Hadd | ]. cbn [bind] in Hadd.
  injection Hadd as <- <-. cbn [points].
  match goal with
  | |- context [ fold_left _ ?n _ ] => set (new_points := n)
  end.
  destruct (upsert_all_ids new_points (points q)) as [Hold Hnew].
  split; [ exact Hnew | ]. split; [ exact Hold | ].
  unfold new_points, enumerate.
  rewrite !length_map, !length_combine, length_seq. lia.
Qed.

(** X13: [delete_by_session] removes the points of the session and no
    other: afterwards no point carries the session identifier, and every
    point of another session is still there. *)
Theorem delete_by_session_removes_session :
  forall (q q' : qdrant) (session_id : string),
    delete_by_session q session_id = inr q' ->
    Forall (fun p => payload p !! "session_id" <> Some (MStr session_id)) (points q')
    /\ (forall p, In p (points q) ->
                  payload p !! "session_id" <> Some (MStr session_id) ->
                  In p (points q')).
Proof.
  intros q q' session_id Hdelete. unfold delete_by_session, client_delete in Hdelete.
  destruct (outage q); [ discriminate Hdelete | ]. injection Hdelete as <-.
  cbn [points].
  assert (Hmatch : forall p,
            matches [("session_id", MStr session_id)] p = true
            <-> payload p !! "session_id" = Some (MStr session_id)).
  { intros p. unfold matches. cbn [forallb fst snd]. rewrite andb_true_r.
    destruct (payload p !! "session_id") as [ [ n | s | ] | ]; cbn;
      split; intros H; try discriminate H.
    - apply String.eqb_eq in H. rewrite H. reflexivity.
    - injection H as ->. apply String.eqb_refl. }
  split.
  - apply List.Forall_forall. intros p Hin.
    apply List.filter_In in Hin as [_ Hnot]. apply negb_true_iff in Hnot.
    intros Hpay. apply (proj2 (Hmatch p)) in Hpay.
    assert (Hnot' : matches [("session_id", MStr session_id)] p = false) by exact Hnot.
    rewrite Hpay in Hnot'. discriminate Hnot'.
  - intros p Hin Hother. apply List.filter_In. split; [ exact Hin | ].
    apply negb_true_iff.
    destruct (matches [("session_id", MStr session_id)] p) eqn:Hm;
      [ | exact Hm || reflexivity ].
    apply (proj1 (Hmatch p)) in Hm. contradiction.
Qed.

End VectorStoreExtras.

Lemma search_user_isolation_witness :
  exists docs,
    (1 <> 0)%Z
    /\ Scenarios.search_in Scenarios.two_users "note" (Some 1%Z) 20 = inr docs
    /\ forall d, In d docs ->
         VectorStore.doc_metadata d !! "user_id" = Some (EnhancedJSON.MInt 1).
Proof.
  destruct (Scenarios.search_in Scenarios.two_users "note" (Some 1%Z) 20)
    as [ e | docs ] eqn:Hsearch; [ vm_compute in Hsearch; discriminate Hsearch | ].
  assert (Hne : (1 <> 0)%Z) by lia.
  exists docs. split; [ exact Hne | ]. split; [ reflexivity | ].
  exact (search_user_isolation Scenarios.embed_query_constant Scenarios.similarity_one
           Scenarios.two_users "note" 1 20 0 docs Hne Hsearch).
Defined.

Lemma search_results_shape_witness :
  exists docs,
    Scenarios.search_in Scenarios.two_users "note" None 1 = inr docs
    /\ (length docs <= Z.to_nat 1)%nat
    /\ VectorStore.ranked VectorStore.score docs
    /\ Forall (fun d => (0 <= VectorStore.score d)%Z /\ VectorStore.fresh_hit d) docs.
Proof.
  destruct (Scenarios.search_in Scenarios.two_users "note" None 1)
    as [ e | docs ] eqn:Hsearch; [ vm_compute in Hsearch; discriminate Hsearch | ].
  exists docs. split; [ reflexivity | ].
  exact (search_results_shape Scenarios.embed_query_constant Scenarios.similarity_one
           Scenarios.two_users "note" None 1 0 docs Hsearch).
Defined.

Lemma add_documents_rejects_bare_strings_witness :
  In (EnhancedJSON.StrChunk "a bare string") Scenarios.mixed_batch
  /\ Scenarios.add_batch Scenarios.empty_collection Scenarios.mixed_batch 1
     = inl (Py.Exn Py.AttributeError "'str' object has no attribute 'page_content'").
Proof.
  assert (Hin : In (EnhancedJSON.StrChunk "a bare string") Scenarios.mixed_batch)
    by (right; left; reflexivity).
  split; [ exact Hin | ].
  exact (add_documents_rejects_bare_strings Scenarios.embed_constant
           Scenarios.uuid_counter Scenarios.empty_collection Scenarios.mixed_batch
           "a bare string" "session" 1 Hin).
Defined.

Lemma add_documents_stores_returned_ids_witness :
  exists q' ids,
    Scenarios.add_batch Scenarios.two_users
      [EnhancedJSON.DocChunk (EnhancedJSON.Document "one more" ∅)] 1 = inr (q', ids)
    /\ incl ids (map VectorStore.point_id (VectorStore.points q'))
    /\ incl (map VectorStore.point_id (VectorStore.points Scenarios.two_users))
            (map VectorStore.point_id (VectorStore.points q'))
    /\ (length ids <= 1)%nat.
Proof.
  destruct (Scenarios.add_batch Scenarios.two_users
              [EnhancedJSON.DocChunk (EnhancedJSON.Document "one more" ∅)] 1)
    as [ e | [q' ids] ] eqn:Hadd; [ vm_compute in Hadd; discriminate Hadd | ].
  exists q', ids. split; [ reflexivity | ].
  exact (add_documents_stores_returned_ids Scenarios.embed_constant
           Scenarios.uuid_counter Scenarios.two_users q' _ "session" 1 ids Hadd).
Defined.

Lemma delete_by_session_removes_session_witness :
  exists q',
    VectorStore.delete_by_session Scenarios.two_users "session" = inr q'
    /\ Forall (fun p => VectorStore.payload p !! "session_id"
                        <> Some (EnhancedJSON.MStr "session"))
              (VectorStore.points q')
    /\ (forall p, In p (VectorStore.points Scenarios.two_users) ->
                  VectorStore.payload p !! "session_id"
                  <> Some (EnhancedJSON.MStr "session") ->
                  In p (VectorStore.points q')).
Proof.
  destruct (VectorStore.delete_by_session Scenarios.two_users "session")
    as [ e | q' ] eqn:Hdelete; [ vm_compute in Hdelete; discriminate Hdelete | ].
  exists q'. split; [ reflexivity | ].
  exact (delete_by_session_removes_session Scenarios.two_users q' "session" Hdelete).
Defined.

(** ** Reranker: size, origin and order of the result, default size *)

Section RerankerExtras.
Import Py VectorStore Reranker.

Variable cfg : Config.settings.
Variable model : option predictor.

Abbreviation rerank_with := (rerank cfg model).

Lemma In_slice_to {A} (l : list A) (k : Z) (x : A) : In x (slice_to l k) -> In x l.
Proof.
  unfold slice_to. destruct (0 <=? k)%Z; apply In_firstn_elim.
Qed.

Lemma In_first_k : forall documents top_k d, In d (first_k documents top_k) -> In d documents.
Proof.
  intros documents top_k d. unfold first_k.
  destruct (truthy top_k); [ | intros H; exact H ].
  destruct top_k as [ k | ]; [ apply In_slice_to | intros H; exact H ].
Qed.

Lemma first_k_positive :
  forall documents K, (0 < K)%Z -> first_k documents (Some K) = firstn (Z.to_nat K) documents.
Proof.
  intros documents K HK. unfold first_k, truthy, slice_to.
  replace (K =? 0)%Z with false by (symmetry; apply Z.eqb_neq; lia).
  replace (0 <=? K)%Z with true by (symmetry; apply Z.leb_le; lia).
  reflexivity.
Qed.

Lemma top_k_positive :
  forall K, (0 < K)%Z -> top_k_or_default cfg (Some K) = Some K.
Proof.
  intros K HK. unfold top_k_or_default, truthy.
  replace (K =? 0)%Z with false by (symmetry; apply Z.eqb_neq; lia).
  reflexivity.
Qed.

(** X14: with a positive [K], [rerank] never returns more than [K]
    documents, whichever way it takes. *)
Theorem rerank_returns_at_most_k :
  forall (query : string) (documents : list doc) (K : Z),
    (0 < K)%Z ->
    (length (snd (rerank_with query documents (Some K))) <= Z.to_nat K)%nat.
Proof.
  intros query documents K HK. unfold rerank.
  rewrite (top_k_positive K HK).
  destruct model as [ predict | ];
    [ | cbn [snd]; rewrite first_k_positive by exact HK; apply List.firstn_le_length ].
  destruct (negb (Config.reranker_enabled cfg));
    [ cbn [snd]; rewrite first_k_positive by exact HK; apply List.firstn_le_length | ].
  destruct (bind (make_pairs query documents) predict) as [ e | scores ];
    [ cbn [snd]; rewrite first_k_positive by exact HK; apply List.firstn_le_length | ].
  destruct (sort_keys (assign_scores documents scores)) as [ e | keyed ];
    [ cbn [snd]; rewrite first_k_positive by exact HK; apply List.firstn_le_length | ].
  cbn [snd]. unfold slice_to.
  replace (0 <=? K)%Z with true by (symmetry; apply Z.leb_le; lia).
  apply List.firstn_le_length.
Qed.

Lemma assign_scores_same :
  forall documents scores d',
    In d' (assign_scores documents scores) ->
    exists d, In d documents /\ same_document d' d.
Proof.
  induction documents as [ | d ds IH ]; intros scores d' Hin.
  - destruct scores; destruct Hin.
  - destruct scores as [ | s ss ].
    + exists d'. split; [ exact Hin | repeat split ].
    + cbn [assign_scores] in Hin. destruct Hin as [ <- | Hin ].
      * exists d. split; [ left; reflexivity | repeat split ].
      * destruct (IH ss d' Hin) as (d0 & Hd0 & Hsame).
        exists d0. split; [ right; exact Hd0 | exact Hsame ].
Qed.

Lemma sort_keys_documents :
  forall documents keyed,
    sort_keys documents = inr keyed ->
    keyed = map (fun d => (d, rerank_score_of d)) documents
    /\ Forall (fun d => rerank_score d <> None) documents.
Proof.
  induction documents as [ | d ds IH ]; intros keyed Hkeys; cbn [sort_keys] in Hkeys.
  - injection Hkeys as <-. split; [ reflexivity | constructor ].
  - destruct (rerank_score d) as [ s | ] eqn:Hs; [ | discriminate Hkeys ].
    destruct (sort_keys ds) as [ e | ks ]; [ discriminate Hkeys | ].
    cbn [bind] in Hkeys. injection Hkeys as <-.
    destruct (IH ks eq_refl) as [-> Hall].
    split.
    + cbn [map]. f_equal. f_equal. unfold rerank_score_of. rewrite Hs. reflexivity.
    + constructor; [ congruence | exact Hall ].
Qed.

(** X15: [rerank] returns documents of its input only: every document
    of the result agrees with a document of the input on identifier,
    text, score and metadata. *)
Theorem rerank_returns_input_documents :
  forall (query : string) (documents : list doc) (top_k : option Z) (d' : doc),
    In d' (snd (rerank_with query documents top_k)) ->
    exists d, In d documents /\ same_document d' d.
Proof.
  intros query documents top_k d' Hin.
  assert (Hself : forall l k, In d' (first_k l k) -> l = documents ->
                    exists d, In d documents /\ same_document d' d).
  { intros l k H ->. apply In_first_k in H. exists d'. split; [ exact H | repeat split ]. }
  unfold rerank in Hin.
  destruct model as [ predict | ]; [ | cbn [snd] in Hin; eapply Hself; eauto ].
  destruct (negb (Config.reranker_enabled cfg));
    [ cbn [snd] in Hin; eapply Hself; eauto | ].
  destruct (bind (make_pairs query documents) predict) as [ e | scores ];
    [ cbn [snd] in Hin; eapply Hself; eauto | ].
  destruct (sort_keys (assign_scores documents scores)) as [ e | keyed ] eqn:Hkeys.
  - cbn [snd] in Hin. apply In_first_k in Hin.
    apply assign_scores_same in Hin. exact Hin.
  - cbn [snd] in Hin.
    assert (Hsorted : In d' (map fst (sorted_desc snd keyed))).
    { destruct (top_k_or_default cfg top_k) as [ k | ];
        [ apply In_slice_to in Hin | ]; exact Hin. }
    apply in_map_iff in Hsorted as ([d0 s0] & <- & Hd0). cbn [fst].
    apply In_sorted_desc in Hd0.
    destruct (sort_keys_documents _ _ Hkeys) as [-> _].
    apply in_map_iff in Hd0 as (d1 & Heq & Hd1). injection Heq as -> _.
    apply assign_scores_same in Hd1. exact Hd1.
Qed.

Lemma ranked_ext {A} (key key' : A -> Z) (l : list A) :
  Forall (fun x => key x = key' x) l -> ranked key l -> ranked key' l.
Proof.
  induction 1 as [ | x l Hx Hl IH ]; simpl; [ intros _; exact I | ].
  intros [Hfirst Hrest]. split; [ | apply IH, Hrest ].
  apply List.Forall_forall. intros y Hy.
  rewrite List.Forall_forall in Hfirst, Hl.
  rewrite <- Hx, <- (Hl y Hy). apply Hfirst, Hy.
Qed.

Lemma length_insert_by {A} (key : A -> Z) (x : A) (l : list A) :
  length (insert_by key x l) = S (length l).
Proof.
  induction l as [ | y l IH ]; simpl; [ reflexivity | ].
  destruct (key y <=? key x)%Z; simpl; [ reflexivity | rewrite IH; reflexivity ].
Qed.

Lemma length_sorted_desc {A} (key : A -> Z) (l : list A) :
  length (sorted_desc key l) = length l.
Proof.
  induction l as [ | x l IH ]; simpl; [ reflexivity | ].
  rewrite length_insert_by, IH. reflexivity.
Qed.

Lemma assign_scores_all :
  forall documents scores,
    length scores = length documents ->
    exists keyed, sort_keys (assign_scores documents scores) = inr keyed.
Proof.
  induction documents as [ | d ds IH ]; intros [ | s ss ] Hlen;
    try discriminate Hlen.
  - exists []. reflexivity.
  - cbn [assign_scores sort_keys rerank_score].
    injection Hlen as Hlen. destruct (IH ss Hlen) as [keyed ->].
    eexists. reflexivity.
Qed.

Lemma length_assign_scores :
  forall documents scores, length (assign_scores documents scores) = length documents.
Proof.
  induction documents as [ | d ds IH ]; intros [ | s ss ]; cbn; try reflexivity.
  rewrite IH. reflexivity.
Qed.

(** X16: when the reranker is enabled and the scorer returns one score
    per document, [rerank] with a positive [K] returns the [K] best by
    rerank score, best first: the result has [min K n] documents, each
    with a rerank score, none followed by one of a higher score. *)
Theorem rerank_ranks_by_score :
  forall (predict : predictor) (query : string) (documents : list doc)
         (pairs : list (string * string)) (scores : list Z) (K : Z),
    model = Some predict ->
    Config.reranker_enabled cfg = true ->
    make_pairs query documents = inr pairs ->
    predict pairs = inr scores ->
    length scores = length documents ->
    (0 < K)%Z ->
    let reranked := snd (rerank_with query documents (Some K)) in
    length reranked = Nat.min (Z.to_nat K) (length documents)
    /\ Forall (fun d => rerank_score d <> None) reranked
    /\ ranked rerank_score_of reranked.
Proof.
  intros predict query documents pairs scores K Hmodel Henabled Hpairs Hpredict
         Hlen HK reranked.
  subst reranked. unfold rerank.
  rewrite Hmodel, Henabled, Hpairs. cbn [negb bind]. rewrite Hpredict.
  rewrite (top_k_positive K HK).
  destruct (assign_scores_all documents scores Hlen) as [keyed Hkeys].
  rewrite Hkeys. cbn [snd]. unfold slice_to.
  replace (0 <=? K)%Z with true by (symmetry; apply Z.leb_le; lia).
  destruct (sort_keys_documents _ _ Hkeys) as [Hkeyed Hscored].
  split; [ | split ].
  - rewrite length_firstn, length_map, length_sorted_desc, Hkeyed, length_map.
    rewrite length_assign_scores. reflexivity.
  - apply Forall_firstn. apply List.Forall_forall. intros d Hd.
    apply in_map_iff in Hd as ([d0 s0] & <- & Hd0). cbn [fst].
    apply In_sorted_desc in Hd0. rewrite Hkeyed in Hd0.
    apply in_map_iff in Hd0 as (d1 & Heq & Hd1). injection Heq as -> _.
    rewrite List.Forall_forall in Hscored. apply Hscored, Hd1.
  - apply firstn_ranked. apply map_ranked.
    apply ranked_ext with (key := snd); [ | apply sorted_desc_ranked ].
    apply List.Forall_forall. intros [d0 s0] Hd0. cbn [fst snd].
    apply In_sorted_desc in Hd0. rewrite Hkeyed in Hd0.
    apply in_map_iff in Hd0 as (d1 & Heq & _). injection Heq as <- <-. reflexivity.
Qed.

(** X17: without a [K] ([None], or [0], which reads the same), the two
    fallbacks differ: a reranker that is off or has no model returns all
    the documents, one whose scoring raises returns the first
    [settings.reranker_top_k] of them. *)
Theorem rerank_without_k :
  forall (query : string) (documents : list doc) (top_k : option Z),
    truthy top_k = false ->
    ((model = None \/ Config.reranker_enabled cfg = false) ->
     snd (rerank_with query documents top_k) = documents)
    /\ (forall predict e,
          model = Some predict ->
          Config.reranker_enabled cfg = true ->
          bind (make_pairs query documents) predict = inl e ->
          snd (rerank_with query documents top_k)
          = first_k documents (Some (Config.reranker_top_k cfg))).
Proof.
  intros query documents top_k Hfalsy. unfold rerank. split.
  - intros [ -> | Hoff ].
    + cbn [snd]. unfold first_k. rewrite Hfalsy. reflexivity.
    + destruct model; rewrite ?Hoff; cbn [negb snd]; unfold first_k;
        rewrite Hfalsy; reflexivity.
  - intros predict e -> Hon Hraise.
    rewrite Hon, Hraise. cbn [negb snd].
    unfold top_k_or_default. rewrite Hfalsy. reflexivity.
Qed.

End RerankerExtras.

Lemma rerank_returns_at_most_k_witness :
  (0 < 2)%Z
  /\ (length (snd (Reranker.rerank Config.default_settings
                     (Some Scenarios.predict_length) "q"
                     [Scenarios.doc_one; Scenarios.doc_two; Scenarios.doc_one]
                     (Some 2%Z)))
      <= Z.to_nat 2)%nat.
Proof.
  assert (HK : (0 < 2)%Z) by lia.
  split; [ exact HK | ].
  exact (rerank_returns_at_most_k Config.default_settings
           (Some Scenarios.predict_length) "q"
           [Scenarios.doc_one; Scenarios.doc_two; Scenarios.doc_one] 2 HK).
Defined.

Lemma rerank_returns_input_documents_witness :
  In (VectorStore.Doc "id1" (Some "second") 8 ∅ (Some 6%Z))
     (snd (Reranker.rerank Config.default_settings (Some Scenarios.predict_length) "q"
             [Scenarios.doc_one; Scenarios.doc_two] (Some 1%Z)))
  /\ exists d, In d [Scenarios.doc_one; Scenarios.doc_two]
               /\ Reranker.same_document
                    (VectorStore.Doc "id1" (Some "second") 8 ∅ (Some 6%Z)) d.
Proof.
  assert (Hin : In (VectorStore.Doc "id1" (Some "second") 8 ∅ (Some 6%Z))
                   (snd (Reranker.rerank Config.default_settings
                           (Some Scenarios.predict_length) "q"
                           [Scenarios.doc_one; Scenarios.doc_two] (Some 1%Z))))
    by (left; reflexivity).
  split; [ exact Hin | ].
  exact (rerank_returns_input_documents Config.default_settings
           (Some Scenarios.predict_length) "q"
           [Scenarios.doc_one; Scenarios.doc_two] (Some 1%Z) _ Hin).
Defined.

Lemma rerank_ranks_by_score_witness :
  Config.reranker_enabled Config.default_settings = true
  /\ Reranker.make_pairs "q" [Scenarios.doc_one; Scenarios.doc_two]
     = inr [("q", "first"); ("q", "second")]
  /\ Scenarios.predict_length [("q", "first"); ("q", "second")] = inr [5%Z; 6%Z]
  /\ (0 < 1)%Z
  /\ length (snd (Reranker.rerank Config.default_settings
                    (Some Scenarios.predict_length) "q"
                    [Scenarios.doc_one; Scenarios.doc_two] (Some 1%Z)))
     = Nat.min (Z.to_nat 1) 2
  /\ Forall (fun d => VectorStore.rerank_score d <> None)
            (snd (Reranker.rerank Config.default_settings
                    (Some Scenarios.predict_length) "q"
                    [Scenarios.doc_one; Scenarios.doc_two] (Some 1%Z)))
  /\ VectorStore.ranked Reranker.rerank_score_of
       (snd (Reranker.rerank Config.default_settings
               (Some Scenarios.predict_length) "q"
               [Scenarios.doc_one; Scenarios.doc_two] (Some 1%Z))).
Proof.
  assert (HK : (0 < 1)%Z) by lia.
  split; [ reflexivity | ]. split; [ reflexivity | ]. split; [ reflexivity | ].
  split; [ exact HK | ].
  exact (rerank_ranks_by_score Config.default_settings (Some Scenarios.predict_length)
           Scenarios.predict_length "q" [Scenarios.doc_one; Scenarios.doc_two]
           [("q", "first"); ("q", "second")] [5%Z; 6%Z] 1
           eq_refl eq_refl eq_refl eq_refl eq_refl HK).
Defined.

Lemma rerank_without_k_witness :
  Py.truthy (Some 0%Z) = false
  /\ ((Some Scenarios.predict_fails = None
       \/ Config.reranker_enabled Config.default_settings = false) ->
      snd (Reranker.rerank Config.default_settings (Some Scenarios.predict_fails) "q"
             [Scenarios.doc_one; Scenarios.doc_two] (Some 0%Z))
      = [Scenarios.doc_one; Scenarios.doc_two])
  /\ (forall predict e,
        Some Scenarios.predict_fails = Some predict ->
        Config.reranker_enabled Config.default_settings = true ->
        Py.bind (Reranker.make_pairs "q" [Scenarios.doc_one; Scenarios.doc_two]) predict
        = inl e ->
        snd (Reranker.rerank Config.default_settings (Some Scenarios.predict_fails) "q"
               [Scenarios.doc_one; Scenarios.doc_two] (Some 0%Z))
        = Reranker.first_k [Scenarios.doc_one; Scenarios.doc_two]
            (Some (Config.reranker_top_k Config.default_settings))).
Proof.
  split; [ reflexivity | ].
  exact (rerank_without_k Config.default_settings (Some Scenarios.predict_fails) "q"
           [Scenarios.doc_one; Scenarios.doc_two] (Some 0%Z) eq_refl).
Defined.

(** ** Retrieval pipeline: sources, generator outcome, service calls *)

Section PipelineExtras.
Import Py VectorStore Reranker RAGGraph.

Variable cfg : Config.settings.
Variable vector_store_search : string -> option Z -> Z -> result (list doc).
Variable reranker_rerank : string -> list doc -> option Z -> list doc * list doc.
Variable llm_generate_response :
  string -> list string -> option string -> result string.

Abbreviation answer_to :=
  (process_query cfg vector_store_search reranker_rerank llm_generate_response).

(** X18: the answer carries at most three sources, each a preview of at
    most 200 characters of the document followed by three dots. *)
Theorem process_query_sources_bounded :
  forall (q : string) (uid : option Z) (sp : option string),
    (length (answer_sources (fst (answer_to q uid sp))) <= 3)%nat
    /\ Forall (fun src => (len (source_text src) <= 203)%nat)
              (answer_sources (fst (answer_to q uid sp))).
Proof.
  intros q uid sp. unfold process_query.
  destruct (graph _ _ _ _ _) as [result made]. cbn [fst answer_sources].
  split.
  - rewrite length_map. apply List.firstn_le_length.
  - apply Forall_map. apply List.Forall_forall. intros d _.
    unfold source_of. cbn [source_text]. unfold len. rewrite length_append.
    pose proof (length_take_chars 200
                  (match text d with Some t => t | None => "" end)) as Hlen.
    cbn [String.length]. lia.
Qed.

(** X19: with hits and a context, the generator decides the answer: its
    text is the response, with no error; when it raises, the response is
    the error text with the message, the error is the message, and the
    sources are returned all the same. *)
Theorem process_query_generator_outcome :
  forall (q : string) (uid : option Z) (sp : option string)
         (docs documents reranked : list doc),
    vector_store_search q uid (Config.reranker_candidates cfg) = inr docs ->
    docs <> [] ->
    reranker_rerank q docs (Some (Config.reranker_top_k cfg)) = (documents, reranked) ->
    flat_map context_segment reranked <> [] ->
    match llm_generate_response q (flat_map context_segment reranked) sp with
    | inr generated =>
        fst (answer_to q uid sp)
        = Answer generated (map source_of (firstn 3 reranked)) None
    | inl e =>
        fst (answer_to q uid sp)
        = Answer ("An error occurred while generating the response: " ++ exn_msg e)
                 (map source_of (firstn 3 reranked)) (Some (exn_msg e))
    end.
Proof.
  intros q uid sp docs documents reranked Hsearch Hdocs Hrerank Hcontext.
  unfold process_query, graph, then_stage, retrieve_documents. cbn.
  rewrite Hsearch. unfold rerank_documents. cbn.
  destruct docs as [ | d docs ]; [ congruence | ].
  rewrite Hrerank. unfold prepare_context, generate_response. cbn.
  destruct (flat_map context_segment reranked) as [ | segment segments ];
    [ congruence | ].
  destruct (llm_generate_response q (segment :: segments) sp); reflexivity.
Qed.

(** X20: the services a query calls: first the search, with the user's
    identifier and the candidate pool size, and never a second search;
    the reranker and the generator at most once each. *)
Theorem process_query_service_calls :
  forall (q : string) (uid : option Z) (sp : option string),
    exists rest,
      snd (answer_to q uid sp)
      = CallSearch q uid (Config.reranker_candidates cfg) :: rest
      /\ (length rest <= 2)%nat
      /\ (length (List.filter is_generate rest) <= 1)%nat
      /\ Forall (fun c => match c with CallSearch _ _ _ => False | _ => True end) rest.
Proof.
  intros q uid sp.
  unfold process_query, graph, then_stage, retrieve_documents. cbn.
  destruct (vector_store_search q uid (Config.reranker_candidates cfg))
    as [ e | docs ]; cbn.
  - eexists. split; [ reflexivity | ]. cbn. repeat split; try lia. constructor.
  - unfold rerank_documents. cbn.
    destruct docs as [ | d docs ]; cbn.
    + eexists. split; [ reflexivity | ]. cbn. repeat split; try lia. constructor.
    + destruct (reranker_rerank q (d :: docs) (Some (Config.reranker_top_k cfg)))
        as [documents reranked]. cbn.
      unfold generate_response. cbn.
      destruct (flat_map context_segment reranked) as [ | segment segments ]; cbn.
      * eexists. split; [ reflexivity | ]. cbn. repeat split; try lia.
        repeat constructor.
      * destruct (llm_generate_response q (segment :: segments) sp); cbn;
          (eexists; split; [ reflexivity | ]; cbn; repeat split; try lia;
           repeat constructor).
Qed.

End PipelineExtras.

Lemma process_query_generator_outcome_witness :
  exists docs documents reranked,
    Scenarios.search_in Scenarios.two_users "note" (Some 1%Z)
      (Config.reranker_candidates Config.default_settings) = inr docs
    /\ docs <> []
    /\ Reranker.rerank Config.default_settings (Some Scenarios.predict_length)
         "note" docs (Some (Config.reranker_top_k Config.default_settings))
       = (documents, reranked)
    /\ flat_map RAGGraph.context_segment reranked <> []
    /\ fst (Scenarios.ask Scenarios.two_users "note" (Some 1%Z) None)
       = RAGGraph.Answer "An answer." (map RAGGraph.source_of (firstn 3 reranked)) None.
Proof.
  destruct (Scenarios.search_in Scenarios.two_users "note" (Some 1%Z)
              (Config.reranker_candidates Config.default_settings))
    as [ e | docs ] eqn:Hsearch; [ vm_compute in Hsearch; discriminate Hsearch | ].
  assert (Hdocs : docs <> []).
  { intros ->. vm_compute in Hsearch. discriminate Hsearch. }
  destruct (Reranker.rerank Config.default_settings (Some Scenarios.predict_length)
              "note" docs (Some (Config.reranker_top_k Config.default_settings)))
    as [documents reranked] eqn:Hrerank.
  assert (Hcontext : flat_map RAGGraph.context_segment reranked <> []).
  { apply (f_equal snd) in Hrerank. cbn [snd] in Hrerank. subst reranked.
    vm_compute in Hsearch. injection Hsearch as <-. vm_compute. discriminate. }
  exists docs, documents, reranked.
  split; [ reflexivity | ]. split; [ exact Hdocs | ]. split; [ exact Hrerank | ].
  split; [ exact Hcontext | ].
  exact (process_query_generator_outcome Config.default_settings
           (Scenarios.search_in Scenarios.two_users)
           (Reranker.rerank Config.default_settings (Some Scenarios.predict_length))
           Scenarios.llm_fixed "note" (Some 1%Z) None docs documents reranked
           Hsearch Hdocs Hrerank Hcontext).
Defined.

(** ** Ingestion coordinator: outcomes of the text branch, frame, missing file *)

Section CoordinatorExtras.
Import Py EnhancedJSON VectorStore IngestionPipeline.

Variable cfg : Config.settings.
Variable json_loads : string -> result json.
Variable json_split_text : string -> list string.
Variable text_split_text : string -> list string.
Variable pdf_process :
  gmap string file -> string -> gmap string meta_value -> result (list chunk).
Variable embed_documents : list string -> result (list vector).
Variable uuid4 : nat -> string.

Abbreviation ingest :=
  (process_file_from_path cfg json_loads json_split_text text_split_text
     pdf_process embed_documents uuid4).
Abbreviation body :=
  (ingest_body cfg json_loads json_split_text text_split_text
     pdf_process embed_documents uuid4).
Abbreviation chunks_of :=
  (make_chunks cfg json_loads json_split_text text_split_text pdf_process).

(** The metadata the coordinator gives to the processors. *)
Abbreviation file_metadata document_id filename session_id :=
  (<["session_id" := MStr session_id]>
     (<["filename" := MStr filename]>
        (<["document_id" := MInt document_id]> (∅ : gmap string meta_value)))).

Lemma get_page_contents_documents :
  forall docs : list document,
    get_page_contents (map DocChunk docs) = inr (map page_content docs).
Proof.
  induction docs as [ | d docs IH ]; cbn; [ reflexivity | ].
  rewrite IH. reflexivity.
Qed.

(** The text branch on a content that is not JSON: its chunks are the
    pieces of the text splitter. *)
Lemma text_branch_chunks :
  forall w file_path filename content e md,
    endswith (lower filename) ".pdf" = false ->
    endswith (lower filename) ".json" = false ->
    fs w !! file_path = Some (TextFile content) ->
    json_loads (strip content) = inl e ->
    is_ValueError e = true ->
    chunks_of w file_path filename md
    = inr (map DocChunk (map (fun piece => Document piece md) (text_split_text content))).
Proof.
  intros w file_path filename content e md Hpdf Hjson Hfile Hloads Hvalue.
  unfold make_chunks. rewrite Hpdf, Hjson. unfold read_text. rewrite Hfile.
  cbn [bind]. rewrite Hloads. cbn [bind]. rewrite Hvalue.
  unfold text_process, split_documents. cbn [flat_map page_content metadata].
  rewrite app_nil_r. reflexivity.
Qed.

Lemma lookup_set_processed :
  forall w document_id status r,
    db w !! document_id = Some r ->
    db (set_processed w document_id status) !! document_id
    = Some (Row status (error_message r)).
Proof.
  intros w document_id status r Hrow. unfold set_processed. cbn [db].
  rewrite lookup_alter. case_decide; [ | congruence ]. rewrite Hrow. reflexivity.
Qed.


(** X23: a text upload completes: for a file name that ends neither in
    [.pdf] nor in [.json], a content that is not JSON, an embedding
    service that answers and a collection that can be reached, the
    document ends [completed] and the file is removed. *)
Theorem text_file_completes :
  forall w file_path filename document_id session_id user_id r content e embeddings,
    db w !! document_id = Some r ->
    endswith (lower filename) ".pdf" = false ->
    endswith (lower filename) ".json" = false ->
    fs w !! file_path = Some (TextFile content) ->
    json_loads (strip content) = inl e ->
    is_ValueError e = true ->
    embed_documents (text_split_text content) = inr embeddings ->
    outage (collection w) = None ->
    let w' := ingest w file_path filename document_id session_id user_id in
    db w' !! document_id = Some (Row "completed" (error_message r))
    /\ fs w' !! file_path = None.
Proof.
  intros w file_path filename document_id session_id user_id r content e embeddings
         Hrow Hpdf Hjson Hfile Hloads Hvalue Hembed Hup w'.
  subst w'. unfold process_file_from_path. rewrite Hrow.
  set (w1 := set_processed w document_id "processing").
  pose proof (lookup_set_processed w document_id "processing" r Hrow) as Hrow1.
  fold w1 in Hrow1.
  unfold ingest_body.
  rewrite (text_branch_chunks w1 file_path filename content e _ Hpdf Hjson Hfile
             Hloads Hvalue).
  unfold add_documents. rewrite get_page_contents_documents.
  rewrite map_map. cbn [page_content]. rewrite map_id. cbn [bind].
  change (collection w1) with (collection w).
  rewrite Hembed. cbn [bind]. unfold client_upsert. rewrite Hup. cbn [bind].
  unfold finally_unlink, unlink. cbn [fst snd fs set_processed].
  change (fs w1) with (fs w). rewrite Hfile.
  unfold on_exception. cbn [fst snd db fs].
  split; [ | apply lookup_delete_eq ].
  exact (lookup_set_processed (World (db w1) _ _) document_id "completed" _ Hrow1).
Qed.

(** X24: a text upload whose content happens to be JSON but not an
    object (a number, a quoted string, a list) is routed to the
    structural converter and ends [failed] on its [AttributeError]. *)
Theorem json_scalar_in_text_file_fails :
  forall w file_path filename document_id session_id user_id r content v0 v,
    db w !! document_id = Some r ->
    endswith (lower filename) ".pdf" = false ->
    endswith (lower filename) ".json" = false ->
    fs w !! file_path = Some (TextFile content) ->
    json_loads (strip content) = inr v0 ->
    json_loads content = inr v ->
    isinstance_dict v = false ->
    db (ingest w file_path filename document_id session_id user_id) !! document_id
    = Some (Row "failed"
              (Some ("'" ++ type_name v ++ "' object has no attribute 'items'"))).
Proof.
  intros w file_path filename document_id session_id user_id r content v0 v
         Hrow Hpdf Hjson Hfile Hstrip Hloads Hdict.
  unfold process_file_from_path. rewrite Hrow.
  set (w1 := set_processed w document_id "processing").
  pose proof (lookup_set_processed w document_id "processing" r Hrow) as Hrow1.
  fold w1 in Hrow1.
  unfold ingest_body, make_chunks. rewrite Hpdf, Hjson.
  unfold read_text. change (fs w1) with (fs w). rewrite Hfile. cbn [bind].
  rewrite Hstrip. cbn [bind]. unfold json_process, process. rewrite Hloads.
  assert (Hraise : create_structured_chunks v
                     (<["processor" := MStr "enhanced_json"]>
                        (<["content_type" := MStr "json"]>
                           (file_metadata document_id filename session_id)))
                   = inl (Exn AttributeError
                            ("'" ++ type_name v ++ "' object has no attribute 'items'"))).
  { destruct v; try discriminate Hdict; reflexivity. }
  rewrite Hraise. cbn [bind is_ValueError exn_class].
  unfold finally_unlink, unlink. cbn [fst snd]. change (fs w1) with (fs w).
  rewrite Hfile. unfold on_exception. cbn [fst snd db].
  rewrite Hrow1. unfold set_failed. cbn [db].
  rewrite lookup_alter. case_decide; [ | congruence ]. rewrite Hrow1. reflexivity.
Qed.

(** X25: an indexing error is recorded and cleaned up after: when the
    embedding service raises on the pieces of a text upload, the document
    ends [failed] with the message of the exception, the file is removed
    and the collection is as it was. *)
Theorem embedding_error_marks_failed :
  forall w file_path filename document_id session_id user_id r content e failure,
    db w !! document_id = Some r ->
    endswith (lower filename) ".pdf" = false ->
    endswith (lower filename) ".json" = false ->
    fs w !! file_path = Some (TextFile content) ->
    json_loads (strip content) = inl e ->
    is_ValueError e = true ->
    embed_documents (text_split_text content) = inl failure ->
    let w' := ingest w file_path filename document_id session_id user_id in
    db w' !! document_id = Some (Row "failed" (Some (exn_msg failure)))
    /\ fs w' !! file_path = None
    /\ collection w' = collection w.
Proof.
  intros w file_path filename document_id session_id user_id r content e failure
         Hrow Hpdf Hjson Hfile Hloads Hvalue Hembed w'.
  subst w'. unfold process_file_from_path. rewrite Hrow.
  set (w1 := set_processed w document_id "processing").
  pose proof (lookup_set_processed w document_id "processing" r Hrow) as Hrow1.
  fold w1 in Hrow1.
  unfold ingest_body.
  rewrite (text_branch_chunks w1 file_path filename content e _ Hpdf Hjson Hfile
             Hloads Hvalue).
  unfold add_documents. rewrite get_page_contents_documents.
  rewrite map_map. cbn [page_content]. rewrite map_id. cbn [bind].
  rewrite Hembed. cbn [bind].
  unfold finally_unlink, unlink. cbn [fst snd]. change (fs w1) with (fs w).
  rewrite Hfile. unfold on_exception. cbn [fst snd db].
  rewrite Hrow1. unfold set_failed. cbn [db fs collection].
  split; [ | split; [ apply lookup_delete_eq | reflexivity ] ].
  rewrite lookup_alter. case_decide; [ | congruence ]. rewrite Hrow1. reflexivity.
Qed.

(** What the inner block leaves alone: the files, and the rows of the
    other documents. *)
Lemma ingest_body_frame :
  forall w file_path filename document_id session_id user_id,
    let o := body w file_path filename document_id session_id user_id in
    fs (fst o) = fs w
    /\ forall other, other <> document_id -> db (fst o) !! other = db w !! other.
Proof.
  intros w file_path filename document_id session_id user_id. unfold ingest_body.
  destruct (make_chunks _ _ _ _ _ _ _ _ _) as [ e | chunks ]; cbn.
  { split; [ reflexivity | intros; reflexivity ]. }
  destruct (add_documents _ _ _ _ _ _) as [ e | [q ids] ]; cbn.
  { split; [ reflexivity | intros; reflexivity ]. }
  split; [ reflexivity | ].
  intros other Hother. rewrite lookup_alter_ne by congruence. reflexivity.
Qed.

(** X26: an ingestion touches its own document and its own file only:
    the row of every other document and every other file are as they
    were, whether the ingestion completes or fails. *)
Theorem process_file_from_path_frame :
  forall w file_path filename document_id session_id user_id,
    let w' := process_file_from_path cfg json_loads json_split_text text_split_text
                pdf_process embed_documents uuid4 w file_path filename document_id
                session_id user_id in
    (forall other, other <> document_id -> db w' !! other = db w !! other)
    /\ (forall other, other <> file_path -> fs w' !! other = fs w !! other).
Proof.
  intros w file_path filename document_id session_id user_id w'. subst w'.
  unfold process_file_from_path.
  destruct (db w !! document_id) as [ r | ]; [ | split; intros; reflexivity ].
  set (w1 := set_processed w document_id "processing").
  destruct (ingest_body_frame w1 file_path filename document_id session_id user_id)
    as [Hfs Hdb].
  destruct (body w1 file_path filename document_id session_id user_id) as [w2 oe].
  cbn [fst] in Hfs, Hdb.
  assert (Hdb1 : forall other, other <> document_id -> db w2 !! other = db w !! other).
  { intros other Hother. rewrite (Hdb other Hother). unfold w1, set_processed.
    cbn [db]. rewrite lookup_alter_ne by congruence. reflexivity. }
  assert (Hfs1 : fs w2 = fs w) by (rewrite Hfs; reflexivity).
  unfold finally_unlink, unlink. cbn [fst snd].
  assert (Hfailed : forall w3 message other,
            other <> document_id ->
            db (set_failed w3 document_id message) !! other = db w3 !! other).
  { intros w3 message other Hother. unfold set_failed. cbn [db].
    rewrite lookup_alter_ne by congruence. reflexivity. }
  destruct (fs w2 !! file_path) as [ f | ].
  - unfold on_exception. cbn [fst snd db fs].
    destruct oe as [ e | ]; [ destruct (db w2 !! document_id) | ]; cbn [db fs set_failed];
      split; intros other Hother;
      try (rewrite lookup_alter_ne by congruence);
      try (rewrite lookup_delete_ne by congruence);
      try (apply Hdb1; exact Hother); rewrite Hfs1; reflexivity.
  - unfold on_exception. cbn [fst snd].
    destruct (db w2 !! document_id); cbn [db fs set_failed];
      split; intros other Hother;
      try (rewrite lookup_alter_ne by congruence);
      try (apply Hdb1; exact Hother); rewrite Hfs1; reflexivity.
Qed.


End CoordinatorExtras.

Lemma process_file_from_path_terminal_witness :
  IngestionPipeline.db (Scenarios.pending_upload "/tmp/up_notes.txt" Scenarios.not_json)
    !! 5%Z = Some (IngestionPipeline.Row "pending" None)
  /\ (exists r',
        IngestionPipeline.db
          (Scenarios.ingest_path
             (Scenarios.pending_upload "/tmp/up_notes.txt" Scenarios.not_json)
             "/tmp/up_notes.txt" "notes.txt" 5) !! 5%Z = Some r'
        /\ (IngestionPipeline.processed r' = "completed"
            \/ IngestionPipeline.processed r' = "failed"))
  /\ IngestionPipeline.fs
       (Scenarios.ingest_path
          (Scenarios.pending_upload "/tmp/up_notes.txt" Scenarios.not_json)
          "/tmp/up_notes.txt" "notes.txt" 5) !! "/tmp/up_notes.txt" = None.
Proof.
  assert (Hrow : IngestionPipeline.db
                   (Scenarios.pending_upload "/tmp/up_notes.txt" Scenarios.not_json)
                   !! 5%Z = Some (IngestionPipeline.Row "pending" None))
    by (vm_compute; reflexivity).
  split; [ exact Hrow | ].
  exact (process_file_from_path_terminal Config.default_settings Services.loads_ascii
           Scenarios.split_default Scenarios.split_default Scenarios.pdf_loader_missing
           Scenarios.embed_constant Scenarios.uuid_counter
           (Scenarios.pending_upload "/tmp/up_notes.txt" Scenarios.not_json)
           "/tmp/up_notes.txt" "notes.txt" 5 "session" 1 _ Hrow).
Defined.

Lemma json_branch_fallback_fails_witness :
  IngestionPipeline.db (Scenarios.pending_upload "/tmp/up_notes.json" Scenarios.not_json)
    !! 5%Z = Some (IngestionPipeline.Row "pending" None)
  /\ Py.endswith (Py.lower "notes.json") ".pdf" = false
  /\ Py.endswith (Py.lower "notes.json") ".json" = true
  /\ Services.loads_ascii "not json" = inl Services.decode_error
  /\ Scenarios.split_default "not json" <> []
  /\ IngestionPipeline.db
       (Scenarios.ingest_path
          (Scenarios.pending_upload "/tmp/up_notes.json" Scenarios.not_json)
          "/tmp/up_notes.json" "notes.json" 5) !! 5%Z
     = Some (IngestionPipeline.Row "failed"
               (Some "'str' object has no attribute 'page_content'")).
Proof.
  assert (Hrow : IngestionPipeline.db
                   (Scenarios.pending_upload "/tmp/up_notes.json" Scenarios.not_json)
                   !! 5%Z = Some (IngestionPipeline.Row "pending" None))
    by (vm_compute; reflexivity).
  assert (Hpdf : Py.endswith (Py.lower "notes.json") ".pdf" = false)
    by (vm_compute; reflexivity).
  assert (Hjson : Py.endswith (Py.lower "notes.json") ".json" = true)
    by (vm_compute; reflexivity).
  assert (Hfile : IngestionPipeline.fs
                    (Scenarios.pending_upload "/tmp/up_notes.json" Scenarios.not_json)
                    !! "/tmp/up_notes.json" = Some (IngestionPipeline.TextFile "not json"))
    by (vm_compute; reflexivity).
  assert (Hloads : Services.loads_ascii "not json" = inl Services.decode_error)
    by (vm_compute; reflexivity).
  assert (Hpieces : Scenarios.split_default "not json" <> [])
    by (vm_compute; discriminate).
  split; [ exact Hrow | ]. split; [ exact Hpdf | ]. split; [ exact Hjson | ].
  split; [ exact Hloads | ]. split; [ exact Hpieces | ].
  exact (json_branch_fallback_fails Config.default_settings Services.loads_ascii
           Scenarios.split_default Scenarios.split_default Scenarios.pdf_loader_missing
           Scenarios.embed_constant Scenarios.uuid_counter
           (Scenarios.pending_upload "/tmp/up_notes.json" Scenarios.not_json)
           "/tmp/up_notes.json" "notes.json" 5 "session" 1 _ "not json"
           Services.decode_error Hrow Hpdf Hjson Hfile Hloads eq_refl Hpieces).
Defined.

Lemma text_file_completes_witness :
  IngestionPipeline.db (Scenarios.pending_upload "/tmp/up_notes.txt" Scenarios.not_json)
    !! 5%Z = Some (IngestionPipeline.Row "pending" None)
  /\ Services.loads_ascii (Py.strip "not json") = inl Services.decode_error
  /\ Scenarios.embed_constant (Scenarios.split_default "not json") = inr [[1%Z]]
  /\ IngestionPipeline.db
       (Scenarios.ingest_path
          (Scenarios.pending_upload "/tmp/up_notes.txt" Scenarios.not_json)
          "/tmp/up_notes.txt" "notes.txt" 5) !! 5%Z
     = Some (IngestionPipeline.Row "completed" None)
  /\ IngestionPipeline.fs
       (Scenarios.ingest_path
          (Scenarios.pending_upload "/tmp/up_notes.txt" Scenarios.not_json)
          "/tmp/up_notes.txt" "notes.txt" 5) !! "/tmp/up_notes.txt" = None.
Proof.
  assert (Hrow : IngestionPipeline.db
                   (Scenarios.pending_upload "/tmp/up_notes.txt" Scenarios.not_json)
                   !! 5%Z = Some (IngestionPipeline.Row "pending" None))
    by (vm_compute; reflexivity).
  assert (Hpdf : Py.endswith (Py.lower "notes.txt") ".pdf" = false)
    by (vm_compute; reflexivity).
  assert (Hjson : Py.endswith (Py.lower "notes.txt") ".json" = false)
    by (vm_compute; reflexivity).
  assert (Hfile : IngestionPipeline.fs
                    (Scenarios.pending_upload "/tmp/up_notes.txt" Scenarios.not_json)
                    !! "/tmp/up_notes.txt" = Some (IngestionPipeline.TextFile "not json"))
    by (vm_compute; reflexivity).
  assert (Hloads : Services.loads_ascii (Py.strip "not json") = inl Services.decode_error)
    by (vm_compute; reflexivity).
  assert (Hembed : Scenarios.embed_constant (Scenarios.split_default "not json")
                   = inr [[1%Z]]) by (vm_compute; reflexivity).
  split; [ exact Hrow | ]. split; [ exact Hloads | ]. split; [ exact Hembed | ].
  exact (text_file_completes Config.default_settings Services.loads_ascii
           Scenarios.split_default Scenarios.split_default Scenarios.pdf_loader_missing
           Scenarios.embed_constant Scenarios.uuid_counter
           (Scenarios.pending_upload "/tmp/up_notes.txt" Scenarios.not_json)
           "/tmp/up_notes.txt" "notes.txt" 5 "session" 1 _ "not json"
           Services.decode_error [[1%Z]]
           Hrow Hpdf Hjson Hfile Hloads eq_refl Hembed eq_refl).
Defined.

Lemma json_scalar_in_text_file_fails_witness :
  IngestionPipeline.db
    (Scenarios.pending_upload "/tmp/up_answer.txt" (IngestionPipeline.TextFile "42"))
    !! 5%Z = Some (IngestionPipeline.Row "pending" None)
  /\ Services.loads_ascii "42" = inr (EnhancedJSON.JInt 42)
  /\ IngestionPipeline.db
       (Scenarios.ingest_path
          (Scenarios.pending_upload "/tmp/up_answer.txt" (IngestionPipeline.TextFile "42"))
          "/tmp/up_answer.txt" "answer.txt" 5) !! 5%Z
     = Some (IngestionPipeline.Row "failed"
               (Some "'int' object has no attribute 'items'")).
Proof.
  assert (Hrow : IngestionPipeline.db
                   (Scenarios.pending_upload "/tmp/up_answer.txt"
                      (IngestionPipeline.TextFile "42"))
                   !! 5%Z = Some (IngestionPipeline.Row "pending" None))
    by (vm_compute; reflexivity).
  assert (Hpdf : Py.endswith (Py.lower "answer.txt") ".pdf" = false)
    by (vm_compute; reflexivity).
  assert (Hjson : Py.endswith (Py.lower "answer.txt") ".json" = false)
    by (vm_compute; reflexivity).
  assert (Hfile : IngestionPipeline.fs
                    (Scenarios.pending_upload "/tmp/up_answer.txt"
                       (IngestionPipeline.TextFile "42"))
                    !! "/tmp/up_answer.txt" = Some (IngestionPipeline.TextFile "42"))
    by (vm_compute; reflexivity).
  assert (Hstrip : Services.loads_ascii (Py.strip "42") = inr (EnhancedJSON.JInt 42))
    by (vm_compute; reflexivity).
  assert (Hloads : Services.loads_ascii "42" = inr (EnhancedJSON.JInt 42))
    by (vm_compute; reflexivity).
  split; [ exact Hrow | ]. split; [ exact Hloads | ].
  exact (json_scalar_in_text_file_fails Config.default_settings Services.loads_ascii
           Scenarios.split_default Scenarios.split_default Scenarios.pdf_loader_missing
           Scenarios.embed_constant Scenarios.uuid_counter
           (Scenarios.pending_upload "/tmp/up_answer.txt" (IngestionPipeline.TextFile "42"))
           "/tmp/up_answer.txt" "answer.txt" 5 "session" 1 _ "42"
           (EnhancedJSON.JInt 42) (EnhancedJSON.JInt 42)
           Hrow Hpdf Hjson Hfile Hstrip Hloads eq_refl).
Defined.

Lemma embedding_error_marks_failed_witness :
  IngestionPipeline.db (Scenarios.pending_upload "/tmp/up_notes.txt" Scenarios.not_json)
    !! 5%Z = Some (IngestionPipeline.Row "pending" None)
  /\ Scenarios.embed_fails (Scenarios.split_default "not json")
     = inl (Py.Exn Py.RuntimeError "embedding service unreachable")
  /\ IngestionPipeline.db
       (IngestionPipeline.process_file_from_path Config.default_settings
          Services.loads_ascii Scenarios.split_default Scenarios.split_default
          Scenarios.pdf_loader_missing Scenarios.embed_fails Scenarios.uuid_counter
          (Scenarios.pending_upload "/tmp/up_notes.txt" Scenarios.not_json)
          "/tmp/up_notes.txt" "notes.txt" 5 "session" 1) !! 5%Z
     = Some (IngestionPipeline.Row "failed" (Some "embedding service unreachable"))
  /\ IngestionPipeline.fs
       (IngestionPipeline.process_file_from_path Config.default_settings
          Services.loads_ascii Scenarios.split_default Scenarios.split_default
          Scenarios.pdf_loader_missing Scenarios.embed_fails Scenarios.uuid_counter
          (Scenarios.pending_upload "/tmp/up_notes.txt" Scenarios.not_json)
          "/tmp/up_notes.txt" "notes.txt" 5 "session" 1) !! "/tmp/up_notes.txt" = None
  /\ IngestionPipeline.collection
       (IngestionPipeline.process_file_from_path Config.default_settings
          Services.loads_ascii Scenarios.split_default Scenarios.split_default
          Scenarios.pdf_loader_missing Scenarios.embed_fails Scenarios.uuid_counter
          (Scenarios.pending_upload "/tmp/up_notes.txt" Scenarios.not_json)
          "/tmp/up_notes.txt" "notes.txt" 5 "session" 1)
     = IngestionPipeline.collection
         (Scenarios.pending_upload "/tmp/up_notes.txt" Scenarios.not_json).
Proof.
  assert (Hrow : IngestionPipeline.db
                   (Scenarios.pending_upload "/tmp/up_notes.txt" Scenarios.not_json)
                   !! 5%Z = Some (IngestionPipeline.Row "pending" None))
    by (vm_compute; reflexivity).
  assert (Hpdf : Py.endswith (Py.lower "notes.txt") ".pdf" = false)
    by (vm_compute; reflexivity).
  assert (Hjson : Py.endswith (Py.lower "notes.txt") ".json" = false)
    by (vm_compute; reflexivity).
  assert (Hfile : IngestionPipeline.fs
                    (Scenarios.pending_upload "/tmp/up_notes.txt" Scenarios.not_json)
                    !! "/tmp/up_notes.txt" = Some (IngestionPipeline.TextFile "not json"))
    by (vm_compute; reflexivity).
  assert (Hloads : Services.loads_ascii (Py.strip "not json") = inl Services.decode_error)
    by (vm_compute; reflexivity).
  split; [ exact Hrow | ]. split; [ reflexivity | ].
  exact (embedding_error_marks_failed Config.default_settings Services.loads_ascii
           Scenarios.split_default Scenarios.split_default Scenarios.pdf_loader_missing
           Scenarios.embed_fails Scenarios.uuid_counter
           (Scenarios.pending_upload "/tmp/up_notes.txt" Scenarios.not_json)
           "/tmp/up_notes.txt" "notes.txt" 5 "session" 1 _ "not json"
           Services.decode_error _ Hrow Hpdf Hjson Hfile Hloads eq_refl eq_refl).
Defined.

